(** * Inveritax scraper: the normalizer and the token protocol

    A shallow embedding of [src/data_normalizer.py] (class
    [TaxDataNormalizer]) and of the token handling of
    [src/scraper.py] ([extract_aspnet_tokens] and the protocol steps of
    [BrownCountyScraper]), with the properties of the specification
    stated and settled against it.

    Conventions of the embedding.
    - A Python [str] is a [string]; each character is a code point below
      256, so the character classes below are Python's on that range.
    - A Python [float] is a binary64 primitive float.
    - A Python value is a tree ([pyval]): inputs share no object between two
      positions, as after [json.loads].  The lists the normalizer extends
      in place are tracked by passing [tax_data] through the calls.
    - A raised exception is the [Raise] outcome of [res]. *)

From Stdlib Require Import ZArith NArith String Ascii List Bool Lia.
From Stdlib Require Import DecimalString.
From Stdlib Require Import Floats.PrimFloat Floats.SpecFloat Floats.FloatOps.
From stdpp Require Import base option list strings gmap.
Import ListNotations.

Set Warnings "-register-all".

Local Open Scope string_scope.
Local Open Scope list_scope.
Local Open Scope Z_scope.

(** ** Outcomes *)

Inductive exn : Type :=
  | AttributeError | TypeError | ValueError | KeyError | IndexError
  | OverflowError
  | RequestException | WebDriverException | TimeoutException | NoSuchElementException.

Inductive res (A : Type) : Type :=
  | Ok (a : A)
  | Raise (e : exn).
Arguments Ok {A} a.
Arguments Raise {A} e.

Definition rbind {A B : Type} (m : res A) (k : A -> res B) : res B :=
  match m with
  | Ok a => k a
  | Raise e => Raise e
  end.

Declare Scope res_scope.
Delimit Scope res_scope with res.
Notation "'do' x <- m ; k" := (rbind m (fun x => k))
  (at level 10, x name, m at level 100, k at level 200) : res_scope.
Notation "'do' ' p <- m ; k" := (rbind m (fun x => let 'p := x in k))
  (at level 10, p pattern, m at level 100, k at level 200) : res_scope.
Local Open Scope res_scope.

Definition is_ok {A : Type} (m : res A) : bool :=
  match m with Ok _ => true | Raise _ => false end.

(** [try: ... except: continue/pass]: any exception becomes the default. *)
Definition except_all {A : Type} (m : res A) (dflt : A) : A :=
  match m with Ok a => a | Raise _ => dflt end.

(** ** Characters (code points below 256) *)

Module Chr.

Definition code (c : ascii) : N := N_of_ascii c.

Definition between (lo hi : N) (c : ascii) : bool :=
  ((lo <=? code c) && (code c <=? hi))%N.

Definition one_of (l : list N) (c : ascii) : bool :=
  existsb (N.eqb (code c)) l.

(** [\d] of [re] on [str] patterns, and what [int()] and [float()] read. *)
Definition isdecimal (c : ascii) : bool := between 48 57 c.

(** [str.isdigit]: the decimal digits and the superscripts 1, 2, 3. *)
Definition isdigit (c : ascii) : bool :=
  isdecimal c || one_of [178; 179; 185]%N c.

(** [str.isspace], the characters [str.strip()] removes. *)
Definition isspace (c : ascii) : bool :=
  between 9 13 c || between 28 32 c || one_of [133; 160]%N c.

Definition isupper (c : ascii) : bool :=
  between 65 90 c || (between 192 222 c && negb (one_of [215]%N c)).

Definition islower (c : ascii) : bool :=
  between 97 122 c || one_of [170; 181; 186]%N c
  || (between 223 255 c && negb (one_of [247]%N c)).

(** [str.isalnum]: letters, digits and the other numeric characters. *)
Definition isalnum (c : ascii) : bool :=
  isupper c || islower c || isdigit c || between 188 190 c.

(** [\w] of [re]: alphanumeric or the underscore. *)
Definition isword (c : ascii) : bool := isalnum c || one_of [95]%N c.

Definition lower (c : ascii) : ascii :=
  if isupper c then ascii_of_N (code c + 32) else c.

(** [str.isprintable], used by [repr]. *)
Definition isprintable (c : ascii) : bool :=
  between 32 126 c || (between 161 255 c && negb (one_of [173]%N c)).

End Chr.

(** ** Strings *)

Module Str.

Fixpoint all (p : ascii -> bool) (s : string) : bool :=
  match s with
  | EmptyString => true
  | String c s' => p c && all p s'
  end.

Fixpoint any (p : ascii -> bool) (s : string) : bool :=
  match s with
  | EmptyString => false
  | String c s' => p c || any p s'
  end.

Fixpoint filter (p : ascii -> bool) (s : string) : string :=
  match s with
  | EmptyString => EmptyString
  | String c s' => if p c then String c (filter p s') else filter p s'
  end.

Fixpoint map (f : ascii -> ascii) (s : string) : string :=
  match s with
  | EmptyString => EmptyString
  | String c s' => String (f c) (map f s')
  end.

Definition nonempty (s : string) : bool :=
  match s with EmptyString => false | String _ _ => true end.

Definition len (s : string) : Z := Z.of_nat (String.length s).

(** [s.lower()] *)
Definition lower (s : string) : string := map Chr.lower s.

(** [s.isdigit()]: at least one character, all of them digits. *)
Definition isdigit (s : string) : bool := nonempty s && all Chr.isdigit s.

Fixpoint lstrip (s : string) : string :=
  match s with
  | EmptyString => EmptyString
  | String c s' => if Chr.isspace c then lstrip s' else s
  end.

Fixpoint rstrip (s : string) : string :=
  match s with
  | EmptyString => EmptyString
  | String c s' =>
      match rstrip s' with
      | EmptyString => if Chr.isspace c then EmptyString else String c EmptyString
      | r => String c r
      end
  end.

(** [s.strip()] *)
Definition strip (s : string) : string := rstrip (lstrip s).

Fixpoint startswith (p s : string) : bool :=
  match p, s with
  | EmptyString, _ => true
  | String a p', String b s' => Ascii.eqb a b && startswith p' s'
  | String _ _, EmptyString => false
  end.

(** [sub in s] for strings *)
Fixpoint contains (sub s : string) : bool :=
  startswith sub s ||
  match s with
  | EmptyString => false
  | String _ s' => contains sub s'
  end.

Fixpoint drop (n : nat) (s : string) : string :=
  match n, s with
  | O, _ => s
  | S n', String _ s' => drop n' s'
  | S _, EmptyString => EmptyString
  end.

Fixpoint take (n : nat) (s : string) : string :=
  match n, s with
  | S n', String c s' => String c (take n' s')
  | _, _ => EmptyString
  end.

Fixpoint repeat (c : ascii) (n : nat) : string :=
  match n with O => EmptyString | S n' => String c (repeat c n') end.

(** [sep.join(l)] *)
Fixpoint join (sep : string) (l : list string) : string :=
  match l with
  | [] => EmptyString
  | [s] => s
  | s :: l' => s +:+ sep +:+ join sep l'
  end.

Definition chars (s : string) : list string :=
  List.map (fun c => String c EmptyString) (list_ascii_of_string s).

(** [str(z)] of an [int] *)
Definition of_Z (z : Z) : string := NilZero.string_of_int (Z.to_int z).

(** [int(s)] on a string of [isdigit] characters: the superscripts are
    digits for [isdigit] and a [ValueError] for [int]. *)
Fixpoint digits_value (acc : Z) (s : string) : option Z :=
  match s with
  | EmptyString => Some acc
  | String c s' =>
      if Chr.isdecimal c
      then digits_value (10 * acc + Z.of_N (Chr.code c - 48)) s'
      else None
  end.

Definition to_int (s : string) : res Z :=
  match s with
  | EmptyString => Raise ValueError
  | _ => match digits_value 0 s with Some z => Ok z | None => Raise ValueError end
  end.

End Str.

(** ** Floats: [float()], [repr] and the comparisons the source uses *)

Module Flt.

Definition prec : Z := 53.
Definition emax : Z := 1024.

Definition zero : float := 0%float.

(** [float(z)] of an [int]: the nearest binary64, [OverflowError] when
    that is out of range. *)
Definition of_Z (z : Z) : res float :=
  match binary_normalize prec emax z 0 false with
  | S754_infinity _ => Raise OverflowError
  | x => Ok (SF2Prim x)
  end.

(** The binary64 nearest to [(-1)^neg * m / 10^k]. *)
Definition of_decimal (neg : bool) (m : Z) (k : Z) : float :=
  match m with
  | Zpos pm =>
      if k <=? 0
      then SF2Prim (binary_normalize prec emax
                      ((if neg then Zneg pm else Zpos pm) * 10 ^ (- k)) 0 false)
      else SF2Prim (SFdiv prec emax (S754_finite neg pm 0)
                      (S754_finite false (Z.to_pos (10 ^ k)) 0))
  | _ => SF2Prim (S754_zero neg)
  end.

Fixpoint span_decimal (s : string) : string * string :=
  match s with
  | String c s' =>
      if Chr.isdecimal c
      then let '(d, r) := span_decimal s' in (String c d, r)
      else (EmptyString, s)
  | EmptyString => (EmptyString, EmptyString)
  end.

(** [float(s)] on what [re.sub(r'[^\d.-]', '', _)] leaves: an optional
    minus, digits with at most one point, at least one digit;
    anything else is a [ValueError]. *)
Definition of_string (s : string) : res float :=
  let '(neg, s1) :=
    match s with
    | String "-"%char r => (true, r)
    | _ => (false, s)
    end in
  let '(ip, s2) := span_decimal s1 in
  let '(fp, s3) :=
    match s2 with
    | String "."%char r => span_decimal r
    | _ => (EmptyString, s2)
    end in
  if (Str.nonempty ip || Str.nonempty fp) && negb (Str.nonempty s3)
  then match Str.digits_value 0 (ip +:+ fp) with
       | Some m => Ok (of_decimal neg m (Str.len fp))
       | None => Raise ValueError
       end
  else Raise ValueError.

(** Truth value of a float: everything but the two zeros. *)
Definition truthy (f : float) : bool := negb (PrimFloat.eqb f zero).

(** [f > 0] *)
Definition gt0 (f : float) : bool := PrimFloat.ltb zero f.

(** *** [repr(f)]: the shortest digits that read back as [f] *)

(** [10^k <= n / d], for positive [n] and [d]. *)
Definition ge_pow10 (n d k : Z) : bool :=
  if 0 <=? k then d * 10 ^ k <=? n else d <=? n * 10 ^ (- k).

Fixpoint decpt_up (fuel : nat) (n d k : Z) : Z :=
  match fuel with
  | O => k
  | S fuel' => if ge_pow10 n d k then decpt_up fuel' n d (k + 1) else k
  end.

Fixpoint decpt_down (fuel : nat) (n d k : Z) : Z :=
  match fuel with
  | O => k
  | S fuel' => if ge_pow10 n d (k - 1) then k else decpt_down fuel' n d (k - 1)
  end.

(** The [k] with [10^(k-1) <= n/d < 10^k]. *)
Definition decpt (n d : Z) : Z :=
  let k0 := ((Z.log2 n - Z.log2 d) * 30103) / 100000 in
  decpt_down 8 n d (decpt_up 8 n d k0).

Definition reads_back (x : float) (neg : bool) (D q : Z) : bool :=
  PrimFloat.eqb (of_decimal neg D (- q)) x.

(** Among the [p]-digit decimals [D * 10^(k-p)] next to [n/d], the one
    that reads back as [x], the nearer one when both do. *)
Definition candidate (x : float) (neg : bool) (n d k p : Z) : option Z :=
  let q := k - p in
  let '(sn, sd) := if 0 <=? q then (n, d * 10 ^ q) else (n * 10 ^ (- q), d) in
  let lo := sn / sd in
  let r := sn mod sd in
  let lo_ok := reads_back x neg lo q in
  let hi_ok := reads_back x neg (lo + 1) q in
  let prefer_lo := (2 * r <? sd) || ((2 * r =? sd) && Z.even lo) in
  match lo_ok, hi_ok with
  | true, true => Some (if prefer_lo then lo else lo + 1)
  | true, false => Some lo
  | false, true => Some (lo + 1)
  | false, false => None
  end.

Fixpoint shortest (fuel : nat) (x : float) (neg : bool) (n d k p : Z) : Z * Z :=
  match fuel with
  | O => (n * 10 ^ (17 - k) / d, 17)
  | S fuel' =>
      match candidate x neg n d k p with
      | Some D => (D, p)
      | None => shortest fuel' x neg n d k (p + 1)
      end
  end.

Fixpoint strip_zeros (fuel : nat) (D : Z) : Z :=
  match fuel with
  | O => D
  | S fuel' => if (D mod 10 =? 0) && (0 <? D) then strip_zeros fuel' (D / 10) else D
  end.

Definition exponent_text (e : Z) : string :=
  let a := Str.of_Z (Z.abs e) in
  (if e <? 0 then "e-" else "e+") +:+ (if Z.abs e <? 10 then "0" +:+ a else a).

Definition format_digits (ds : string) (dp : Z) : string :=
  let nd := Str.len ds in
  if (-4 <? dp) && (dp <=? 16) then
    if dp <=? 0 then "0." +:+ Str.repeat "0"%char (Z.to_nat (- dp)) +:+ ds
    else if nd <=? dp then ds +:+ Str.repeat "0"%char (Z.to_nat (dp - nd)) +:+ ".0"
    else Str.take (Z.to_nat dp) ds +:+ "." +:+ Str.drop (Z.to_nat dp) ds
  else
    Str.take 1 ds +:+ (if 1 <? nd then "." +:+ Str.drop 1 ds else "")
    +:+ exponent_text (dp - 1).

Definition repr (x : float) : string :=
  match Prim2SF x with
  | S754_nan => "nan"
  | S754_infinity s => if s then "-inf" else "inf"
  | S754_zero s => if s then "-0.0" else "0.0"
  | S754_finite s m e =>
      let '(n, d) := if 0 <=? e then (Zpos m * 2 ^ e, 1) else (Zpos m, 2 ^ (- e)) in
      let k := decpt n d in
      let '(D, p) := shortest 17 x s n d k 1 in
      let ds := Str.of_Z (strip_zeros 17 D) in
      let dp := k + (Str.len (Str.of_Z D) - p) in
      (if s then "-" else "") +:+ format_digits ds dp
  end.

(** [z == f] for an [int] and a [float]: exact. *)
Definition eq_Z (z : Z) (x : float) : bool :=
  match Prim2SF x with
  | S754_zero _ => z =? 0
  | S754_finite s m e =>
      let v := if s then Zneg m else Zpos m in
      if 0 <=? e then z =? v * 2 ^ e else z * 2 ^ (- e) =? v
  | _ => false
  end.

End Flt.

(** ** Python values *)

(** Dictionary keys: strings, as in parsed JSON, and integers. *)
Inductive pykey : Type :=
  | KStr (s : string)
  | KInt (z : Z).

Inductive pyval : Type :=
  | PNone
  | PBool (b : bool)
  | PInt (z : Z)
  | PFloat (f : float)
  | PStr (s : string)
  | PList (l : list pyval)
  | PDict (d : list (pykey * pyval)).

(** A [dict] keeps its items in insertion order. *)
Abbreviation dict := (list (pykey * pyval)).

Module Py.

Definition key_eqb (a b : pykey) : bool :=
  match a, b with
  | KStr s, KStr t => String.eqb s t
  | KInt x, KInt y => x =? y
  | _, _ => false
  end.

(** The key as the value an iteration over the dictionary yields. *)
Definition key_val (k : pykey) : pyval :=
  match k with
  | KStr s => PStr s
  | KInt z => PInt z
  end.

Fixpoint lookup (d : dict) (k : pykey) : option pyval :=
  match d with
  | [] => None
  | (k', v) :: d' => if key_eqb k' k then Some v else lookup d' k
  end.

(** [d[k] = v]: in place when the key is there, appended otherwise. *)
Fixpoint store (d : dict) (k : pykey) (v : pyval) : dict :=
  match d with
  | [] => [(k, v)]
  | (k', v') :: d' =>
      if key_eqb k' k then (k', v) :: d' else (k', v') :: store d' k v
  end.

(** [key in d] and [d.get(key)] at a string key *)
Definition has (d : dict) (key : string) : bool :=
  match lookup d (KStr key) with Some _ => true | None => false end.

Definition get (d : dict) (key : string) : pyval :=
  match lookup d (KStr key) with Some v => v | None => PNone end.

Definition get_default (d : dict) (key : string) (dflt : pyval) : pyval :=
  match lookup d (KStr key) with Some v => v | None => dflt end.

Definition is_dict (v : pyval) : bool :=
  match v with PDict _ => true | _ => false end.

(** [x.get(key, dflt)] on any value: only a [dict] has [get]. *)
Definition dot_get (x : pyval) (key : string) (dflt : pyval) : res pyval :=
  match x with
  | PDict d => Ok (get_default d key dflt)
  | _ => Raise AttributeError
  end.

(** Truth value *)
Definition truthy (v : pyval) : bool :=
  match v with
  | PNone => false
  | PBool b => b
  | PInt z => negb (z =? 0)
  | PFloat f => Flt.truthy f
  | PStr s => Str.nonempty s
  | PList l => match l with [] => false | _ => true end
  | PDict d => match d with [] => false | _ => true end
  end.

(** [a or b] *)
Definition or (a b : pyval) : pyval := if truthy a then a else b.

(** [for x in v]: the items of a list, the keys of a dictionary, the
    characters of a string; nothing else of a parsed payload iterates. *)
Definition iter (v : pyval) : res (list pyval) :=
  match v with
  | PList l => Ok l
  | PDict d => Ok (List.map (fun kv => key_val (fst kv)) d)
  | PStr s => Ok (List.map PStr (Str.chars s))
  | _ => Raise TypeError
  end.

(** [len(v)] *)
Definition len (v : pyval) : res Z :=
  match v with
  | PList l => Ok (Z.of_nat (length l))
  | PDict d => Ok (Z.of_nat (length d))
  | PStr s => Ok (Str.len s)
  | _ => Raise TypeError
  end.

(** *** [repr] and [str] *)

Definition dquote : ascii := ascii_of_N 34.
Definition squote : ascii := ascii_of_N 39.
Definition backslash : ascii := ascii_of_N 92.

Definition hex_digit (n : N) : ascii :=
  if (n <? 10)%N then ascii_of_N (48 + n) else ascii_of_N (87 + n).

Definition escape_char (q : ascii) (c : ascii) : string :=
  let one (x : ascii) := String x EmptyString in
  if Ascii.eqb c backslash then String backslash (one backslash)
  else if Ascii.eqb c q then String backslash (one q)
  else if (Chr.code c =? 9)%N then String backslash "t"
  else if (Chr.code c =? 10)%N then String backslash "n"
  else if (Chr.code c =? 13)%N then String backslash "r"
  else if Chr.isprintable c then one c
  else String backslash
         (String "x" (String (hex_digit (Chr.code c / 16))
                        (one (hex_digit (Chr.code c mod 16))))).

Fixpoint escape (q : ascii) (s : string) : string :=
  match s with
  | EmptyString => EmptyString
  | String c s' => escape_char q c +:+ escape q s'
  end.

(** [repr(s)]: single quotes, unless the text has one and no double quote. *)
Definition repr_str (s : string) : string :=
  let q := if Str.any (Ascii.eqb squote) s && negb (Str.any (Ascii.eqb dquote) s)
           then dquote else squote in
  String q (escape q s +:+ String q EmptyString).

Definition repr_key (k : pykey) : string :=
  match k with
  | KStr s => repr_str s
  | KInt z => Str.of_Z z
  end.

Fixpoint repr (v : pyval) : string :=
  match v with
  | PNone => "None"
  | PBool b => if b then "True" else "False"
  | PInt z => Str.of_Z z
  | PFloat f => Flt.repr f
  | PStr s => repr_str s
  | PList l => "[" +:+ Str.join ", " (List.map repr l) +:+ "]"
  | PDict d =>
      "{" +:+ Str.join ", "
                (List.map (fun kv => let '(k, x) := kv in
                                     repr_key k +:+ ": " +:+ repr x) d)
      +:+ "}"
  end.

(** [str(v)], also what an f-string prints *)
Definition str (v : pyval) : string :=
  match v with
  | PStr s => s
  | _ => repr v
  end.

(** *** [==] *)

Definition num_eqb (a b : pyval) : option bool :=
  let as_int (v : pyval) : option Z :=
    match v with
    | PBool b => Some (if b then 1 else 0)
    | PInt z => Some z
    | _ => None
    end in
  match as_int a, as_int b, a, b with
  | Some x, Some y, _, _ => Some (x =? y)
  | Some x, None, _, PFloat g => Some (Flt.eq_Z x g)
  | None, Some y, PFloat f, _ => Some (Flt.eq_Z y f)
  | None, None, PFloat f, PFloat g => Some (PrimFloat.eqb f g)
  | _, _, _, _ => None
  end.

Fixpoint eqb (a b : pyval) {struct a} : bool :=
  match a, b with
  | PNone, PNone => true
  | PStr s, PStr t => String.eqb s t
  | PList l, PList m =>
      (fix all2 (l : list pyval) (m : list pyval) {struct l} : bool :=
         match l, m with
         | [], [] => true
         | x :: l', y :: m' => eqb x y && all2 l' m'
         | _, _ => false
         end) l m
  | PDict d, PDict e =>
      (length d =? length e)%nat
      && (fix each (d : dict) {struct d} : bool :=
            match d with
            | [] => true
            | (k, x) :: d' =>
                match lookup e k with
                | Some y => eqb x y && each d'
                | None => false
                end
            end) d
  | _, _ => match num_eqb a b with Some r => r | None => false end
  end.

(** [x in l] for a list [l] *)
Definition elem (x : pyval) (l : list pyval) : bool := existsb (eqb x) l.

End Py.

(** ** Regular expressions

    The patterns of the sources are sequences of literals, character
    classes, greedy class repetitions (one of them captured), a choice of
    literals and word boundaries; [search] is [re.search] on them: the
    leftmost start, and at that start the first match in backtracking
    order. *)

Module Re.

Inductive atom : Type :=
  | Lit (s : string)               (* the text, case folded under [re.I] *)
  | Choice (ss : list string)      (* a choice of texts *)
  | Class (p : ascii -> bool)      (* one character of a class *)
  | Star (p : ascii -> bool)       (* a class, repeated, greedy *)
  | Group (p : ascii -> bool)      (* a repeated class, captured *)
  | Boundary.                      (* a word boundary *)

(** A match: the text matched, the capture, what is left. *)
Record found : Type := mkFound {
  matched : string;
  captured : option string;
  remaining : string
}.

Definition rev_string (s : string) : string :=
  string_of_list_ascii (List.rev (list_ascii_of_string s)).

Fixpoint lit (icase : bool) (p s : string) : option (string * string) :=
  match p, s with
  | EmptyString, _ => Some (EmptyString, s)
  | String a p', String b s' =>
      if (if icase then Ascii.eqb (Chr.lower a) (Chr.lower b) else Ascii.eqb a b)
      then match lit icase p' s' with
           | Some (m, r) => Some (String b m, r)
           | None => None
           end
      else None
  | String _ _, EmptyString => None
  end.

Definition last_char (prev : option ascii) (m : string) : option ascii :=
  match rev_string m with
  | String c _ => Some c
  | EmptyString => prev
  end.

Definition is_word (c : option ascii) : bool :=
  match c with Some x => Chr.isword x | None => false end.

Definition head_char (s : string) : option ascii :=
  match s with String c _ => Some c | EmptyString => None end.

(** Greedy repetition: take one more character when the rest then
    matches, otherwise stop here. *)
Fixpoint star (p : ascii -> bool)
    (k : string -> option ascii -> string -> option found)
    (taken : string) (prev : option ascii) (s : string) : option found :=
  match s with
  | String c s' =>
      if p c then
        match star p k (taken +:+ String c EmptyString) (Some c) s' with
        | Some r => Some r
        | None => k taken prev s
        end
      else k taken prev s
  | EmptyString => k taken prev s
  end.

Definition prepend (m : string) (r : option found) : option found :=
  match r with
  | Some f => Some (mkFound (m +:+ matched f) (captured f) (remaining f))
  | None => None
  end.

Fixpoint first_some {A : Type} (l : list (option A)) : option A :=
  match l with
  | [] => None
  | Some a :: _ => Some a
  | None :: l' => first_some l'
  end.

Fixpoint match_here (icase : bool) (atoms : list atom)
    (prev : option ascii) (s : string) : option found :=
  match atoms with
  | [] => Some (mkFound EmptyString None s)
  | Lit p :: rest =>
      match lit icase p s with
      | Some (m, r) => prepend m (match_here icase rest (last_char prev m) r)
      | None => None
      end
  | Choice ps :: rest =>
      first_some
        (List.map (fun p =>
                     match lit icase p s with
                     | Some (m, r) =>
                         prepend m (match_here icase rest (last_char prev m) r)
                     | None => None
                     end) ps)
  | Class p :: rest =>
      match s with
      | String c s' =>
          if p c then prepend (String c EmptyString) (match_here icase rest (Some c) s')
          else None
      | EmptyString => None
      end
  | Star p :: rest =>
      star p (fun taken prev' s' => prepend taken (match_here icase rest prev' s'))
           EmptyString prev s
  | Group p :: rest =>
      star p (fun taken prev' s' =>
                match match_here icase rest prev' s' with
                | Some f => Some (mkFound (taken +:+ matched f) (Some taken) (remaining f))
                | None => None
                end)
           EmptyString prev s
  | Boundary :: rest =>
      if xorb (is_word prev) (is_word (head_char s))
      then match_here icase rest prev s
      else None
  end.

Fixpoint search_from (icase : bool) (atoms : list atom)
    (prev : option ascii) (s : string) : option found :=
  match match_here icase atoms prev s with
  | Some f => Some f
  | None =>
      match s with
      | String c s' => search_from icase atoms (Some c) s'
      | EmptyString => None
      end
  end.

(** [re.search(pattern, s)] *)
Definition search (icase : bool) (atoms : list atom) (s : string) : option found :=
  search_from icase atoms None s.

(** [r'\b(19|20)\d{2}\b'] *)
Definition year_pattern : list atom :=
  [Boundary; Choice ["19"; "20"]; Class Chr.isdecimal; Class Chr.isdecimal; Boundary].

(** [re.sub(r'[^\d.-]', '', s)] *)
Definition keep_amount_chars (s : string) : string :=
  Str.filter (fun c => Chr.isdecimal c || Ascii.eqb c "."%char || Ascii.eqb c "-"%char) s.

End Re.

(** ** Dates: [datetime.strptime(s, fmt).isoformat()] on the four formats *)

Module Date.

Inductive item : Type :=
  | Year                (* [%Y]: four digits *)
  | Month               (* [%m]: 1[0-2], 0[1-9] or [1-9] *)
  | Day                 (* [%d]: 3[01], [12]d, 0[1-9], [1-9] or a space and [1-9] *)
  | Sep (c : ascii).

Record ymd : Type := mkYmd { year : Z; month : Z; day : Z }.

Definition digit (c : ascii) : Z := Z.of_N (Chr.code c - 48).

Definition in_range (lo hi : N) (c : ascii) : bool := Chr.between (48 + lo) (48 + hi) c.

(** The ways to read a field at the head of [s], in the order the
    pattern tries them: the value read and the rest. *)
Definition readings (it : item) (s : string) : list (Z * string) :=
  match it with
  | Year =>
      match s with
      | String a (String b (String c (String d r))) =>
          if Chr.isdecimal a && Chr.isdecimal b && Chr.isdecimal c && Chr.isdecimal d
          then [(1000 * digit a + 100 * digit b + 10 * digit c + digit d, r)]
          else []
      | _ => []
      end
  | Month =>
      match s with
      | String a r1 =>
          (match r1 with
           | String b r2 =>
               (if Ascii.eqb a "1" && in_range 0 2 b then [(10 + digit b, r2)] else [])
               ++ (if Ascii.eqb a "0" && in_range 1 9 b then [(digit b, r2)] else [])
           | EmptyString => []
           end)
          ++ (if in_range 1 9 a then [(digit a, r1)] else [])
      | EmptyString => []
      end
  | Day =>
      match s with
      | String a r1 =>
          (match r1 with
           | String b r2 =>
               (if Ascii.eqb a "3" && in_range 0 1 b then [(30 + digit b, r2)] else [])
               ++ (if in_range 1 2 a && Chr.isdecimal b then [(10 * digit a + digit b, r2)] else [])
               ++ (if Ascii.eqb a "0" && in_range 1 9 b then [(digit b, r2)] else [])
           | EmptyString => []
           end)
          ++ (if in_range 1 9 a then [(digit a, r1)] else [])
          ++ (match r1 with
              | String b r2 =>
                  if Ascii.eqb a " " && in_range 1 9 b then [(digit b, r2)] else []
              | EmptyString => []
              end)
      | EmptyString => []
      end
  | Sep c =>
      match s with
      | String a r => if Ascii.eqb a c then [(0, r)] else []
      | EmptyString => []
      end
  end.

Definition set (it : item) (v : Z) (d : ymd) : ymd :=
  match it with
  | Year => mkYmd v (month d) (day d)
  | Month => mkYmd (year d) v (day d)
  | Day => mkYmd (year d) (month d) v
  | Sep _ => d
  end.

(** The first match of the format at the head of [s]: fields read so
    far and the text left over. *)
Fixpoint scan (fmt : list item) (d : ymd) (s : string) : option (ymd * string) :=
  match fmt with
  | [] => Some (d, s)
  | it :: fmt' =>
      Re.first_some
        (List.map (fun vr => scan fmt' (set it (fst vr) d) (snd vr)) (readings it s))
  end.

Definition leap (y : Z) : bool :=
  (y mod 4 =? 0) && (negb (y mod 100 =? 0) || (y mod 400 =? 0)).

Definition days_in_month (y m : Z) : Z :=
  if m =? 2 then (if leap y then 29 else 28)
  else if (m =? 4) || (m =? 6) || (m =? 9) || (m =? 11) then 30
  else 31.

Definition valid (d : ymd) : bool :=
  (1 <=? year d) && (1 <=? month d) && (month d <=? 12)
  && (1 <=? day d) && (day d <=? days_in_month (year d) (month d)).

Definition pad (width : nat) (z : Z) : string :=
  let t := Str.of_Z z in
  Str.repeat "0"%char (width - String.length t) +:+ t.

Definition isoformat (d : ymd) : string :=
  pad 4 (year d) +:+ "-" +:+ pad 2 (month d) +:+ "-" +:+ pad 2 (day d) +:+ "T00:00:00".

(** [strptime(s, fmt).isoformat()]; [None] stands for the [ValueError]
    every caller catches. *)
Definition parse (fmt : list item) (s : string) : option string :=
  match scan fmt (mkYmd 0 0 0) s with
  | Some (d, EmptyString) => if valid d then Some (isoformat d) else None
  | _ => None
  end.

(** ['%Y-%m-%d', '%m/%d/%Y', '%m-%d-%Y', '%Y/%m/%d'] *)
Definition formats : list (list item) :=
  [ [Year; Sep "-"; Month; Sep "-"; Day];
    [Month; Sep "/"; Day; Sep "/"; Year];
    [Month; Sep "-"; Day; Sep "-"; Year];
    [Year; Sep "/"; Month; Sep "/"; Day] ].

(** The first format that reads the whole text. *)
Definition parse_any (s : string) : option string :=
  Re.first_some (List.map (fun fmt => parse fmt s) formats).

End Date.

(** ** The rows of the five tables *)

Record Property : Type := mkProperty {
  prop_parcel_id : pyval;
  prop_property_id : pyval;
  prop_owner_name : pyval;
  prop_municipality : pyval;
  prop_address : pyval;
  prop_extraction_date : string;
  prop_source : string
}.

Record TaxPeriod : Type := mkTaxPeriod {
  period_parcel_id : pyval;
  period_property_id : pyval;
  period_tax_year : string;
  period_total_tax_amount : option float;
  period_status : string;
  period_extraction_date : string
}.

Record Installment : Type := mkInstallment {
  inst_parcel_id : pyval;
  inst_property_id : pyval;
  installment_number : Z;
  installment_type : pyval;
  inst_amount : option float;
  inst_due_date : option string;
  inst_paid_date : option string;
  inst_status : string;
  inst_tax_year : option string;
  inst_extraction_date : string
}.

Record DelinquentTax : Type := mkDelinquentTax {
  delq_parcel_id : pyval;
  delq_property_id : pyval;
  delq_tax_year : option string;
  delinquent_amount : float;
  delq_status : string;
  installments_delinquent : string;
  delq_extraction_date : string
}.

Record PenaltyInterest : Type := mkPenaltyInterest {
  pen_parcel_id : pyval;
  pen_property_id : pyval;
  pen_tax_year : option string;
  penalty_amount : float;
  interest_amount : float;
  total_penalties_interest : float;
  pen_extraction_date : string
}.

(** The instance: the five lists [__init__] creates empty. *)
Record TaxDataNormalizer : Type := mkNormalizer {
  properties : list Property;
  tax_periods : list TaxPeriod;
  installments : list Installment;
  delinquent_taxes : list DelinquentTax;
  penalties_interest : list PenaltyInterest
}.

(** What [normalize_scraped_data] returns: a frame per table, built from
    the rows the instance holds at that moment. *)
Record Tables : Type := mkTables {
  properties_df : list Property;
  tax_periods_df : list TaxPeriod;
  installments_df : list Installment;
  delinquent_taxes_df : list DelinquentTax;
  penalties_interest_df : list PenaltyInterest
}.

(** ** Field coercion *)

Section Coercion.

(** [_extract_amount], first loop: the named keys in order. *)
Fixpoint amount_by_keys (data : dict) (possible_keys : list string)
    : res (option float) :=
  match possible_keys with
  | [] => Ok None
  | key :: keys' =>
      match Py.get data key with
      | PStr value =>
          let cleaned := Re.keep_amount_chars value in
          if Str.nonempty cleaned then
            match Flt.of_string cleaned with
            | Ok f => Ok (Some f)
            | Raise _ => amount_by_keys data keys'
            end
          else amount_by_keys data keys'
      | PBool b => do f <- Flt.of_Z (if b then 1 else 0); Ok (Some f)
      | PInt z => do f <- Flt.of_Z z; Ok (Some f)
      | PFloat f => Ok (Some f)
      | _ => amount_by_keys data keys'
      end
  end.

(** [_extract_amount], second loop: the first string value with a
    digit or a dollar sign whose cleaned text has a point and reads as
    a number. *)
Fixpoint amount_by_scan (items : dict) : option float :=
  match items with
  | [] => None
  | (_, PStr value) :: rest =>
      if Str.any (Ascii.eqb "$") value || Str.any Chr.isdigit value then
        let cleaned := Re.keep_amount_chars value in
        if Str.nonempty cleaned && Str.any (Ascii.eqb ".") cleaned then
          match Flt.of_string cleaned with
          | Ok f => Some f
          | Raise _ => amount_by_scan rest
          end
        else amount_by_scan rest
      else amount_by_scan rest
  | _ :: rest => amount_by_scan rest
  end.

Definition _extract_amount (data : pyval) (possible_keys : list string)
    : res (option float) :=
  match data with
  | PDict d =>
      do found <- amount_by_keys d possible_keys;
      match found with
      | Some f => Ok (Some f)
      | None => Ok (amount_by_scan d)
      end
  | _ => Raise AttributeError
  end.

Fixpoint _extract_date (data : dict) (possible_keys : list string) : option string :=
  match possible_keys with
  | [] => None
  | key :: keys' =>
      let value := Py.get data key in
      if Py.truthy value then
        match value with
        | PStr s =>
            match Date.parse_any s with
            | Some iso => Some iso
            | None => Some s
            end
        | _ => Some (Py.str value)
        end
      else _extract_date data keys'
  end.

Definition year_fields : list string :=
  ["year"; "taxYear"; "tax_year"; "Year"; "TAX_YEAR"; "TaxYear"; "tax-year"].

Definition in_year_range (z : Z) : bool := (1900 <=? z) && (z <=? 2100).

(** [_extract_year_from_data], first loop: the year-named fields. *)
Fixpoint year_by_fields (data : dict) (fields : list string) : res (option string) :=
  match fields with
  | [] => Ok None
  | field :: fields' =>
      if Py.has data field && Py.truthy (Py.get data field) then
        let year_value := Str.strip (Py.str (Py.get data field)) in
        if Str.isdigit year_value && (Str.len year_value =? 4) then
          do year_int <- Str.to_int year_value;
          if in_year_range year_int then Ok (Some year_value)
          else year_by_fields data fields'
        else year_by_fields data fields'
      else year_by_fields data fields'
  end.

(** [_extract_year_from_data], second loop: the first string value in
    which the pattern finds a year. *)
Fixpoint year_by_scan (items : dict) : res (option string) :=
  match items with
  | [] => Ok None
  | (_, PStr value) :: rest =>
      match Re.search false Re.year_pattern value with
      | Some m =>
          let year := Re.matched m in
          do year_int <- Str.to_int year;
          if in_year_range year_int then Ok (Some year) else year_by_scan rest
      | None => year_by_scan rest
      end
  | _ :: rest => year_by_scan rest
  end.

Definition _extract_year_from_data (data : pyval) : res (option string) :=
  match data with
  | PDict d =>
      do found <- year_by_fields d year_fields;
      match found with
      | Some y => Ok (Some y)
      | None => year_by_scan d
      end
  | _ => Ok None
  end.

Definition _determine_status (data : pyval) : res string :=
  do status <- Py.dot_get data "status" (PStr "");
  let status_lower := Str.lower (Py.str status) in
  if Str.contains "delinquent" status_lower || Str.contains "unpaid" status_lower
  then Ok "delinquent"
  else if Str.contains "paid" status_lower then Ok "paid"
  else Ok "current".

Definition _determine_installment_type (data : dict) (installment_num : Z) : string :=
  let type_str := Str.lower (Py.str (Py.get_default data "type" (PStr ""))) in
  if Str.contains "first" type_str || Str.contains "1st" type_str
     || (installment_num =? 1)
  then "1st_half"
  else if Str.contains "second" type_str || Str.contains "2nd" type_str
          || (installment_num =? 2)
  then "2nd_half"
  else "installment_" +:+ Str.of_Z installment_num.

Definition _determine_installment_status (data : dict) : string :=
  let status_lower := Str.lower (Py.str (Py.get_default data "status" (PStr ""))) in
  if Str.contains "paid" status_lower then "paid"
  else if Str.contains "delinquent" status_lower || Str.contains "unpaid" status_lower
  then "delinquent"
  else "pending".

Fixpoint first_present (data : dict) (fields : list string) : option pyval :=
  match fields with
  | [] => None
  | field :: fields' =>
      if Py.has data field then Some (Py.get data field)
      else first_present data fields'
  end.

Definition _extract_delinquent_installments (data : dict) : string :=
  match first_present data ["installments"; "installment"; "delinquent_installments"] with
  | Some v => Py.str v
  | None => ""
  end.

Definition _parse_amount_from_string (value : pyval) : option float :=
  if negb (Py.truthy value) then None
  else
    let cleaned := Re.keep_amount_chars (Py.str value) in
    if Str.nonempty cleaned
    then match Flt.of_string cleaned with Ok f => Some f | Raise _ => None end
    else None.

Definition _parse_date_from_string (value : pyval) : option string :=
  if negb (Py.truthy value) then None
  else
    match Date.parse_any (Str.strip (Py.str value)) with
    | Some iso => Some iso
    | None => Some (Py.str value)
    end.

End Coercion.

(** ** Extraction *)

Section Extraction.

(** The reading of [datetime.now().isoformat()] during the pass. *)
Variable now : string.

(** [property_info.get('property_id') if property_info else None] *)
Definition property_id_of (property_info : option Property) : pyval :=
  match property_info with
  | Some p => prop_property_id p
  | None => PNone
  end.

Definition name_fields : list string :=
  ["ConcatenatedName"; "concatenatedName"; "OwnerName"; "ownerName";
   "FirstName"; "LastName"; "FullName"; "fullName"].

Fixpoint first_truthy (data : dict) (fields : list string) : option pyval :=
  match fields with
  | [] => None
  | field :: fields' =>
      if Py.has data field && Py.truthy (Py.get data field)
      then Some (Py.get data field)
      else first_truthy data fields'
  end.

Definition _extract_owner_name (data : dict) : string :=
  match first_truthy data name_fields with
  | Some v => Str.strip (Py.str v)
  | None =>
      let first_name :=
        Py.or (Py.or (Py.get data "FirstName") (Py.get data "firstName")) (PStr "") in
      let last_name :=
        Py.or (Py.or (Py.get data "LastName") (Py.get data "lastName")) (PStr "") in
      if Py.truthy first_name || Py.truthy last_name
      then Str.strip (Py.str first_name +:+ " " +:+ Py.str last_name)
      else ""
  end.

Definition _extract_address (data : dict) : string :=
  let pick (a b : string) : pyval :=
    Py.or (Py.or (Py.get data a) (Py.get data b)) (PStr "") in
  let house_number := pick "PropertyAddress_HouseNumber" "houseNumber" in
  let street_name := pick "PropertyAddress_StreetName" "streetName" in
  let street_type := pick "PropertyAddress_StreetType" "streetType" in
  let suffix_dir := pick "PropertyAddress_SuffixDirection" "suffixDirection" in
  let unit_type := pick "PropertyAddress_UnitType" "unitType" in
  let unit_number := pick "PropertyAddress_UnitNumber" "unitNumber" in
  let part (v : pyval) : list string := if Py.truthy v then [Py.str v] else [] in
  let address_parts :=
    part house_number ++ part street_name ++ part street_type ++ part suffix_dir
    ++ (if Py.truthy unit_type && Py.truthy unit_number
        then [Py.str unit_type +:+ " " +:+ Py.str unit_number]
        else if Py.truthy unit_number then ["Unit " +:+ Py.str unit_number]
        else []) in
  Str.join ", " address_parts.

(** [str(user_defined_id).strip() == str(parcel_id).strip()] for a
    truthy [user_defined_id] *)
Definition matches_parcel (parcel_id : pyval) (entry : dict) : bool :=
  let user_defined_id := Py.or (Py.get entry "UserDefinedId") (Py.get entry "userDefinedId") in
  Py.truthy user_defined_id
  && String.eqb (Str.strip (Py.str user_defined_id)) (Str.strip (Py.str parcel_id)).

(** The loop over the search results: the first matching entry. *)
Fixpoint find_result (parcel_id : pyval) (results_list : list pyval) : option dict :=
  match results_list with
  | [] => None
  | PDict entry :: rest =>
      if matches_parcel parcel_id entry then Some entry
      else find_result parcel_id rest
  | _ :: rest => find_result parcel_id rest
  end.

(** [search_data.get('data', [])], a dictionary replaced by the list of
    its values, as the loop iterates it. *)
Definition results_of (search_data : dict) : res (list pyval) :=
  match Py.get_default search_data "data" (PList []) with
  | PDict rd => Ok (List.map snd rd)
  | results => Py.iter results
  end.

Definition _extract_property_info (parcel_id search_data tax_data : pyval)
    : res (option Property) :=
  let property_info :=
    mkProperty parcel_id PNone PNone PNone PNone now "lacrosse_county" in
  do property_info <-
    match search_data with
    | PDict sd =>
        if Py.has sd "data" then
          do results_list <- results_of sd;
          match find_result parcel_id results_list with
          | Some entry =>
              Ok (mkProperty parcel_id
                    (PStr (Py.str (Py.or (Py.or (Py.get entry "PropertyId")
                                                (Py.get entry "propertyId")) (PStr ""))))
                    (PStr (_extract_owner_name entry))
                    (Py.or (Py.or (Py.get entry "MunicipalityDescription")
                                  (Py.get entry "municipalityDescription")) (PStr ""))
                    (PStr (_extract_address entry))
                    now "lacrosse_county")
          | None => Ok property_info
          end
        else Ok property_info
    | _ => Ok property_info
    end;
  let property_info :=
    match tax_data with
    | PDict td =>
        if negb (Py.truthy (prop_property_id property_info))
        then mkProperty (prop_parcel_id property_info)
               (PStr (Py.str (Py.or (Py.get td "property_id") (PStr ""))))
               (prop_owner_name property_info) (prop_municipality property_info)
               (prop_address property_info) (prop_extraction_date property_info)
               (prop_source property_info)
        else property_info
    | _ => property_info
    end in
  if Py.truthy (prop_property_id property_info) || Py.truthy (prop_owner_name property_info)
  then Ok (Some property_info)
  else Ok None.

Definition period_amount_keys : list string := ["total"; "amount"; "totalTax"; "total_tax"].

Fixpoint _extract_tax_periods_loop (parcel_id : pyval) (property_info : option Property)
    (items : dict) : res (list TaxPeriod) :=
  match items with
  | [] => Ok []
  | (KInt _, _) :: _ => Raise AttributeError
  | (KStr key, year_data) :: rest =>
      if Str.isdigit key || String.eqb key "current" then
        do year <- (if Str.isdigit key then Ok (Some key)
                    else _extract_year_from_data year_data);
        match year with
        | Some y =>
            if Str.nonempty y then
              do total <- _extract_amount year_data period_amount_keys;
              do status <- _determine_status year_data;
              do periods <- _extract_tax_periods_loop parcel_id property_info rest;
              Ok (mkTaxPeriod parcel_id (property_id_of property_info) y total status now
                    :: periods)
            else _extract_tax_periods_loop parcel_id property_info rest
        | None => _extract_tax_periods_loop parcel_id property_info rest
        end
      else _extract_tax_periods_loop parcel_id property_info rest
  end.

Definition _extract_tax_periods (parcel_id : pyval) (property_info : option Property)
    (tax_data : pyval) : res (list TaxPeriod) :=
  match tax_data with
  | PDict td => _extract_tax_periods_loop parcel_id property_info td
  | _ => Ok []
  end.

(** [_extract_year_from_tax_data_context]: the year key under which an
    equal item is listed. *)
Definition listed_in_year (data : pyval) (year_data : dict) : bool :=
  existsb (fun list_key =>
             Py.has year_data list_key
             && match Py.get year_data list_key with
                | PList items => Py.elem data items
                | _ => false
                end)
          ["unpaid_taxes"; "installments"; "tax_tables"].

Fixpoint _extract_year_from_tax_data_context (data : pyval) (tax_data : dict)
    : res (option string) :=
  match tax_data with
  | [] => Ok None
  | (KInt _, _) :: _ => Raise AttributeError
  | (KStr key, year_data) :: rest =>
      if Str.isdigit key then
        match year_data with
        | PDict yd =>
            if listed_in_year data yd then Ok (Some key)
            else _extract_year_from_tax_data_context data rest
        | _ => _extract_year_from_tax_data_context data rest
        end
      else _extract_year_from_tax_data_context data rest
  end.

(** *** Lists merged from the nested sources

    [lst = d.get(key, [])] followed by
    [if sub in d: lst.extend(d[sub].get(key, []))]: when [key] is in
    [d] the list extended is the one [d] holds, so [d] changes. *)

Definition extend_from (d : dict) (key sub : string) (lst : pyval) : dict * res pyval :=
  if Py.has d sub then
    match lst with
    | PList l =>
        match (do x <- Py.dot_get (Py.get d sub) key (PList []); Py.iter x) with
        | Ok xs =>
            let lst' := PList (l ++ xs) in
            (if Py.has d key then Py.store d (KStr key) lst' else d, Ok lst')
        | Raise e => (d, Raise e)
        end
    | _ => (d, Raise AttributeError)
    end
  else (d, Ok lst).

Definition merged_sources (d : dict) (key : string) : dict * res pyval :=
  let '(d1, r1) := extend_from d key "page_extracted" (Py.get_default d key (PList [])) in
  match r1 with
  | Ok lst1 => extend_from d1 key "api_extracted" lst1
  | Raise e => (d1, Raise e)
  end.

(** *** Installments *)

Definition installment_amount_keys : list string :=
  ["amount"; "total"; "installmentAmount"; "due"].
Definition due_date_keys : list string := ["dueDate"; "due_date"; "date"; "due"].
Definition paid_date_keys : list string := ["paidDate"; "paid_date"; "paid"].

(** The row of one installment of a year-keyed entry. *)
Definition year_installment (parcel_id : pyval) (property_info : option Property)
    (tax_year : option string) (inst : dict) (installment_num : Z) : res Installment :=
  do found <- _extract_year_from_data (PDict inst);
  let inst_year := match found with Some y => Some y | None => tax_year end in
  do amount <- _extract_amount (PDict inst) installment_amount_keys;
  Ok (mkInstallment parcel_id (property_id_of property_info) installment_num
        (PStr (_determine_installment_type inst installment_num))
        amount (_extract_date inst due_date_keys) (_extract_date inst paid_date_keys)
        (_determine_installment_status inst) inst_year now).

(** The row of one installment of the top-level list. *)
Definition flat_installment (parcel_id : pyval) (property_info : option Property)
    (inst : dict) (installment_num : Z) : res Installment :=
  do amount <- _extract_amount (PDict inst) installment_amount_keys;
  do tax_year <- _extract_year_from_data (PDict inst);
  Ok (mkInstallment parcel_id (property_id_of property_info) installment_num
        (PStr (_determine_installment_type inst installment_num))
        amount (_extract_date inst due_date_keys) (_extract_date inst paid_date_keys)
        (_determine_installment_status inst) tax_year now).

(** [for inst in lst: if isinstance(inst, dict): ...; installment_num += 1] *)
Fixpoint number_rows (row : dict -> Z -> res Installment) (installment_num : Z)
    (lst : list pyval) : res (list Installment) :=
  match lst with
  | [] => Ok []
  | PDict inst :: rest =>
      do r <- row inst installment_num;
      do rs <- number_rows row (installment_num + 1) rest;
      Ok (r :: rs)
  | _ :: rest => number_rows row installment_num rest
  end.

(** The installments of one year entry; the entry as the merge leaves it. *)
Definition year_entry_installments (parcel_id : pyval) (property_info : option Property)
    (key : string) (year_data : pyval) : pyval * res (list Installment) :=
  let tax_year := if Str.isdigit key then Some key else None in
  let '(year_data', year_installments) :=
    match year_data with
    | PDict yd =>
        let '(yd', lst) := merged_sources yd "installments" in (PDict yd', lst)
    | _ => (year_data, Ok (PList []))
    end in
  (year_data',
   do lst <- year_installments;
   do items <- Py.iter lst;
   number_rows (year_installment parcel_id property_info tax_year) 1 items).

(** The loop over [tax_data.items()]: the items as the loop leaves
    them and the rows. *)
Fixpoint year_loop (parcel_id : pyval) (property_info : option Property)
    (items : dict) : dict * res (list Installment) :=
  match items with
  | [] => ([], Ok [])
  | (KInt z, year_data) :: rest => (items, Raise AttributeError)
  | (KStr key, year_data) :: rest =>
      if Str.isdigit key || String.eqb key "current" then
        match year_entry_installments parcel_id property_info key year_data with
        | (year_data', Ok rows) =>
            let '(rest', r) := year_loop parcel_id property_info rest in
            ((KStr key, year_data') :: rest', do rs <- r; Ok (rows ++ rs))
        | (year_data', Raise e) => ((KStr key, year_data') :: rest, Raise e)
        end
      else
        let '(rest', r) := year_loop parcel_id property_info rest in
        ((KStr key, year_data) :: rest', r)
  end.

(** [any(key.isdigit() for key in tax_data.keys() if isinstance(key, str))] *)
Definition has_digit_key (d : dict) : bool :=
  existsb (fun kv => match fst kv with KStr key => Str.isdigit key | KInt _ => false end) d.

(** *** Tables of the page *)

Record roles : Type := mkRoles {
  amount_idx : option Z;
  date_idx : option Z;
  type_idx : option Z;
  year_idx : option Z;
  status_idx : option Z
}.

Fixpoint header_roles (i : Z) (headers : list string) (r : roles) : roles :=
  match headers with
  | [] => r
  | header :: rest =>
      let has t := Str.contains t header in
      header_roles (i + 1) rest
        (mkRoles
           (if has "amount" || has "total" || has "$" then Some i else amount_idx r)
           (if has "date" || has "due" then Some i else date_idx r)
           (if has "type" || has "installment" then Some i else type_idx r)
           (if has "year" then Some i else year_idx r)
           (if has "status" || has "paid" || has "delinquent" then Some i else status_idx r))
  end.

(** [idx and idx < len(row)]: column 0 counts as no column. *)
Definition usable (idx : option Z) (n : Z) : option Z :=
  match idx with
  | Some i => if negb (i =? 0) && (i <? n) then Some i else None
  | None => None
  end.

(** [v[i]] for [0 <= i < len(v)] *)
Definition index (v : pyval) (i : Z) : res pyval :=
  match v with
  | PList l => match nth_error l (Z.to_nat i) with Some x => Ok x | None => Raise IndexError end
  | PStr s =>
      match nth_error (Str.chars s) (Z.to_nat i) with
      | Some c => Ok (PStr c)
      | None => Raise IndexError
      end
  | PDict d => match Py.lookup d (KInt i) with Some x => Ok x | None => Raise KeyError end
  | _ => Raise TypeError
  end.

Definition cell_or_empty (row : pyval) (idx : option Z) (n : Z) : res pyval :=
  match usable idx n with
  | Some i => index row i
  | None => Ok (PStr "")
  end.

Definition table_row (parcel_id : pyval) (property_info : option Property)
    (tax_data : dict) (r : roles) (row_idx : Z) (row : pyval)
    : res (option Installment) :=
  do n <- Py.len row;
  if 0 <? n then
    do tax_year <-
      match usable (year_idx r) n with
      | Some i =>
          do cell <- index row i;
          if Py.truthy cell then
            match cell with
            | PStr s =>
                let t := Str.strip s in
                if Str.nonempty t && (negb (Str.isdigit t) || negb (Str.len t =? 4))
                then Ok None else Ok (Some t)
            | _ => Raise AttributeError
            end
          else Ok None
      | None => Ok None
      end;
    do tax_year <-
      (if negb (match tax_year with Some t => Str.nonempty t | None => false end)
          && Py.truthy (PDict tax_data)
       then _extract_year_from_tax_data_context (PDict [(KStr "table_row", row)]) tax_data
       else Ok tax_year);
    do status <-
      match usable (status_idx r) n with
      | Some i =>
          do cell <- index row i;
          let status_str := Str.lower (Py.str cell) in
          if Str.contains "paid" status_str then Ok "paid"
          else if Str.contains "delinquent" status_str || Str.contains "unpaid" status_str
          then Ok "delinquent"
          else Ok "pending"
      | None => Ok "pending"
      end;
    do amount_cell <- cell_or_empty row (amount_idx r) n;
    let amount := _parse_amount_from_string amount_cell in
    do type_cell <-
      match usable (type_idx r) n with
      | Some i => index row i
      | None => Ok (PStr ("installment_" +:+ Str.of_Z row_idx))
      end;
    do date_cell <- cell_or_empty row (date_idx r) n;
    Ok (Some (mkInstallment parcel_id (property_id_of property_info) row_idx type_cell
                amount (_parse_date_from_string date_cell) None status tax_year now))
  else Ok None.

Fixpoint table_rows (parcel_id : pyval) (property_info : option Property)
    (tax_data : dict) (r : roles) (row_idx : Z) (rows : list pyval)
    : res (list Installment) :=
  match rows with
  | [] => Ok []
  | row :: rest =>
      do x <- table_row parcel_id property_info tax_data r row_idx row;
      do xs <- table_rows parcel_id property_info tax_data r (row_idx + 1) rest;
      Ok (match x with Some i => i :: xs | None => xs end)
  end.

Fixpoint lower_all (hs : list pyval) : res (list string) :=
  match hs with
  | [] => Ok []
  | PStr h :: rest => do ls <- lower_all rest; Ok (Str.lower h :: ls)
  | _ :: _ => Raise AttributeError
  end.

Definition _parse_table_for_installments (table : pyval) (parcel_id : pyval)
    (property_info : option Property) (tax_data : dict) : res (list Installment) :=
  if negb (Py.truthy table) then Ok []
  else
    do n <- Py.len table;
    if n <? 2 then Ok []
    else
      do first <- index table 0;
      do hs <- Py.iter first;
      do headers <- lower_all hs;
      let r := header_roles 0 headers (mkRoles None None None None None) in
      do rows <-
        match table with
        | PList l => Ok (List.tl l)
        | PStr s => Ok (List.map PStr (List.tl (Str.chars s)))
        | _ => Raise TypeError
        end;
      table_rows parcel_id property_info tax_data r 1 rows.

Fixpoint tables_installments (parcel_id : pyval) (property_info : option Property)
    (tax_data : dict) (tables : list pyval) : res (list Installment) :=
  match tables with
  | [] => Ok []
  | table :: rest =>
      do xs <- _parse_table_for_installments table parcel_id property_info tax_data;
      do ys <- tables_installments parcel_id property_info tax_data rest;
      Ok (xs ++ ys)
  end.

(** [_extract_installments] on a dictionary: [tax_data] as the call
    leaves it, and the rows. *)
Definition _extract_installments_dict (parcel_id : pyval)
    (property_info : option Property) (td : dict) : dict * res (list Installment) :=
  match year_loop parcel_id property_info td with
  | (td1, Raise e) => (td1, Raise e)
  | (td1, Ok year_rows) =>
      match merged_sources td1 "installments" with
      | (td2, Raise e) => (td2, Raise e)
      | (td2, Ok installments_list) =>
          (td2,
           do flat_rows <-
             (if negb (has_digit_key td2) then
                do items <- Py.iter installments_list;
                number_rows (flat_installment parcel_id property_info) 1 items
              else Ok []);
           do table_rows <-
             (if Py.has td2 "page_extracted" then
                match Py.get td2 "page_extracted" with
                | PDict page_data =>
                    if Py.has page_data "tax_tables" then
                      do tables <- Py.iter (Py.get page_data "tax_tables");
                      tables_installments parcel_id property_info td2 tables
                    else Ok []
                | _ => Raise TypeError
                end
              else Ok []);
           Ok (year_rows ++ flat_rows ++ table_rows))
      end
  end.

Definition _extract_installments (parcel_id : pyval) (property_info : option Property)
    (tax_data : pyval) : pyval * res (list Installment) :=
  match tax_data with
  | PDict td =>
      let '(td', r) := _extract_installments_dict parcel_id property_info td in
      (PDict td', r)
  | _ => (tax_data, Ok [])
  end.

(** *** Delinquent taxes *)

Definition unpaid_amount_keys : list string :=
  ["amount"; "balance"; "delinquent"; "unpaid"; "owed"; "remaining"; "outstanding"].
Definition delinquent_installment_keys : list string :=
  ["amount"; "balance"; "unpaid"; "owed"; "remaining"].

(** [amount and amount > 0] *)
Definition positive_amount (amount : option float) : option float :=
  match amount with
  | Some f => if Flt.truthy f && Flt.gt0 f then Some f else None
  | None => None
  end.

(** The rows of the explicit unpaid entries. *)
Fixpoint explicit_rows (parcel_id : pyval) (property_info : option Property)
    (tax_data : dict) (unpaid_list : list pyval) : res (list DelinquentTax) :=
  match unpaid_list with
  | [] => Ok []
  | PDict unpaid :: rest =>
      do amount <- _extract_amount (PDict unpaid) unpaid_amount_keys;
      match positive_amount amount with
      | Some delinquent_amount =>
          do found <- _extract_year_from_data (PDict unpaid);
          do tax_year <-
            match found with
            | Some y => Ok (Some y)
            | None => _extract_year_from_tax_data_context (PDict unpaid) tax_data
            end;
          do rows <- explicit_rows parcel_id property_info tax_data rest;
          Ok (mkDelinquentTax parcel_id (property_id_of property_info) tax_year
                delinquent_amount "delinquent" (_extract_delinquent_installments unpaid) now
                :: rows)
      | None => explicit_rows parcel_id property_info tax_data rest
      end
  | _ :: rest => explicit_rows parcel_id property_info tax_data rest
  end.

(** An entry of [installments_by_year]. *)
Record year_group : Type := mkGroup {
  total_delinquent : float;
  group_installments : list dict
}.

(** [installments_by_year[year]['total_delinquent'] += amount] and the
    append, creating the entry at the end when the year is new. *)
Fixpoint group_add (groups : list (string * year_group)) (year : string)
    (amount : float) (inst : dict) : list (string * year_group) :=
  match groups with
  | [] => [(year, mkGroup (PrimFloat.add Flt.zero amount) [inst])]
  | (y, g) :: rest =>
      if String.eqb y year
      then (y, mkGroup (PrimFloat.add (total_delinquent g) amount)
                 (group_installments g ++ [inst])) :: rest
      else (y, g) :: group_add rest year amount inst
  end.

Fixpoint group_by_year (groups : list (string * year_group))
    (installments_list : list pyval) : res (list (string * year_group)) :=
  match installments_list with
  | [] => Ok groups
  | PDict inst :: rest =>
      do year <- _extract_year_from_data (PDict inst);
      let status := _determine_installment_status inst in
      do amount <- _extract_amount (PDict inst) delinquent_installment_keys;
      match year, positive_amount amount with
      | Some y, Some a =>
          if Str.nonempty y
             && (String.eqb status "delinquent" || String.eqb status "unpaid")
          then group_by_year (group_add groups y a inst) rest
          else group_by_year groups rest
      | _, _ => group_by_year groups rest
      end
  | _ :: rest => group_by_year groups rest
  end.

(** [any(d.get('tax_year') == year for d in delinquent)] *)
Definition existing (delinquent : list DelinquentTax) (year : string) : bool :=
  existsb (fun d => match delq_tax_year d with
                    | Some y => String.eqb y year
                    | None => false
                    end) delinquent.

Definition derived_row (parcel_id : pyval) (property_info : option Property)
    (year : string) (g : year_group) : DelinquentTax :=
  mkDelinquentTax parcel_id (property_id_of property_info) (Some year)
    (total_delinquent g) "delinquent"
    (Str.join ", "
       (List.map (fun i => Py.str (Py.get_default i "installment_number" (PStr "")))
          (group_installments g)))
    now.

(** The loop over [installments_by_year.items()], appending to [delinquent]. *)
Fixpoint derived_rows (parcel_id : pyval) (property_info : option Property)
    (delinquent : list DelinquentTax) (groups : list (string * year_group))
    : list DelinquentTax :=
  match groups with
  | [] => delinquent
  | (year, g) :: rest =>
      if Flt.gt0 (total_delinquent g) && negb (existing delinquent year)
      then derived_rows parcel_id property_info
             (delinquent ++ [derived_row parcel_id property_info year g]) rest
      else derived_rows parcel_id property_info delinquent rest
  end.

Definition _extract_delinquent_taxes_dict (parcel_id : pyval)
    (property_info : option Property) (td : dict) : dict * res (list DelinquentTax) :=
  match merged_sources td "unpaid_taxes" with
  | (td1, Raise e) => (td1, Raise e)
  | (td1, Ok unpaid_list) =>
      match (do items <- Py.iter unpaid_list;
             explicit_rows parcel_id property_info td1 items) with
      | Raise e => (td1, Raise e)
      | Ok delinquent =>
          match merged_sources td1 "installments" with
          | (td2, Raise e) => (td2, Raise e)
          | (td2, Ok installments_list) =>
              (td2,
               do items <- Py.iter installments_list;
               do installments_by_year <- group_by_year [] items;
               Ok (derived_rows parcel_id property_info delinquent installments_by_year))
          end
      end
  end.

Definition _extract_delinquent_taxes (parcel_id : pyval) (property_info : option Property)
    (tax_data : pyval) : pyval * res (list DelinquentTax) :=
  match tax_data with
  | PDict td =>
      let '(td', r) := _extract_delinquent_taxes_dict parcel_id property_info td in
      (PDict td', r)
  | _ => (tax_data, Ok [])
  end.

(** *** Penalties and interest *)

Definition float_or_zero (x : option float) : float :=
  match x with
  | Some f => if Flt.truthy f then f else Flt.zero
  | None => Flt.zero
  end.

Definition amount_truthy (x : option float) : bool :=
  match x with Some f => Flt.truthy f | None => false end.

Definition _extract_penalties_interest (parcel_id : pyval)
    (property_info : option Property) (tax_data : pyval) : res (list PenaltyInterest) :=
  match tax_data with
  | PDict td =>
      do penalty <- _extract_amount tax_data ["penalty"; "penalties"; "penaltyAmount"];
      do interest <- _extract_amount tax_data ["interest"; "interestAmount"];
      if amount_truthy penalty || amount_truthy interest then
        do tax_year <- _extract_year_from_data tax_data;
        Ok [mkPenaltyInterest parcel_id (property_id_of property_info) tax_year
              (float_or_zero penalty) (float_or_zero interest)
              (PrimFloat.add (float_or_zero penalty) (float_or_zero interest)) now]
      else Ok []
  | _ => Ok []
  end.

(** *** The pass over the bundles *)

(** The instance after a step and the outcome of the step. *)
Definition step (A : Type) : Type := TaxDataNormalizer * res A.

Definition add_property (self : TaxDataNormalizer) (p : Property) : TaxDataNormalizer :=
  mkNormalizer (properties self ++ [p]) (tax_periods self) (installments self)
    (delinquent_taxes self) (penalties_interest self).
Definition add_tax_periods (self : TaxDataNormalizer) (l : list TaxPeriod) : TaxDataNormalizer :=
  mkNormalizer (properties self) (tax_periods self ++ l) (installments self)
    (delinquent_taxes self) (penalties_interest self).
Definition add_installments (self : TaxDataNormalizer) (l : list Installment) : TaxDataNormalizer :=
  mkNormalizer (properties self) (tax_periods self) (installments self ++ l)
    (delinquent_taxes self) (penalties_interest self).
Definition add_delinquent_taxes (self : TaxDataNormalizer) (l : list DelinquentTax) : TaxDataNormalizer :=
  mkNormalizer (properties self) (tax_periods self) (installments self)
    (delinquent_taxes self ++ l) (penalties_interest self).
Definition add_penalties_interest (self : TaxDataNormalizer) (l : list PenaltyInterest) : TaxDataNormalizer :=
  mkNormalizer (properties self) (tax_periods self) (installments self)
    (delinquent_taxes self) (penalties_interest self ++ l).

(** The body of the loop for one bundle: the instance, the bundle as
    the body leaves it (its [tax_data] may have been extended in
    place), and whether the body completed. *)
Definition normalize_result (self : TaxDataNormalizer) (result : pyval)
    : TaxDataNormalizer * pyval * res unit :=
  match result with
  | PDict rd =>
      let parcel_id := Py.get rd "parcel_id" in
      let search_data := Py.get_default rd "search_data" (PDict []) in
      let tax_data := Py.get_default rd "tax_data" (PDict []) in
      match _extract_property_info parcel_id search_data tax_data with
      | Raise e => (self, result, Raise e)
      | Ok property_info =>
          let self1 := match property_info with
                       | Some p => add_property self p
                       | None => self
                       end in
          if Py.truthy tax_data then
            let put (td : pyval) : pyval :=
              if Py.has rd "tax_data" then PDict (Py.store rd (KStr "tax_data") td)
              else result in
            match _extract_tax_periods parcel_id property_info tax_data with
            | Raise e => (self1, result, Raise e)
            | Ok periods_data =>
                let self2 := add_tax_periods self1 periods_data in
                match _extract_installments parcel_id property_info tax_data with
                | (td1, Raise e) => (self2, put td1, Raise e)
                | (td1, Ok installments_data) =>
                    let self3 := add_installments self2 installments_data in
                    match _extract_delinquent_taxes parcel_id property_info td1 with
                    | (td2, Raise e) => (self3, put td2, Raise e)
                    | (td2, Ok delinquent_data) =>
                        let self4 := add_delinquent_taxes self3 delinquent_data in
                        match _extract_penalties_interest parcel_id property_info td2 with
                        | Raise e => (self4, put td2, Raise e)
                        | Ok penalties_data =>
                            (add_penalties_interest self4 penalties_data, put td2, Ok tt)
                        end
                    end
                end
            end
          else (self1, result, Ok tt)
      end
  | _ => (self, result, Raise AttributeError)
  end.

(** [for result in scraped_results]: stops at the first exception. *)
Fixpoint normalize_loop (self : TaxDataNormalizer) (scraped_results : list pyval)
    : TaxDataNormalizer * list pyval * res unit :=
  match scraped_results with
  | [] => (self, [], Ok tt)
  | result :: rest =>
      match normalize_result self result with
      | (self', result', Ok _) =>
          let '(self'', rest', r) := normalize_loop self' rest in
          (self'', result' :: rest', r)
      | (self', result', Raise e) => (self', result' :: rest, Raise e)
      end
  end.

Definition create_tables (self : TaxDataNormalizer) : Tables :=
  mkTables (properties self) (tax_periods self) (installments self)
    (delinquent_taxes self) (penalties_interest self).

(** [normalize_scraped_data]: the instance and the input list as the
    call leaves them, and the five frames. *)
Definition normalize_scraped_data (self : TaxDataNormalizer) (scraped_results : list pyval)
    : TaxDataNormalizer * list pyval * res Tables :=
  let '(self', results', r) := normalize_loop self scraped_results in
  (self', results', do _ <- r; Ok (create_tables self')).

End Extraction.

(** [TaxDataNormalizer()] *)
Definition new_normalizer : TaxDataNormalizer := mkNormalizer [] [] [] [] [].

(** ** The token protocol of [BrownCountyScraper] *)

Module Tokens.

Definition quote (c : ascii) : bool :=
  Ascii.eqb c Py.dquote || Ascii.eqb c Py.squote.
Definition not_quote (c : ascii) : bool := negb (quote c).
Definition not_gt (c : ascii) : bool := negb (Ascii.eqb c ">").

(** The three patterns of [extract_hidden_field], all under [re.I]; the
    name is escaped in the source, so it stands for itself. *)
Definition patterns (field_name : string) : list (list Re.atom) :=
  [ [Re.Lit "<input"; Re.Star not_gt; Re.Lit "name="; Re.Class quote;
     Re.Lit field_name; Re.Class quote; Re.Star not_gt; Re.Lit "value=";
     Re.Class quote; Re.Group not_quote; Re.Class quote];
    [Re.Lit "<input"; Re.Star not_gt; Re.Lit "value="; Re.Class quote;
     Re.Group not_quote; Re.Class quote; Re.Star not_gt; Re.Lit "name=";
     Re.Class quote; Re.Lit field_name; Re.Class quote];
    [Re.Lit "id="; Re.Class quote; Re.Lit field_name; Re.Class quote;
     Re.Star not_gt; Re.Lit "value="; Re.Class quote; Re.Group not_quote;
     Re.Class quote] ].

Definition empty_pattern (field_name : string) : list Re.atom :=
  [Re.Lit "name="; Re.Class quote; Re.Lit field_name; Re.Class quote].

(** [match and match.group(1)] *)
Definition group1 (pattern : list Re.atom) (html : string) : option string :=
  match Re.search true pattern html with
  | Some m =>
      match Re.captured m with
      | Some g => if Str.nonempty g then Some g else None
      | None => None
      end
  | None => None
  end.

Definition extract_hidden_field (html field_name : string) : option string :=
  match Re.first_some (List.map (fun p => group1 p html) (patterns field_name)) with
  | Some v => Some v
  | None =>
      match Re.search true (empty_pattern field_name) html with
      | Some _ => Some ""
      | None => None
      end
  end.

Definition tokens_to_extract : list string :=
  ["__VIEWSTATE"; "__VIEWSTATEGENERATOR"; "__EVENTVALIDATION"; "__VIEWSTATEENCRYPTED";
   "__PREVIOUSPAGE"; "__EVENTARGUMENT"; "__EVENTTARGET"; "__LASTFOCUS";
   "__SCROLLPOSITIONX"; "__SCROLLPOSITIONY"].

Definition toolkit_field : string := "ctl00_cphMainApp_ToolkitScriptManager1_HiddenField".

Definition extract_into (html : string) (tokens : gmap string string)
    (token_name : string) : gmap string string :=
  match extract_hidden_field html token_name with
  | Some value => <[token_name := value]> tokens
  | None => tokens
  end.

Definition extract_aspnet_tokens (html : string) : gmap string string :=
  extract_into html (fold_left (extract_into html) tokens_to_extract ∅) toolkit_field.

(** [tokens.update(new_tokens)] *)
Definition update (tokens new_tokens : gmap string string) : gmap string string :=
  new_tokens ∪ tokens.

(** [self.tokens.update(extract_aspnet_tokens(html))] *)
Definition capture (tokens : gmap string string) (html : string) : gmap string string :=
  update tokens (extract_aspnet_tokens html).

(** The driver: its token set and whether the browser is open. *)
Record BrownCountyScraper : Type := mkScraper {
  tokens : gmap string string;
  driver : bool
}.

(** What the two channels answer during [accept_terms]. *)
Record accept_io : Type := mkAcceptIo {
  accept_post : res string;      (* the body of the POST, or its failure *)
  accept_init : res unit;        (* starting the browser, when none is open *)
  accept_get : res unit;         (* loading the page in the browser *)
  accept_click : res string      (* the page after the click, or its failure *)
}.

Definition is_request_exception (e : exn) : bool :=
  match e with RequestException => true | _ => false end.

Definition is_lookup_failure (e : exn) : bool :=
  match e with TimeoutException | NoSuchElementException => true | _ => false end.

(** [_init_selenium]: nothing to do when the browser is open. *)
Definition _init_selenium (self_driver : bool) (init : res unit) : res unit :=
  if self_driver then Ok tt else init.

Definition get_cookie (self : BrownCountyScraper) (get : res string)
    : BrownCountyScraper * res (gmap string string) :=
  match get with
  | Ok html =>
      let t := extract_aspnet_tokens html in
      (mkScraper t (driver self), Ok t)
  | Raise e =>
      if is_request_exception e then (self, Ok ∅) else (self, Raise e)
  end.

(** The [except requests.RequestException] of a step: the outcome
    [caught] instead of the exception. *)
Definition except_request {A : Type} (self : BrownCountyScraper) (e : exn) (caught : A)
    : BrownCountyScraper * res A :=
  if is_request_exception e then (self, Ok caught) else (self, Raise e).

Definition accept_terms (self : BrownCountyScraper) (io : accept_io)
    : BrownCountyScraper * res (gmap string string) :=
  match accept_post io with
  | Raise e => except_request self e (tokens self)
  | Ok html =>
      let t1 := capture (tokens self) html in
      match _init_selenium (driver self) (accept_init io) with
      | Raise e => except_request (mkScraper t1 (driver self)) e t1
      | Ok _ =>
          match accept_get io with
          | Raise e => except_request (mkScraper t1 true) e t1
          | Ok _ =>
              match accept_click io with
              | Ok page_source =>
                  let t2 := capture t1 page_source in
                  (mkScraper t2 true, Ok t2)
              | Raise e =>
                  if is_lookup_failure e then (mkScraper t1 true, Ok t1)
                  else except_request (mkScraper t1 true) e t1
              end
          end
      end
  end.

(** What the two channels answer during [search_property]. *)
Record search_io : Type := mkSearchIo {
  search_post : res string;
  search_page : res string       (* the browser's page after the search *)
}.

Definition search_property (self : BrownCountyScraper) (io : search_io)
    : BrownCountyScraper * res (gmap string string) :=
  match search_post io with
  | Raise e => except_request self e (tokens self)
  | Ok html =>
      let t1 := capture (tokens self) html in
      if driver self then
        match search_page io with
        | Ok page_source =>
            let t2 := capture t1 page_source in
            (mkScraper t2 true, Ok t2)
        | Raise e =>
            if is_lookup_failure e then (mkScraper t1 true, Ok t1)
            else except_request (mkScraper t1 true) e t1
        end
      else (mkScraper t1 false, Ok t1)
  end.

(** What the two channels answer during [get_tax_info]. *)
Record tax_io : Type := mkTaxIo {
  tax_init : res unit;           (* starting the browser, when none is open *)
  tax_get : res unit;            (* loading the search page in a new browser *)
  tax_click : res string;        (* the page after the click on the taxes link *)
  tax_postback : res string;     (* the page after the scripted postback *)
  tax_post : res string          (* the body of the POST *)
}.

(** The outcome of [get_tax_info]: the response body it passes on to
    the parser of the tax page, or its error entry. *)
Inductive tax_info : Type :=
  | TaxPage (response_text : string)
  | TaxError.

Definition tax_request (self : BrownCountyScraper) (io : tax_io)
    : BrownCountyScraper * res tax_info :=
  match tax_post io with
  | Ok response_text => (self, Ok (TaxPage response_text))
  | Raise e => except_request self e TaxError
  end.

Definition tax_click_step (self : BrownCountyScraper) (io : tax_io)
    : BrownCountyScraper * res tax_info :=
  match tax_click io with
  | Ok page_source =>
      tax_request (mkScraper (capture (tokens self) page_source) true) io
  | Raise e =>
      if is_lookup_failure e then
        match tax_postback io with
        | Ok page_source =>
            tax_request (mkScraper (capture (tokens self) page_source) true) io
        | Raise _ => (mkScraper (tokens self) true, Ok TaxError)
        end
      else except_request (mkScraper (tokens self) true) e TaxError
  end.

Definition get_tax_info (self : BrownCountyScraper) (io : tax_io)
    : BrownCountyScraper * res tax_info :=
  if driver self then tax_click_step self io
  else
    match tax_init io with
    | Raise e => except_request self e TaxError
    | Ok _ =>
        match tax_get io with
        | Raise e => except_request (mkScraper (tokens self) true) e TaxError
        | Ok _ => tax_click_step (mkScraper (tokens self) true) io
        end
    end.

(** The responses a step captures tokens from, in order. *)
Definition accept_captures (self : BrownCountyScraper) (io : accept_io) : list string :=
  match accept_post io with
  | Ok html =>
      html :: match _init_selenium (driver self) (accept_init io),
                    accept_get io, accept_click io with
              | Ok _, Ok _, Ok page_source => [page_source]
              | _, _, _ => []
              end
  | Raise _ => []
  end.

Definition search_captures (self : BrownCountyScraper) (io : search_io) : list string :=
  match search_post io with
  | Ok html =>
      html :: match driver self, search_page io with
              | true, Ok page_source => [page_source]
              | _, _ => []
              end
  | Raise _ => []
  end.

Definition click_captures (io : tax_io) : list string :=
  match tax_click io with
  | Ok page_source => [page_source]
  | Raise e =>
      if is_lookup_failure e then
        match tax_postback io with
        | Ok page_source => [page_source]
        | Raise _ => []
        end
      else []
  end.

Definition tax_captures (self : BrownCountyScraper) (io : tax_io) : list string :=
  if driver self then click_captures io
  else match tax_init io, tax_get io with
       | Ok _, Ok _ => click_captures io
       | _, _ => []
       end.

(** [result] is [old] merged with [new]: a token of [new] overwrites,
    a token absent from [new] is kept. *)
Definition merged (old new result : gmap string string) : Prop :=
  forall k : string,
    result !! k = match new !! k with
                  | Some v => Some v
                  | None => old !! k
                  end.

(** [result] is [old] after merging the tokens of each response in turn. *)
Inductive merged_chain : gmap string string -> list string -> gmap string string -> Prop :=
  | chain_nil : forall t, merged_chain t [] t
  | chain_cons : forall old html mid rest result,
      merged old (extract_aspnet_tokens html) mid ->
      merged_chain mid rest result ->
      merged_chain old (html :: rest) result.

End Tokens.

(** ** Vocabulary of the properties *)

(** The text [_determine_installment_type] looks for cues in. *)
Definition type_text (data : dict) : string :=
  Str.lower (Py.str (Py.get_default data "type" (PStr ""))).

Definition first_cue (data : dict) : bool :=
  Str.contains "first" (type_text data) || Str.contains "1st" (type_text data).

Definition second_cue (data : dict) : bool :=
  Str.contains "second" (type_text data) || Str.contains "2nd" (type_text data).

(** The label by position alone. *)
Definition positional_type (n : Z) : string :=
  if n =? 1 then "1st_half"
  else if n =? 2 then "2nd_half"
  else "installment_" +:+ Str.of_Z n.

(** A year as the specification wants it: four decimal digits whose
    value lies in [1900, 2100]. *)
Definition four_digit_year (y : string) : Prop :=
  String.length y = 4%nat
  /\ Str.all Chr.isdecimal y = true
  /\ exists z : Z, Str.digits_value 0 y = Some z /\ 1900 <= z <= 2100.

(** A record in the shape [{name: text}]. *)
Definition record (fields : list (string * pyval)) : pyval :=
  PDict (List.map (fun kv => (KStr (fst kv), snd kv)) fields).

Definition fields (l : list (string * pyval)) : dict :=
  List.map (fun kv => (KStr (fst kv), snd kv)) l.

(** Four superscript twos: digits for [isdigit], not for [int]. *)
Definition superscript_year : string := Str.repeat (ascii_of_N 178) 4.

(** *** Inputs used below *)

Definition a_clock : string := "2026-01-15T10:30:00.000000".

(** An installment of tax year 2023 marked delinquent. *)
Definition delinquent_installment (amount : Z) : pyval :=
  record [("year", PStr "2023"); ("status", PStr "Delinquent"); ("amount", PInt amount)].

(** An explicit unpaid entry of tax year 2023. *)
Definition unpaid_entry (amount : Z) : pyval :=
  record [("year", PStr "2023"); ("amount", PInt amount)].

(** A bundle whose page extraction came back as [None]. *)
Definition bundle_null_page : pyval :=
  record [("parcel_id", PStr "17-10250-020");
          ("search_data", PNone);
          ("tax_data", record [("property_id", PStr "4411"); ("page_extracted", PNone)])].

(** A bundle whose tax years are keyed by integers. *)
Definition bundle_integer_year : pyval :=
  record [("parcel_id", PStr "17-10250-020");
          ("tax_data", PDict [(KInt 2023, record [("total", PStr "1200.00")])])].

(** A bundle with a tax year that has no data. *)
Definition bundle_null_year : pyval :=
  record [("parcel_id", PStr "17-10250-020");
          ("tax_data", record [("2023", PNone)])].

(** Two delinquent installments of 2023, of 100 and 50, found on the
    page; the bundle's own list is empty and it has no unpaid entry. *)
Definition bundle_nested_installments : pyval :=
  record [("parcel_id", PStr "17-10250-020");
          ("tax_data",
           record [("installments", PList []);
                   ("page_extracted",
                    record [("installments",
                             PList [delinquent_installment 100; delinquent_installment 50])])])].

(** The same bundle with the page's installments appended twice to its
    own list. *)
Definition bundle_nested_installments_after : pyval :=
  record [("parcel_id", PStr "17-10250-020");
          ("tax_data",
           record [("installments",
                    PList [delinquent_installment 100; delinquent_installment 50;
                           delinquent_installment 100; delinquent_installment 50]);
                   ("page_extracted",
                    record [("installments",
                             PList [delinquent_installment 100; delinquent_installment 50])])])].

(** Two explicit unpaid entries for the same year. *)
Definition bundle_two_unpaid : pyval :=
  record [("parcel_id", PStr "17-10250-020");
          ("tax_data", record [("unpaid_taxes", PList [unpaid_entry 75; unpaid_entry 20])])].

(** An explicit unpaid entry of 75 for 2023 and two delinquent
    installments for 2023. *)
Definition tax_data_explicit_and_installments : dict :=
  fields [("unpaid_taxes", PList [unpaid_entry 75]);
          ("installments", PList [delinquent_installment 100; delinquent_installment 50])].

(** A bundle whose search result is another parcel's and whose
    [tax_data] has a tax year but no [property_id]. *)
Definition bundle_unmatched : pyval :=
  record [("parcel_id", PStr "17-10250-020");
          ("search_data",
           record [("data", PList [record [("UserDefinedId", PStr "17-99999-000");
                                           ("PropertyId", PInt 5)]])]);
          ("tax_data",
           record [("2023", record [("total", PStr "$1,200.00"); ("status", PStr "Paid")])])].

(** The (parcel, year) keys of delinquent rows. *)
Definition parcel_year (r : DelinquentTax) : pyval * option string :=
  (delq_parcel_id r, delq_tax_year r).

(** The search results hold no entry for the parcel. *)
Definition no_matching_result (parcel_id search_data : pyval) : Prop :=
  forall sd results,
    search_data = PDict sd -> results_of sd = Ok results ->
    find_result parcel_id results = None.

(** [tax_data] carries no [property_id]. *)
Definition no_property_id (tax_data : pyval) : Prop :=
  forall td, tax_data = PDict td -> Py.truthy (Py.get td "property_id") = false.

(** The rows of [d] appended to those of [self], table by table. *)
Definition extend_with (self d : TaxDataNormalizer) : TaxDataNormalizer :=
  mkNormalizer (properties self ++ properties d) (tax_periods self ++ tax_periods d)
    (installments self ++ installments d) (delinquent_taxes self ++ delinquent_taxes d)
    (penalties_interest self ++ penalties_interest d).

(** *** Vocabulary of the numbering property *)

(** An entry of [tax_data] that is neither a year entry nor a nested
    source. *)
Definition plain_entry (kv : pykey * pyval) : bool :=
  match fst kv with
  | KStr s =>
      negb (Str.isdigit s) && negb (String.eqb s "current")
      && negb (String.eqb s "page_extracted") && negb (String.eqb s "api_extracted")
  | KInt _ => false
  end.

(** The year entry lists exactly the records [a] and [b], its own list
    and its nested sources taken together. *)
Definition year_lists (year_data a b : dict) : Prop :=
  snd (merged_sources year_data "installments") = Ok (PList [PDict a; PDict b]).

(** The year and the amount of the record are read without an
    exception. *)
Definition coerces (inst : dict) : Prop :=
  is_ok (_extract_year_from_data (PDict inst)) = true
  /\ is_ok (_extract_amount (PDict inst) installment_amount_keys) = true.

(** The year the record carries itself. *)
Definition own_year (inst : dict) : option string :=
  match _extract_year_from_data (PDict inst) with
  | Ok y => y
  | Raise _ => None
  end.

(** [self._extract_year_from_data(inst) or tax_year] under the year key
    [key]. *)
Definition row_year (key : string) (inst : dict) : option string :=
  match own_year inst with
  | Some y => Some y
  | None => Some key
  end.

(** The grouping of a row and its number in it. *)
Definition group_key (r : Installment) : pyval * option string * Z :=
  (inst_parcel_id r, inst_tax_year r, installment_number r).

(** Two tax years, each with two installments; those of 2022 are due in
    2023. *)
Definition year_2022 : dict :=
  fields [("installments",
           PList [record [("amount", PStr "$600.00"); ("dueDate", PStr "01/31/2023")];
                  record [("amount", PStr "$600.00"); ("dueDate", PStr "07/31/2023")]])].

Definition year_2023 : dict :=
  fields [("installments",
           PList [record [("amount", PStr "$650.00"); ("status", PStr "Paid")];
                  record [("amount", PStr "$650.00")]])].

(** A year entry whose second installment is found on the page, and one
    that holds both itself; no record names a year. *)
Definition year_nested : dict :=
  fields [("installments",
           PList [record [("amount", PStr "$600.00"); ("status", PStr "Paid")]]);
          ("page_extracted",
           record [("installments", PList [record [("amount", PStr "$600.00")]])])].

Definition year_plain : dict :=
  fields [("installments",
           PList [record [("amount", PStr "$650.00"); ("status", PStr "Paid")];
                  record [("amount", PStr "$650.00")]])].

(** *** Vocabulary of the further properties *)

(** The text the two status functions look into. *)
Definition status_text (data : dict) : string :=
  Str.lower (Py.str (Py.get_default data "status" (PStr ""))).

(** The value of a year-named field as the year test reads it. *)
Definition year_field_text (data : dict) (field : string) : string :=
  Str.strip (Py.str (Py.get data field)).

(** No year-named field holds four [isdigit] characters that [int]
    cannot read. *)
Definition year_fields_readable (data : dict) : Prop :=
  forall field, In field year_fields ->
    Str.isdigit (year_field_text data field) = true ->
    Str.all Chr.isdecimal (year_field_text data field) = true.

(** [n, n + 1, ...], [len] numbers. *)
Definition numbers_from (n : Z) (len : nat) : list Z :=
  List.map (fun i => n + Z.of_nat i) (seq 0 len).

(** The items of a list that are dictionaries. *)
Definition dict_items (l : list pyval) : list pyval := List.filter Py.is_dict l.

(** The fields [_extract_owner_name] tries before [FirstName]. *)
Definition full_name_fields : list string :=
  ["ConcatenatedName"; "concatenatedName"; "OwnerName"; "ownerName"].

(** A property row that carries an identifier or an owner. *)
Definition identified (p : Property) : Prop :=
  Py.truthy (prop_property_id p) || Py.truthy (prop_owner_name p) = true.

(** ** The pages of [BrownCountyScraper] *)

Module Brown.

(** [s.split(sep, 1)] when [sep] occurs in [s]: the text before the
    first occurrence and the text after it. *)
Fixpoint split_once (sep s : string) : option (string * string) :=
  if Str.startswith sep s
  then Some (EmptyString, Str.drop (String.length sep) s)
  else match s with
       | EmptyString => None
       | String c s' =>
           match split_once sep s' with
           | Some (before, after) => Some (String c before, after)
           | None => None
           end
       end.

Definition panel_marker : string := "|updatePanel|".

Definition _parse_aspnet_ajax_response (response_text : string) : string :=
  if Str.contains panel_marker response_text then
    match split_once panel_marker response_text with
    | Some (_, rest) =>
        if Str.contains "|" rest then
          match split_once "|" rest with
          | Some (_, html_content) => html_content
          | None => rest
          end
        else rest
    | None => response_text
    end
  else response_text.

(** A parsed table as [_extract_table_data] builds it: the texts of the
    header cells and, row by row, the texts of the data cells. *)
Record table_info : Type := mkTableInfo {
  headers : list string;
  rows : list (list string)
}.

(** An entry of the installments list. *)
Record installment : Type := mkEntry {
  due_date : string;
  amount : string
}.

(** An entry of the tax history list. *)
Record history_entry : Type := mkHistory {
  year : string;
  history_amount : string;
  interest_paid : string;
  penalties_paid : string;
  paid : string;
  last_paid : string;
  amount_due : string;
  status : string
}.

(** [x in l] *)
Definition mem (x : string) (l : list string) : bool := existsb (String.eqb x) l.

(** [l.index(x)] for an [x] of [l] *)
Fixpoint index_of (x : string) (l : list string) : option nat :=
  match l with
  | [] => None
  | y :: l' =>
      if String.eqb y x then Some O
      else match index_of x l' with Some i => Some (S i) | None => None end
  end.

(** [row[i].strip() if i < len(row) else ''] *)
Definition cell (row : list string) (i : nat) : string :=
  match nth_error row i with
  | Some c => Str.strip c
  | None => EmptyString
  end.

(** [row[i].strip() if i is not None and i < len(row) else ''] *)
Definition optional_cell (row : list string) (i : option nat) : string :=
  match i with
  | Some i => cell row i
  | None => EmptyString
  end.

(** [row[i].strip() if i and i < len(row) else '']: index 0 counts as
    no index. *)
Definition truthy_cell (row : list string) (i : nat) : string :=
  match i with
  | O => EmptyString
  | S _ => cell row i
  end.

(** The installments table: headers ['Due Date', 'Amount']. *)
Definition installments_of (t : table_info) : list installment :=
  if (2 <=? length (headers t))%nat && mem "Due Date" (headers t) && mem "Amount" (headers t)
  then
    match index_of "Due Date" (headers t), index_of "Amount" (headers t) with
    | Some due_date_idx, Some amount_idx =>
        flat_map
          (fun row =>
             if (Nat.max due_date_idx amount_idx <? length row)%nat then
               let e := mkEntry (cell row due_date_idx) (cell row amount_idx) in
               if Str.nonempty (due_date e) && Str.nonempty (amount e) then [e] else []
             else [])
          (rows t)
    | _, _ => []
    end
  else [].

Definition history_markers : list string :=
  ["Interest Paid"; "Penalties Paid"; "Paid"; "Last Paid"; "Amount Due"; "Status"].

(** The tax history table: at least seven headers, among them 'Year',
    'Amount' and one of the markers. *)
Definition history_of (t : table_info) : list history_entry :=
  if (7 <=? length (headers t))%nat && mem "Year" (headers t) && mem "Amount" (headers t)
     && existsb (fun col => mem col (headers t)) history_markers
  then
    match index_of "Year" (headers t), index_of "Amount" (headers t) with
    | Some year_idx, Some amount_idx =>
        flat_map
          (fun row =>
             if (year_idx <? length row)%nat then
               let year_value := cell row year_idx in
               if Str.nonempty year_value && Str.isdigit year_value
                  && (Str.len year_value =? 4)
               then [mkHistory year_value
                       (truthy_cell row amount_idx)
                       (optional_cell row (index_of "Interest Paid" (headers t)))
                       (optional_cell row (index_of "Penalties Paid" (headers t)))
                       (optional_cell row (index_of "Paid" (headers t)))
                       (optional_cell row (index_of "Last Paid" (headers t)))
                       (optional_cell row (index_of "Amount Due" (headers t)))
                       (optional_cell row (index_of "Status" (headers t)))]
               else []
             else [])
          (rows t)
    | _, _ => []
    end
  else [].

(** [_extract_installments_and_history]; the [soup] argument is not
    read. *)
Definition _extract_installments_and_history (tables_data : list table_info)
    : list installment * list history_entry :=
  (flat_map installments_of tables_data, flat_map history_of tables_data).

(** The key a header of the property table is filed under, from its
    lowered text; the tests run in this order. *)
Definition detail_key (header_lower : string) : option string :=
  if Str.contains "parcel" header_lower && Str.contains "number" header_lower
  then Some "parcel_number"
  else if Str.contains "property" header_lower && Str.contains "address" header_lower
  then Some "property_address"
  else if Str.contains "billing" header_lower && Str.contains "address" header_lower
  then Some "billing_address"
  else if Str.contains "municipality" header_lower then Some "municipality"
  else if Str.contains "owner" header_lower then Some "owner"
  else if Str.contains "tax" header_lower && Str.contains "year" header_lower
  then Some "tax_year"
  else if Str.contains "prop" header_lower && Str.contains "type" header_lower
  then Some "property_type"
  else None.

(** One turn of [for i, header in enumerate(headers)] with [i < len(row)]. *)
Definition file_cell (property_details : gmap string string) (hc : string * string)
    : gmap string string :=
  let value := Str.strip (snd hc) in
  if Str.nonempty value then
    match detail_key (Str.lower (fst hc)) with
    | Some key => <[key := value]> property_details
    | None => property_details
    end
  else property_details.

Definition detail_markers : list string :=
  ["Parcel Number"; "Property Address"; "Municipality"; "Owner"].

(** One turn of [for table_info in tables_data]. *)
Definition file_table (property_details : gmap string string) (t : table_info)
    : gmap string string :=
  if (3 <=? length (headers t))%nat && existsb (fun col => mem col (headers t)) detail_markers
  then
    match rows t with
    | row :: _ => fold_left file_cell (combine (headers t) row) property_details
    | [] => property_details
    end
  else property_details.

(** [if elem: property_details[key] = elem.get_text(strip=True)]: an
    element that is found counts as true whatever its text. *)
Definition file_element (key : string) (text : option string)
    (property_details : gmap string string) : gmap string string :=
  match text with
  | Some t => <[key := t]> property_details
  | None => property_details
  end.

(** [_extract_property_details]; of [soup] the function reads the text
    of the elements [lblBillNumber] and [lblNetMillRate], when the page
    has them. *)
Definition _extract_property_details (bill_number net_mill_rate : option string)
    (tables_data : list table_info) : gmap string string :=
  file_element "net_mill_rate" net_mill_rate
    (file_element "bill_number" bill_number
       (fold_left file_table tables_data ∅)).

Definition table_keys : list string :=
  ["parcel_number"; "property_address"; "billing_address"; "municipality"; "owner";
   "tax_year"; "property_type"].

End Brown.

(** *** Vocabulary of the token properties *)

(** [s] between double quotes, followed by [rest]. *)
Definition quoted (s rest : string) : string :=
  String Py.dquote (s +:+ String Py.dquote rest).

(** A hidden field as an ASP.NET page writes it. *)
Definition hidden_input (name value : string) : string :=
  "<input type=" +:+ quoted "hidden"
    (" name=" +:+ quoted name
       (" id=" +:+ quoted name
          (" value=" +:+ quoted value " />"))).

(** The pattern has no match at [s]. *)
Definition blocked (atoms : list Re.atom) (s : string) : Prop :=
  forall prev, Re.match_here true atoms prev s = None.

(** The pattern has no match at [s] nor anywhere after. *)
Fixpoint never_from (atoms : list Re.atom) (s : string) : Prop :=
  blocked atoms s /\
  match s with
  | EmptyString => True
  | String _ s' => never_from atoms s'
  end.

(** The last character read once [u] is consumed. *)
Fixpoint last_of (prev : option ascii) (u : string) : option ascii :=
  match u with
  | EmptyString => prev
  | String c u' => last_of (Some c) u'
  end.

(** [s] and what is left of it after each character. *)
Fixpoint tails (s : string) : list string :=
  s :: match s with
       | EmptyString => []
       | String _ s' => tails s'
       end.

(** The outcome is a match whose group is [v]. *)
Definition captures (r : option Re.found) (v : string) : Prop :=
  exists f, r = Some f /\ Re.captured f = Some v.

(** What follows the first [[^>]*] of the first pattern, what follows
    its second, and what follows the group. *)
Definition after_group : list Re.atom := [Re.Class Tokens.quote].

Definition value_part : list Re.atom :=
  [Re.Lit "value="; Re.Class Tokens.quote; Re.Group Tokens.not_quote; Re.Class Tokens.quote].

Definition name_part (field_name : string) : list Re.atom :=
  Re.Lit "name=" :: Re.Class Tokens.quote :: Re.Lit field_name :: Re.Class Tokens.quote
    :: Re.Star Tokens.not_gt :: value_part.

(** * Properties *)

(** ** Field coercion *)

Lemma append_length (s t : string) :
  String.length (s +:+ t) = (String.length s + String.length t)%nat.
Proof. induction s as [|c s IH]; simpl; [reflexivity|by rewrite IH]. Qed.

Lemma digits_value_all (s : string) :
  forall acc z, Str.digits_value acc s = Some z -> Str.all Chr.isdecimal s = true.
Proof.
  induction s as [|c s IH]; intros acc z H; simpl in *.
  - reflexivity.
  - destruct (Chr.isdecimal c); [|discriminate].
    simpl. eapply IH; eassumption.
Qed.

Lemma to_int_value (s : string) (z : Z) :
  Str.to_int s = Ok z -> Str.digits_value 0 s = Some z.
Proof.
  unfold Str.to_int. destruct s as [|c s]; [discriminate|].
  destruct (Str.digits_value 0 (String c s)); congruence.
Qed.

Lemma in_year_range_bounds (z : Z) : in_year_range z = true -> 1900 <= z <= 2100.
Proof. unfold in_year_range. lia. Qed.

Lemma year_by_fields_sound (data : dict) (fs : list string) (y : string) :
  year_by_fields data fs = Ok (Some y) -> four_digit_year y.
Proof.
  induction fs as [|f fs IH]; simpl; [discriminate|].
  destruct (Py.has data f && Py.truthy (Py.get data f)); [|exact IH].
  set (v := Str.strip (Py.str (Py.get data f))).
  destruct (Str.isdigit v && (Str.len v =? 4)) eqn:Hshape; [|exact IH].
  destruct (Str.to_int v) as [z|e] eqn:Hint; simpl; [|discriminate].
  destruct (in_year_range z) eqn:Hrange; [|exact IH].
  intros [= <-].
  apply andb_prop in Hshape as [_ Hlen].
  apply to_int_value in Hint.
  repeat split.
  - unfold Str.len in Hlen. lia.
  - eapply digits_value_all; eassumption.
  - exists z. split; [assumption | by apply in_year_range_bounds].
Qed.

Lemma prepend_length (m : string) (r : option Re.found) (f : Re.found) (n : nat) :
  Re.prepend m r = Some f ->
  (forall g, r = Some g -> String.length (Re.matched g) = n) ->
  String.length (Re.matched f) = (String.length m + n)%nat.
Proof.
  destruct r as [g|]; simpl; [|discriminate].
  intros [= <-] H. simpl. rewrite append_length. by rewrite (H g).
Qed.

Lemma lit_length (p s m r : string) :
  Re.lit false p s = Some (m, r) -> String.length m = String.length p.
Proof.
  revert s m r. induction p as [|a p IH]; intros s m r; simpl.
  - by intros [= <- _].
  - destruct s as [|b s]; [discriminate|].
    destruct (Ascii.eqb a b); [|discriminate].
    destruct (Re.lit false p s) as [[m' r']|] eqn:E; [|discriminate].
    intros [= <- _]. simpl. f_equal. eapply IH; eassumption.
Qed.

Lemma year_tail_length (prev : option ascii) (s : string) (g : Re.found) :
  Re.match_here false [Re.Class Chr.isdecimal; Re.Class Chr.isdecimal; Re.Boundary] prev s
  = Some g ->
  String.length (Re.matched g) = 2%nat.
Proof.
  simpl. destruct s as [|c1 s]; [discriminate|].
  destruct (Chr.isdecimal c1); [|discriminate].
  destruct s as [|c2 s]; [discriminate|].
  destruct (Chr.isdecimal c2); [|discriminate].
  destruct (xorb _ _); simpl; [|discriminate].
  by intros [= <-].
Qed.

Lemma year_choice_length (prev : option ascii) (s p : string) (f : Re.found) :
  String.length p = 2%nat ->
  match Re.lit false p s with
  | Some (m, r) =>
      Re.prepend m
        (Re.match_here false [Re.Class Chr.isdecimal; Re.Class Chr.isdecimal; Re.Boundary]
           (Re.last_char prev m) r)
  | None => None
  end = Some f ->
  String.length (Re.matched f) = 4%nat.
Proof.
  intros Hp. destruct (Re.lit false p s) as [[m r]|] eqn:E; [|discriminate].
  intros H. apply lit_length in E.
  erewrite prepend_length; [|exact H|intros g Hg; eapply year_tail_length; exact Hg].
  lia.
Qed.

Lemma year_pattern_unfold (prev : option ascii) (s : string) :
  Re.match_here false Re.year_pattern prev s =
    if xorb (Re.is_word prev) (Re.is_word (Re.head_char s)) then
      Re.first_some
        (List.map (fun p =>
           match Re.lit false p s with
           | Some (m, r) =>
               Re.prepend m
                 (Re.match_here false
                    [Re.Class Chr.isdecimal; Re.Class Chr.isdecimal; Re.Boundary]
                    (Re.last_char prev m) r)
           | None => None
           end) ["19"; "20"])
    else None.
Proof. reflexivity. Qed.

Lemma year_match_length (prev : option ascii) (s : string) (f : Re.found) :
  Re.match_here false Re.year_pattern prev s = Some f ->
  String.length (Re.matched f) = 4%nat.
Proof.
  rewrite year_pattern_unfold.
  destruct (xorb _ _); [|discriminate].
  cbv beta iota delta [List.map Re.first_some].
  match goal with
  | |- match ?a with _ => _ end = _ -> _ => destruct a as [fa|] eqn:Ea
  end.
  - intros [= <-]. eapply year_choice_length; [|exact Ea]. reflexivity.
  - match goal with
    | |- match ?b with _ => _ end = _ -> _ => destruct b as [fb|] eqn:Eb
    end; [|discriminate].
    intros [= <-]. eapply year_choice_length; [|exact Eb]. reflexivity.
Qed.

Lemma search_from_unfold (icase : bool) (atoms : list Re.atom)
    (prev : option ascii) (s : string) :
  Re.search_from icase atoms prev s =
    match Re.match_here icase atoms prev s with
    | Some f => Some f
    | None =>
        match s with
        | String c s' => Re.search_from icase atoms (Some c) s'
        | EmptyString => None
        end
    end.
Proof. destruct s; reflexivity. Qed.

Lemma year_search_length (s : string) :
  forall prev f, Re.search_from false Re.year_pattern prev s = Some f ->
  String.length (Re.matched f) = 4%nat.
Proof.
  induction s as [|c s IH]; intros prev f; rewrite search_from_unfold;
    destruct (Re.match_here false Re.year_pattern prev _) eqn:E;
    try (intros [= <-]; eapply year_match_length; eassumption);
    try discriminate.
  apply IH.
Qed.

Lemma year_by_scan_sound (items : dict) (y : string) :
  year_by_scan items = Ok (Some y) -> four_digit_year y.
Proof.
  induction items as [|[k v] items IH]; simpl; [discriminate|].
  destruct v; try exact IH.
  destruct (Re.search false Re.year_pattern s) as [m|] eqn:Hm; [|exact IH].
  destruct (Str.to_int (Re.matched m)) as [z|e] eqn:Hint; simpl; [|discriminate].
  destruct (in_year_range z) eqn:Hrange; [|exact IH].
  intros [= <-]. apply to_int_value in Hint.
  repeat split.
  - eapply year_search_length. exact Hm.
  - eapply digits_value_all; eassumption.
  - exists z. split; [assumption | by apply in_year_range_bounds].
Qed.

(** Whatever [_extract_year_from_data] returns is a year of four decimal
    digits within [1900, 2100]. *)
Lemma extract_year_sound (data : pyval) (y : string) :
  _extract_year_from_data data = Ok (Some y) -> four_digit_year y.
Proof.
  destruct data; try discriminate.
  unfold _extract_year_from_data, rbind.
  destruct (year_by_fields d year_fields) as [[y'|]|e] eqn:Hf; try discriminate.
  - intros [= <-]. eapply year_by_fields_sound; eassumption.
  - apply year_by_scan_sound.
Qed.

(** C8, at the input where the code departs from it: a year field of
    four superscript digits passes [isdigit] and the length test, and
    [int] then raises instead of the field being rejected. *)
Theorem superscript_year_raises :
  Str.isdigit superscript_year = true
  /\ Str.len superscript_year = 4
  /\ _extract_year_from_data (record [("year", PStr superscript_year)]) = Raise ValueError.
Proof. repeat split; vm_compute; reflexivity. Qed.

(** ** Installment types *)

Lemma determine_installment_type_unfold (data : dict) (n : Z) :
  _determine_installment_type data n =
    if first_cue data || (n =? 1) then "1st_half"
    else if second_cue data || (n =? 2) then "2nd_half"
    else "installment_" +:+ Str.of_Z n.
Proof. reflexivity. Qed.

(** The label as the code computes it: it follows the position when
    the type text has no cue; a first-half cue, or position 1, gives
    [1st_half] whatever else the text says; a second-half cue decides
    only away from position 1 and without a first-half cue. *)
Lemma installment_type_cues (data : dict) (n : Z) :
  (first_cue data = false -> second_cue data = false ->
     _determine_installment_type data n = positional_type n)
  /\ (first_cue data = true -> _determine_installment_type data n = "1st_half")
  /\ (n = 1 -> _determine_installment_type data n = "1st_half")
  /\ (first_cue data = false -> second_cue data = true -> n <> 1 ->
        _determine_installment_type data n = "2nd_half").
Proof.
  rewrite determine_installment_type_unfold. unfold positional_type.
  repeat split.
  - intros -> ->. simpl. reflexivity.
  - intros ->. reflexivity.
  - intros ->. by rewrite orb_true_r.
  - intros -> -> Hn. simpl. destruct (Z.eqb_spec n 1); [contradiction|reflexivity].
Qed.

Lemma installment_type_cues_witness :
  _determine_installment_type (fields [("type", PStr "Second half")]) 3 = "2nd_half"
  /\ _determine_installment_type (fields [("type", PStr "2024 taxes")]) 3 = positional_type 3.
Proof.
  split.
  - apply (installment_type_cues (fields [("type", PStr "Second half")]) 3);
      [reflexivity | reflexivity | lia].
  - apply (installment_type_cues (fields [("type", PStr "2024 taxes")]) 3); reflexivity.
Defined.

(** C7, where the code departs from it: the test for position 1 stands
    in the same condition as the first-half cue, before the second-half
    cue is looked at.  So every record at position 1 is labelled
    [1st_half], also one whose type text is "Second half" and has no
    first-half cue; yet the cue does decide elsewhere: "First half" at
    position 2 gives [1st_half] and "Second half" at position 3 gives
    [2nd_half]. *)
Theorem second_cue_at_position_one :
  (forall data, _determine_installment_type data 1 = "1st_half")
  /\ second_cue (fields [("type", PStr "Second half")]) = true
  /\ first_cue (fields [("type", PStr "Second half")]) = false
  /\ _determine_installment_type (fields [("type", PStr "Second half")]) 1 <> "2nd_half"
  /\ _determine_installment_type (fields [("type", PStr "First half")]) 2 = "1st_half"
  /\ _determine_installment_type (fields [("type", PStr "Second half")]) 3 = "2nd_half".
Proof.
  split.
  - intros data. rewrite determine_installment_type_unfold.
    change (1 =? 1) with true. by rewrite orb_true_r.
  - repeat split; try reflexivity. vm_compute. discriminate.
Qed.

(** ** The pass on particular bundles *)

(** C2, where the code departs from it: a page extraction that is
    [None], a tax year keyed by an integer and a tax year without data
    each end the pass with an [AttributeError]. *)
Theorem normalize_raises :
  snd (normalize_scraped_data a_clock new_normalizer [bundle_null_page])
    = Raise AttributeError
  /\ snd (normalize_scraped_data a_clock new_normalizer [bundle_integer_year])
    = Raise AttributeError
  /\ snd (normalize_scraped_data a_clock new_normalizer [bundle_null_year])
    = Raise AttributeError.
Proof. repeat split; vm_compute; reflexivity. Qed.

(** C3, where the code departs from it: the two delinquent installments
    of 100 and 50 are the only ones of the bundle, and the derived row
    carries 300, each installment being counted twice. *)
Theorem nested_installments_counted_twice :
  match normalize_scraped_data a_clock new_normalizer [bundle_nested_installments] with
  | (_, _, Ok t) =>
      List.map (fun r => (inst_status r, inst_amount r, inst_tax_year r)) (installments_df t)
        = [("delinquent", Some 100%float, Some "2023");
           ("delinquent", Some 50%float, Some "2023")]
      /\ List.map (fun r => (delq_tax_year r, delinquent_amount r)) (delinquent_taxes_df t)
        = [(Some "2023", 300%float)]
  | (_, _, Raise _) => False
  end.
Proof. vm_compute. split; reflexivity. Qed.

(** C5, where the code departs from it: after the pass the bundle's own
    [installments] list holds four entries instead of none. *)
Theorem normalize_extends_input :
  snd (fst (normalize_scraped_data a_clock new_normalizer [bundle_nested_installments]))
    = [bundle_nested_installments_after]
  /\ bundle_nested_installments_after <> bundle_nested_installments.
Proof. split; [vm_compute; reflexivity | vm_compute; discriminate]. Qed.

(** C1 as stated fails: two explicit unpaid entries of one year give two
    rows with the same parcel and year. *)
Lemma explicit_entries_repeat_a_year :
  match normalize_scraped_data a_clock new_normalizer [bundle_two_unpaid] with
  | (_, _, Ok t) =>
      List.map parcel_year (delinquent_taxes_df t)
        = [(PStr "17-10250-020", Some "2023"); (PStr "17-10250-020", Some "2023")]
      /\ ~ NoDup (List.map parcel_year (delinquent_taxes_df t))
  | (_, _, Raise _) => False
  end.
Proof.
  vm_compute. split; [reflexivity|].
  intros H. apply NoDup_cons in H as [Hnotin _]. apply Hnotin. left.
Qed.

(** C4 as stated fails: the bundle yields no property row, and still a
    tax period row. *)
Lemma unmatched_bundle_contributes :
  no_matching_result (PStr "17-10250-020")
    (record [("data", PList [record [("UserDefinedId", PStr "17-99999-000");
                                     ("PropertyId", PInt 5)]])])
  /\ match normalize_scraped_data a_clock new_normalizer [bundle_unmatched] with
     | (_, _, Ok t) =>
         properties_df t = []
         /\ List.map (fun r => (period_tax_year r, period_property_id r)) (tax_periods_df t)
            = [("2023", PNone)]
     | (_, _, Raise _) => False
     end.
Proof.
  split.
  - intros sd results [= <-] H. vm_compute in H. injection H as <-. vm_compute. reflexivity.
  - vm_compute. split; reflexivity.
Qed.

(** ** The token protocol *)

Lemma capture_merged (t : gmap string string) (html : string) :
  Tokens.merged t (Tokens.extract_aspnet_tokens html) (Tokens.capture t html).
Proof.
  intros k. unfold Tokens.capture, Tokens.update.
  rewrite lookup_union.
  destruct (Tokens.extract_aspnet_tokens html !! k), (t !! k); reflexivity.
Qed.

Ltac solve_chain :=
  repeat (eapply Tokens.chain_cons; [apply capture_merged|]); apply Tokens.chain_nil.

Lemma accept_terms_chain (self : Tokens.BrownCountyScraper) (io : Tokens.accept_io) :
  Tokens.merged_chain (Tokens.tokens self) (Tokens.accept_captures self io)
    (Tokens.tokens (fst (Tokens.accept_terms self io))).
Proof.
  unfold Tokens.accept_captures, Tokens.accept_terms, Tokens.except_request.
  repeat case_match; simplify_eq; cbn [fst Tokens.tokens]; solve_chain.
Qed.

Lemma search_property_chain (self : Tokens.BrownCountyScraper) (io : Tokens.search_io) :
  Tokens.merged_chain (Tokens.tokens self) (Tokens.search_captures self io)
    (Tokens.tokens (fst (Tokens.search_property self io))).
Proof.
  unfold Tokens.search_captures, Tokens.search_property, Tokens.except_request.
  repeat case_match; simplify_eq; cbn [fst Tokens.tokens]; solve_chain.
Qed.

Lemma tax_click_chain (self : Tokens.BrownCountyScraper) (io : Tokens.tax_io) :
  Tokens.merged_chain (Tokens.tokens self) (Tokens.click_captures io)
    (Tokens.tokens (fst (Tokens.tax_click_step self io))).
Proof.
  unfold Tokens.click_captures, Tokens.tax_click_step, Tokens.tax_request,
    Tokens.except_request.
  repeat case_match; simplify_eq; cbn [fst Tokens.tokens]; solve_chain.
Qed.

Lemma get_tax_info_chain (self : Tokens.BrownCountyScraper) (io : Tokens.tax_io) :
  Tokens.merged_chain (Tokens.tokens self) (Tokens.tax_captures self io)
    (Tokens.tokens (fst (Tokens.get_tax_info self io))).
Proof.
  unfold Tokens.tax_captures, Tokens.get_tax_info, Tokens.except_request.
  destruct (Tokens.driver self); [apply tax_click_chain|].
  destruct (Tokens.tax_init io); [|case_match; cbn; apply Tokens.chain_nil].
  destruct (Tokens.tax_get io); [|case_match; cbn; apply Tokens.chain_nil].
  apply (tax_click_chain (Tokens.mkScraper (Tokens.tokens self) true)).
Qed.

(** C9: after [accept_terms], [search_property] and [get_tax_info] the
    token set is the previous one merged, in turn, with the tokens of
    each response the step captured: a token of the response overwrites
    the stored one, a stored token the response lacks is kept. *)
Theorem token_steps_merge (self : Tokens.BrownCountyScraper) :
  (forall io, Tokens.merged_chain (Tokens.tokens self) (Tokens.accept_captures self io)
                (Tokens.tokens (fst (Tokens.accept_terms self io))))
  /\ (forall io, Tokens.merged_chain (Tokens.tokens self) (Tokens.search_captures self io)
                (Tokens.tokens (fst (Tokens.search_property self io))))
  /\ (forall io, Tokens.merged_chain (Tokens.tokens self) (Tokens.tax_captures self io)
                (Tokens.tokens (fst (Tokens.get_tax_info self io)))).
Proof.
  split; [|split]; intros io.
  - apply accept_terms_chain.
  - apply search_property_chain.
  - apply get_tax_info_chain.
Qed.

(** ** Accumulation across calls *)

Ltac norm_fields :=
  unfold extend_with, add_property, add_tax_periods, add_installments,
    add_delinquent_taxes, add_penalties_interest, new_normalizer, create_tables;
  cbn [fst snd properties tax_periods installments delinquent_taxes
       penalties_interest properties_df tax_periods_df installments_df
       delinquent_taxes_df penalties_interest_df app].

Lemma extend_with_new (self : TaxDataNormalizer) : extend_with self new_normalizer = self.
Proof. destruct self. norm_fields. by rewrite !app_nil_r. Qed.

Lemma extend_with_assoc (a b c : TaxDataNormalizer) :
  extend_with (extend_with a b) c = extend_with a (extend_with b c).
Proof. norm_fields. by rewrite !app_assoc. Qed.

(** The body of the loop reads nothing of the instance: its rows are
    those a new instance would get, appended. *)
Lemma normalize_result_from (now : string) (self : TaxDataNormalizer) (result : pyval) :
  normalize_result now self result =
    (extend_with self (fst (fst (normalize_result now new_normalizer result))),
     snd (fst (normalize_result now new_normalizer result)),
     snd (normalize_result now new_normalizer result)).
Proof.
  destruct self as [ps ts ns ds qs].
  unfold normalize_result.
  repeat case_match; simplify_eq; norm_fields; rewrite ?app_nil_r; reflexivity.
Qed.

Lemma normalize_loop_from (now : string) (scraped_results : list pyval) :
  forall self : TaxDataNormalizer,
    normalize_loop now self scraped_results =
      (extend_with self (fst (fst (normalize_loop now new_normalizer scraped_results))),
       snd (fst (normalize_loop now new_normalizer scraped_results)),
       snd (normalize_loop now new_normalizer scraped_results)).
Proof.
  induction scraped_results as [|x xs IH]; intros self.
  - cbn [normalize_loop fst snd]. by rewrite extend_with_new.
  - cbn [normalize_loop].
    rewrite (normalize_result_from now self x).
    destruct (normalize_result now new_normalizer x) as [[d x'] [[]|e]]; cbn [fst snd].
    + rewrite (IH (extend_with self d)), (IH d).
      destruct (normalize_loop now new_normalizer xs) as [[d' xs'] r]; cbn [fst snd].
      by rewrite extend_with_assoc.
    + reflexivity.
Qed.

(** C10: the instance only accumulates.  When two successive calls on
    one instance both return, each frame of the second holds the rows of
    the first followed by the rows a new instance derives from the
    second input. *)
Theorem second_call_keeps_first_rows (now1 now2 : string) (self self1 self2 : TaxDataNormalizer)
    (in1 in1' in2 in2' : list pyval) (t1 t2 : Tables) :
  normalize_scraped_data now1 self in1 = (self1, in1', Ok t1) ->
  normalize_scraped_data now2 self1 in2 = (self2, in2', Ok t2) ->
  exists fresh : Tables,
    snd (normalize_scraped_data now2 new_normalizer in2) = Ok fresh
    /\ properties_df t2 = properties_df t1 ++ properties_df fresh
    /\ tax_periods_df t2 = tax_periods_df t1 ++ tax_periods_df fresh
    /\ installments_df t2 = installments_df t1 ++ installments_df fresh
    /\ delinquent_taxes_df t2 = delinquent_taxes_df t1 ++ delinquent_taxes_df fresh
    /\ penalties_interest_df t2 = penalties_interest_df t1 ++ penalties_interest_df fresh.
Proof.
  unfold normalize_scraped_data.
  destruct (normalize_loop now1 self in1) as [[s1 i1] r1] eqn:E1.
  destruct r1 as [[]|e]; cbn [rbind]; [|discriminate].
  intros [= <- <- <-].
  rewrite (normalize_loop_from now2 in2 s1).
  destruct (normalize_loop now2 new_normalizer in2) as [[d i2] r2]; cbn [fst snd].
  destruct r2 as [[]|e]; cbn [rbind]; [|discriminate].
  intros [= <- <- <-].
  exists (create_tables d). norm_fields. repeat split.
Qed.

Lemma second_call_keeps_first_rows_witness :
  exists fresh : Tables,
    snd (normalize_scraped_data a_clock new_normalizer [bundle_two_unpaid]) = Ok fresh
    /\ List.length (tax_periods_df fresh) = 0%nat
    /\ List.length (delinquent_taxes_df fresh) = 2%nat.
Proof.
  destruct (normalize_scraped_data a_clock new_normalizer [bundle_unmatched])
    as [[s1 i1] r1] eqn:E1.
  destruct (normalize_scraped_data a_clock s1 [bundle_two_unpaid]) as [[s2 i2] r2] eqn:E2.
  vm_compute in E1. injection E1 as <- <- <-.
  vm_compute in E2. injection E2 as <- <- <-.
  destruct (second_call_keeps_first_rows a_clock a_clock new_normalizer _ _
              [bundle_unmatched] _ [bundle_two_unpaid] _ _ _
              ltac:(vm_compute; reflexivity) ltac:(vm_compute; reflexivity))
    as (fresh & Hfresh & _ & Hp & _ & Hd & _).
  exists fresh. split; [exact Hfresh|].
  apply (f_equal (@List.length _)) in Hp, Hd.
  rewrite length_app in Hp, Hd. cbn [List.length tax_periods_df delinquent_taxes_df] in Hp, Hd.
  split; lia.
Defined.

(** ** Bundles without a property *)

(** Without a matching search result and without a [property_id] in
    [tax_data], [_extract_property_info] returns [None], unless iterating
    the search results raises. *)
Lemma extract_property_info_none (now : string) (parcel_id search_data tax_data : pyval) :
  no_matching_result parcel_id search_data ->
  no_property_id tax_data ->
  _extract_property_info now parcel_id search_data tax_data = Ok None
  \/ exists e, _extract_property_info now parcel_id search_data tax_data = Raise e.
Proof.
  intros Hsearch Htax.
  assert (Hfinal : forall p : Property,
             prop_property_id p = PNone -> prop_owner_name p = PNone ->
             (let property_info :=
                match tax_data with
                | PDict td =>
                    if negb (Py.truthy (prop_property_id p))
                    then mkProperty (prop_parcel_id p)
                           (PStr (Py.str (Py.or (Py.get td "property_id") (PStr ""))))
                           (prop_owner_name p) (prop_municipality p)
                           (prop_address p) (prop_extraction_date p) (prop_source p)
                    else p
                | _ => p
                end in
              if Py.truthy (prop_property_id property_info)
                 || Py.truthy (prop_owner_name property_info)
              then Ok (Some property_info) else Ok None) = Ok None).
  { intros p Hid Hown. cbv zeta.
    destruct tax_data; rewrite ?Hid, ?Hown; try reflexivity.
    cbn [Py.truthy negb prop_property_id prop_owner_name].
    unfold Py.or. rewrite (Htax d eq_refl), ?Hown. reflexivity. }
  unfold _extract_property_info.
  destruct search_data; cbn [rbind]; try (left; apply Hfinal; reflexivity).
  destruct (Py.has d "data"); cbn [rbind]; [|left; apply Hfinal; reflexivity].
  destruct (results_of d) as [results|e] eqn:Hres; cbn [rbind]; [|right; by exists e].
  rewrite (Hsearch d results eq_refl Hres). cbn [rbind].
  left. apply Hfinal; reflexivity.
Qed.

(** C4 as the code has it: a bundle without a matching search result
    and without a [property_id] in its [tax_data] adds no Property row,
    whatever else its [tax_data] contributes. *)
Theorem unmatched_bundle_adds_no_property (now : string) (self : TaxDataNormalizer)
    (bundle : dict) :
  no_matching_result (Py.get bundle "parcel_id")
    (Py.get_default bundle "search_data" (PDict [])) ->
  no_property_id (Py.get_default bundle "tax_data" (PDict [])) ->
  properties (fst (fst (normalize_result now self (PDict bundle)))) = properties self.
Proof.
  intros Hsearch Htax.
  unfold normalize_result.
  destruct (extract_property_info_none now _ _ _ Hsearch Htax) as [-> | [e ->]].
  - repeat case_match; simplify_eq; norm_fields; reflexivity.
  - reflexivity.
Qed.

Lemma unmatched_bundle_adds_no_property_witness :
  properties
    (fst (fst (normalize_result a_clock new_normalizer
                 (PDict (fields
                    [("parcel_id", PStr "17-10250-020");
                     ("search_data",
                      record [("data", PList [record [("UserDefinedId", PStr "17-99999-000");
                                                      ("PropertyId", PInt 5)]])]);
                     ("tax_data",
                      record [("2023", record [("total", PStr "$1,200.00");
                                               ("status", PStr "Paid")])])])))))
  = [].
Proof.
  apply (unmatched_bundle_adds_no_property a_clock new_normalizer).
  - intros sd results H Hres. vm_compute in H. injection H as <-.
    vm_compute in Hres. injection Hres as <-. vm_compute. reflexivity.
  - intros td H. vm_compute in H. injection H as <-. vm_compute. reflexivity.
Defined.

(** ** Installment numbering *)

Lemma isdigit_differs (k s : string) :
  Str.isdigit k = true -> Str.isdigit s = false -> String.eqb k s = false.
Proof.
  intros Hk Hs. destruct (String.eqb_spec k s) as [->|]; [congruence|reflexivity].
Qed.

Lemma year_installment_number (now : string) (parcel_id : pyval)
    (property_info : option Property) (tax_year : option string) (inst : dict) (n : Z)
    (r : Installment) :
  year_installment now parcel_id property_info tax_year inst n = Ok r ->
  installment_number r = n.
Proof.
  unfold year_installment, rbind.
  destruct (_extract_year_from_data (PDict inst)); [|discriminate].
  destruct (_extract_amount (PDict inst) installment_amount_keys); [|discriminate].
  by intros [= <-].
Qed.

(** Entries that are no year entries are passed over by the loop. *)
Lemma year_loop_plain (now : string) (parcel_id : pyval) (property_info : option Property)
    (l rest : dict) :
  forallb plain_entry l = true ->
  year_loop now parcel_id property_info (l ++ rest)
  = (l ++ fst (year_loop now parcel_id property_info rest),
     snd (year_loop now parcel_id property_info rest)).
Proof.
  induction l as [|[k v] l IH]; intros H.
  - cbn [app]. by destruct (year_loop now parcel_id property_info rest).
  - cbn [forallb] in H. apply andb_prop in H as [Hkv Hl].
    unfold plain_entry in Hkv. cbn [fst] in Hkv.
    destruct k as [s|z]; [|discriminate].
    repeat (apply andb_prop in Hkv as [Hkv ?]).
    cbn [app year_loop].
    rewrite (proj1 (negb_true_iff _) Hkv).
    replace (String.eqb s "current") with false by (symmetry; by apply negb_true_iff).
    cbn [orb]. rewrite (IH Hl). reflexivity.
Qed.

Lemma year_loop_plain_only (now : string) (parcel_id : pyval)
    (property_info : option Property) (l : dict) :
  forallb plain_entry l = true ->
  year_loop now parcel_id property_info l = (l, Ok []).
Proof.
  intros H. rewrite <- (app_nil_r l) at 1. rewrite (year_loop_plain _ _ _ _ _ H).
  cbn [year_loop fst snd]. by rewrite app_nil_r.
Qed.

Lemma lookup_plain (l rest : dict) (s : string) :
  forallb plain_entry l = true ->
  s = "page_extracted" \/ s = "api_extracted" ->
  Py.lookup (l ++ rest) (KStr s) = Py.lookup rest (KStr s).
Proof.
  intros H Hs. induction l as [|[k v] l IH]; [reflexivity|].
  cbn [forallb] in H. apply andb_prop in H as [Hkv Hl].
  unfold plain_entry in Hkv. cbn [fst] in Hkv.
  destruct k as [t|z]; [|discriminate].
  repeat (apply andb_prop in Hkv as [Hkv ?]).
  cbn [app Py.lookup Py.key_eqb].
  replace (String.eqb t s) with false; [by apply IH|].
  symmetry. destruct Hs as [-> | ->]; by apply negb_true_iff.
Qed.

(** A record whose fields coerce gives its row: the parcel of the
    bundle, the record's own year or else the year key, the number it
    was given. *)
Lemma year_installment_row (now : string) (parcel_id : pyval)
    (property_info : option Property) (key : string) (inst : dict) (n : Z) :
  coerces inst ->
  exists r, year_installment now parcel_id property_info (Some key) inst n = Ok r
            /\ group_key r = (parcel_id, row_year key inst, n).
Proof.
  intros [Hyear Hamount]. unfold year_installment, row_year, own_year, rbind.
  destruct (_extract_year_from_data (PDict inst)) as [y|]; [|discriminate].
  destruct (_extract_amount (PDict inst) installment_amount_keys) as [m|]; [|discriminate].
  eexists. split; [reflexivity|]. reflexivity.
Qed.

(** A year entry that lists two records is numbered from 1. *)
Lemma year_entry_rows (now : string) (parcel_id : pyval) (property_info : option Property)
    (key : string) (yd a b : dict) :
  Str.isdigit key = true -> year_lists yd a b -> coerces a -> coerces b ->
  exists yd' r1 r2,
    year_entry_installments now parcel_id property_info key (PDict yd)
    = (PDict yd', Ok [r1; r2])
    /\ group_key r1 = (parcel_id, row_year key a, 1)
    /\ group_key r2 = (parcel_id, row_year key b, 2).
Proof.
  intros Hkey Hlist Ha Hb.
  destruct (year_installment_row now parcel_id property_info key a 1 Ha) as (r1 & H1 & G1).
  destruct (year_installment_row now parcel_id property_info key b 2 Hb) as (r2 & H2 & G2).
  unfold year_lists in Hlist. unfold year_entry_installments. rewrite Hkey.
  destruct (merged_sources yd "installments") as [yd' lst]. cbn [snd] in Hlist. subst lst.
  exists yd', r1, r2. split; [|by split].
  cbn [rbind Py.iter number_rows]. rewrite H1.
  change (1 + 1) with 2. rewrite H2. reflexivity.
Qed.

Lemma year_loop_entry (now : string) (parcel_id : pyval) (property_info : option Property)
    (key : string) (year_data year_data' : pyval) (rows : list Installment) (rest : dict) :
  Str.isdigit key = true ->
  year_entry_installments now parcel_id property_info key year_data = (year_data', Ok rows) ->
  year_loop now parcel_id property_info ((KStr key, year_data) :: rest)
  = ((KStr key, year_data') :: fst (year_loop now parcel_id property_info rest),
     do rs <- snd (year_loop now parcel_id property_info rest); Ok (rows ++ rs)).
Proof.
  intros Hkey Hentry. cbn [year_loop]. rewrite Hkey, Hentry. cbn [orb].
  by destruct (year_loop now parcel_id property_info rest).
Qed.

(** C6 as the code has it: the numbering restarts with each year entry
    of [tax_data].  Two year keys whose entries each list two
    installment records, nested sources included, among other keys that
    are neither years nor nested sources, give exactly four rows; each
    row has the bundle's parcel, the numbers are 1, 2, 1, 2 in that
    order, and the tax year of a row is the year its record carries
    itself, or else the year key.  So the rows of one
    (parcel_id, tax_year) are numbered from 1 when no record carries a
    year of its own. *)
Theorem numbering_restarts_per_year_entry (now : string) (parcel_id : pyval)
    (property_info : option Property) (pre mid post : dict) (k1 k2 : string)
    (yd1 yd2 a b c d : dict) :
  forallb plain_entry pre = true -> forallb plain_entry mid = true ->
  forallb plain_entry post = true ->
  Str.isdigit k1 = true -> Str.isdigit k2 = true ->
  year_lists yd1 a b -> year_lists yd2 c d ->
  coerces a -> coerces b -> coerces c -> coerces d ->
  exists rows,
    snd (_extract_installments now parcel_id property_info
           (PDict (pre ++ (KStr k1, PDict yd1) :: mid ++ (KStr k2, PDict yd2) :: post)))
    = Ok rows
    /\ List.map group_key rows
       = [(parcel_id, row_year k1 a, 1); (parcel_id, row_year k1 b, 2);
          (parcel_id, row_year k2 c, 1); (parcel_id, row_year k2 d, 2)]
    /\ (own_year a = None -> own_year b = None -> own_year c = None -> own_year d = None ->
        List.map group_key rows
        = [(parcel_id, Some k1, 1); (parcel_id, Some k1, 2);
           (parcel_id, Some k2, 1); (parcel_id, Some k2, 2)]).
Proof.
  intros Hpre Hmid Hpost Hk1 Hk2 Hy1 Hy2 Ha Hb Hc Hd.
  destruct (year_entry_rows now parcel_id property_info k1 yd1 a b Hk1 Hy1 Ha Hb)
    as (yd1' & r1 & r2 & He1 & G1 & G2).
  destruct (year_entry_rows now parcel_id property_info k2 yd2 c d Hk2 Hy2 Hc Hd)
    as (yd2' & r3 & r4 & He2 & G3 & G4).
  assert (Hloop : year_loop now parcel_id property_info
                    (pre ++ (KStr k1, PDict yd1) :: mid ++ (KStr k2, PDict yd2) :: post)
                  = (pre ++ (KStr k1, PDict yd1') :: mid ++ (KStr k2, PDict yd2') :: post,
                     Ok [r1; r2; r3; r4])).
  { rewrite (year_loop_plain _ _ _ _ _ Hpre).
    rewrite (year_loop_entry _ _ _ _ _ _ _ _ Hk1 He1).
    rewrite (year_loop_plain _ _ _ _ _ Hmid).
    rewrite (year_loop_entry _ _ _ _ _ _ _ _ Hk2 He2).
    rewrite (year_loop_plain_only _ _ _ _ Hpost).
    reflexivity. }
  assert (Hnone : forall s, s = "page_extracted" \/ s = "api_extracted" ->
            Py.has (pre ++ (KStr k1, PDict yd1') :: mid ++ (KStr k2, PDict yd2') :: post) s
            = false).
  { intros s Hs. unfold Py.has.
    assert (Hdigit : Str.isdigit s = false) by (destruct Hs as [-> | ->]; reflexivity).
    rewrite (lookup_plain _ _ _ Hpre Hs). cbn [Py.lookup Py.key_eqb].
    rewrite (isdigit_differs k1 s Hk1 Hdigit).
    rewrite (lookup_plain _ _ _ Hmid Hs). cbn [Py.lookup Py.key_eqb].
    rewrite (isdigit_differs k2 s Hk2 Hdigit).
    rewrite <- (app_nil_r post), (lookup_plain _ _ _ Hpost Hs). reflexivity. }
  assert (Hyears : has_digit_key
                     (pre ++ (KStr k1, PDict yd1') :: mid ++ (KStr k2, PDict yd2') :: post)
                   = true).
  { unfold has_digit_key. rewrite existsb_app. cbn [existsb fst].
    rewrite Hk1. cbn [orb]. apply orb_true_r. }
  exists [r1; r2; r3; r4].
  assert (Hkeys : List.map group_key [r1; r2; r3; r4]
                  = [(parcel_id, row_year k1 a, 1); (parcel_id, row_year k1 b, 2);
                     (parcel_id, row_year k2 c, 1); (parcel_id, row_year k2 d, 2)]).
  { cbn [List.map]. by rewrite G1, G2, G3, G4. }
  split; [|split].
  - unfold _extract_installments, _extract_installments_dict. rewrite Hloop.
    unfold merged_sources, extend_from.
    rewrite (Hnone "page_extracted" (or_introl eq_refl)),
      (Hnone "api_extracted" (or_intror eq_refl)), Hyears.
    rewrite (Hnone "page_extracted" (or_introl eq_refl)).
    reflexivity.
  - exact Hkeys.
  - intros Na Nb Nc Nd. rewrite Hkeys. unfold row_year. by rewrite Na, Nb, Nc, Nd.
Qed.

Lemma numbering_restarts_per_year_entry_witness :
  exists rows,
    snd (_extract_installments a_clock (PStr "17-10250-020") None
           (PDict (fields [("property_id", PStr "4411")]
                   ++ (KStr "2022", PDict year_nested) :: []
                   ++ (KStr "2023", PDict year_plain)
                   :: fields [("installments", PList [])])))
    = Ok rows
    /\ List.map group_key rows
       = [(PStr "17-10250-020", Some "2022", 1); (PStr "17-10250-020", Some "2022", 2);
          (PStr "17-10250-020", Some "2023", 1); (PStr "17-10250-020", Some "2023", 2)].
Proof.
  destruct (numbering_restarts_per_year_entry a_clock (PStr "17-10250-020") None
              (fields [("property_id", PStr "4411")]) []
              (fields [("installments", PList [])]) "2022" "2023"
              year_nested year_plain
              (fields [("amount", PStr "$600.00"); ("status", PStr "Paid")])
              (fields [("amount", PStr "$600.00")])
              (fields [("amount", PStr "$650.00"); ("status", PStr "Paid")])
              (fields [("amount", PStr "$650.00")]))
    as (rows & Hrows & _ & Hkeys);
    try (vm_compute; reflexivity);
    try (split; vm_compute; reflexivity).
  exists rows. split; [exact Hrows|]. apply Hkeys; vm_compute; reflexivity.
Defined.

(** C6 as stated fails: the tax year of a row is read from the record
    first, and a due date names the following year.  The two
    installments of 2022, due in 2023, give rows of tax year 2023, so
    the four rows of (parcel, 2023) are numbered 1, 2, 1, 2. *)
Lemma due_date_moves_the_tax_year :
  exists rows,
    snd (_extract_installments a_clock (PStr "17-10250-020") None
           (PDict [(KStr "2022", PDict year_2022); (KStr "2023", PDict year_2023)]))
    = Ok rows
    /\ List.map group_key rows
       = [(PStr "17-10250-020", Some "2023", 1); (PStr "17-10250-020", Some "2023", 2);
          (PStr "17-10250-020", Some "2023", 1); (PStr "17-10250-020", Some "2023", 2)]
    /\ ~ NoDup (List.map group_key rows).
Proof.
  eexists. split; [vm_compute; reflexivity|]. split; [reflexivity|].
  cbn [List.map group_key inst_parcel_id inst_tax_year installment_number].
  intros H. apply NoDup_cons in H as [Hfirst _]. apply Hfirst.
  apply elem_of_cons. right. apply elem_of_cons. left. reflexivity.
Qed.

(** ** Delinquent rows of one bundle *)

Lemma existing_false (delinquent : list DelinquentTax) (year : string) :
  existing delinquent year = false ->
  forall e, e ∈ delinquent -> delq_tax_year e <> Some year.
Proof.
  induction delinquent as [|x l IH]; intros H e He.
  - by apply elem_of_nil in He.
  - cbn [existing existsb] in H. apply orb_false_elim in H as [Hx Hl].
    apply elem_of_cons in He as [-> | He].
    + destruct (delq_tax_year x) as [y|]; [|discriminate].
      intros [= ->]. by rewrite String.eqb_refl in Hx.
    + by apply IH.
Qed.

Lemma elem_of_map {A B : Type} (f : A -> B) (l : list A) (y : B) :
  y ∈ List.map f l -> exists x, y = f x /\ x ∈ l.
Proof.
  induction l as [|a l IH]; cbn [List.map]; intros H.
  - by apply elem_of_nil in H.
  - apply elem_of_cons in H as [-> | H].
    + exists a. split; [reflexivity | by left].
    + destruct (IH H) as (x & -> & Hx). exists x. split; [reflexivity | by right].
Qed.

(** The loop over the year groups only appends rows, each for a year no
    earlier row has. *)
Lemma derived_rows_spec (now : string) (parcel_id : pyval) (property_info : option Property)
    (groups : list (string * year_group)) :
  forall delinquent : list DelinquentTax,
  exists derived : list DelinquentTax,
    derived_rows now parcel_id property_info delinquent groups = delinquent ++ derived
    /\ NoDup (List.map delq_tax_year derived)
    /\ (forall d e, d ∈ derived -> e ∈ delinquent -> delq_tax_year d <> delq_tax_year e)
    /\ (forall d, d ∈ derived -> delq_parcel_id d = parcel_id).
Proof.
  induction groups as [|[year g] groups IH]; intros delinquent.
  - exists []. cbn [derived_rows List.map]. rewrite app_nil_r.
    repeat split; [constructor | intros d e Hd; by apply elem_of_nil in Hd
                  | intros d Hd; by apply elem_of_nil in Hd].
  - cbn [derived_rows].
    destruct (Flt.gt0 (total_delinquent g) && negb (existing delinquent year)) eqn:Hadd.
    + apply andb_prop in Hadd as [_ Hnew]. apply negb_true_iff in Hnew.
      set (row := derived_row now parcel_id property_info year g).
      destruct (IH (delinquent ++ [row])) as (derived & Heq & Hnodup & Hfresh & Hparcel).
      exists (row :: derived). rewrite Heq, <- app_assoc. split; [reflexivity|].
      split; [|split].
      * cbn [List.map]. apply NoDup_cons. split; [|exact Hnodup].
        intros Hin. apply elem_of_map in Hin as (d & Hyear & Hd).
        apply (Hfresh d row Hd); [|by symmetry].
        apply elem_of_app. right. apply list_elem_of_singleton. reflexivity.
      * intros d e Hd He. apply elem_of_cons in Hd as [-> | Hd].
        -- intros Heq'. apply (existing_false delinquent year Hnew e He).
           by rewrite <- Heq'.
        -- apply (Hfresh d e Hd). apply elem_of_app. by left.
      * intros d Hd. apply elem_of_cons in Hd as [-> | Hd]; [reflexivity|by apply Hparcel].
    + destruct (IH delinquent) as (derived & Heq & Hnodup & Hfresh & Hparcel).
      exists derived. by repeat split.
Qed.

Lemma explicit_rows_parcel (now : string) (parcel_id : pyval)
    (property_info : option Property) (tax_data : dict) (unpaid_list : list pyval) :
  forall rows, explicit_rows now parcel_id property_info tax_data unpaid_list = Ok rows ->
  forall r, r ∈ rows -> delq_parcel_id r = parcel_id /\ Flt.gt0 (delinquent_amount r) = true.
Proof.
  induction unpaid_list as [|x l IH]; intros rows H r Hr.
  - injection H as <-. by apply elem_of_nil in Hr.
  - cbn [explicit_rows] in H.
    destruct x; try (by eapply IH).
    unfold rbind in H.
    destruct (_extract_amount (PDict d) unpaid_amount_keys) as [amount|]; [|discriminate].
    destruct (positive_amount amount) as [f|] eqn:Hpos; [|by eapply IH].
    destruct (_extract_year_from_data (PDict d)) as [found|]; [|discriminate].
    destruct (match found with
              | Some y => Ok (Some y)
              | None => _extract_year_from_tax_data_context (PDict d) tax_data
              end) as [tax_year|]; [|discriminate].
    destruct (explicit_rows now parcel_id property_info tax_data l) as [rows'|] eqn:Hrest;
      [|discriminate].
    injection H as <-.
    apply elem_of_cons in Hr as [-> | Hr]; [|by eapply IH].
    split; [reflexivity|]. cbn [delinquent_amount].
    unfold positive_amount in Hpos. destruct amount as [a|]; [|discriminate].
    destruct (Flt.truthy a && Flt.gt0 a) eqn:Hgt; [|discriminate].
    injection Hpos as <-. by apply andb_prop in Hgt as [_ ?].
Qed.

(** C1 as the code has it: the rows of one bundle are the rows of its
    explicit unpaid entries followed by the rows derived from its
    installments; the derived rows have pairwise different years, none
    of them a year an explicit row has, and every row carries the
    bundle's parcel.  Explicit rows are not compared with one another. *)
Theorem derived_rows_never_repeat_a_year (now : string) (parcel_id : pyval)
    (property_info : option Property) (td td' : dict) (rows : list DelinquentTax) :
  _extract_delinquent_taxes_dict now parcel_id property_info td = (td', Ok rows) ->
  exists (td1 : dict) (unpaid_list : pyval) (unpaid_items : list pyval)
         (explicit derived : list DelinquentTax),
    merged_sources td "unpaid_taxes" = (td1, Ok unpaid_list)
    /\ Py.iter unpaid_list = Ok unpaid_items
    /\ explicit_rows now parcel_id property_info td1 unpaid_items = Ok explicit
    /\ rows = explicit ++ derived
    /\ NoDup (List.map delq_tax_year derived)
    /\ (forall d e, d ∈ derived -> e ∈ explicit -> delq_tax_year d <> delq_tax_year e)
    /\ (forall r, r ∈ rows -> delq_parcel_id r = parcel_id).
Proof.
  unfold _extract_delinquent_taxes_dict.
  destruct (merged_sources td "unpaid_taxes") as [td1 [unpaid_list|e]]; [|discriminate].
  destruct (Py.iter unpaid_list) as [unpaid_items|e] eqn:Hiter; cbn [rbind]; [|discriminate].
  destruct (explicit_rows now parcel_id property_info td1 unpaid_items)
    as [explicit|e] eqn:Hexplicit; [|discriminate].
  destruct (merged_sources td1 "installments") as [td2 [installments_list|e]]; [|discriminate].
  destruct (Py.iter installments_list) as [items|e]; cbn [rbind]; [|discriminate].
  destruct (group_by_year [] items) as [groups|e]; cbn [rbind]; [|discriminate].
  intros [= <- <-].
  destruct (derived_rows_spec now parcel_id property_info groups explicit)
    as (derived & Heq & Hnodup & Hfresh & Hparcel).
  exists td1, unpaid_list, unpaid_items, explicit, derived.
  repeat split; try assumption.
  intros r Hr. rewrite Heq in Hr. apply elem_of_app in Hr as [Hr | Hr].
  - by apply (explicit_rows_parcel _ _ _ _ _ _ Hexplicit r Hr).
  - by apply Hparcel.
Qed.

(** The example of the specification: an explicit entry of 75 for 2023
    and two delinquent installments for 2023 give one row, the explicit
    one. *)
Lemma derived_rows_never_repeat_a_year_witness :
  (exists explicit derived : list DelinquentTax,
     snd (_extract_delinquent_taxes_dict a_clock (PStr "17-10250-020") None
            tax_data_explicit_and_installments) = Ok (explicit ++ derived)
     /\ NoDup (List.map delq_tax_year derived))
  /\ match snd (_extract_delinquent_taxes_dict a_clock (PStr "17-10250-020") None
                  tax_data_explicit_and_installments) with
     | Ok rows => List.map (fun r => (delq_tax_year r, delinquent_amount r)) rows
                  = [(Some "2023", 75%float)]
     | Raise _ => False
     end.
Proof.
  split.
  - destruct (_extract_delinquent_taxes_dict a_clock (PStr "17-10250-020") None
                tax_data_explicit_and_installments) as [td' [rows|e]] eqn:E;
      [|vm_compute in E; discriminate].
    destruct (derived_rows_never_repeat_a_year _ _ _ _ _ _ E)
      as (td1 & ul & ui & explicit & derived & _ & _ & _ & -> & Hnodup & _).
    exists explicit, derived. split; [reflexivity | exact Hnodup].
  - vm_compute. reflexivity.
Defined.

(** * Further properties of the code *)

(** ** Years *)

Lemma digits_value_total (s : string) :
  Str.all Chr.isdecimal s = true -> forall acc, exists z, Str.digits_value acc s = Some z.
Proof.
  induction s as [|c s IH]; cbn [Str.all Str.digits_value]; intros H acc.
  - by exists acc.
  - apply andb_prop in H as [-> Hs]. apply IH. exact Hs.
Qed.

Lemma to_int_total (s : string) :
  Str.nonempty s = true -> Str.all Chr.isdecimal s = true -> exists z, Str.to_int s = Ok z.
Proof.
  intros Hne Hall. destruct (digits_value_total s Hall 0) as [z Hz].
  exists z. unfold Str.to_int. destruct s; [discriminate|]. by rewrite Hz.
Qed.

Lemma year_by_fields_total (data : dict) (fs : list string) :
  (forall field, In field fs ->
     Str.isdigit (year_field_text data field) = true ->
     Str.all Chr.isdecimal (year_field_text data field) = true) ->
  exists r, year_by_fields data fs = Ok r.
Proof.
  induction fs as [|f fs IH]; intros H; cbn [year_by_fields].
  - by exists None.
  - assert (Hrest : exists r, year_by_fields data fs = Ok r).
    { apply IH. intros field Hin. apply H. by right. }
    destruct (Py.has data f && Py.truthy (Py.get data f)); [|exact Hrest].
    fold (year_field_text data f).
    destruct (Str.isdigit (year_field_text data f) && (Str.len (year_field_text data f) =? 4))
      eqn:Hshape; [|exact Hrest].
    apply andb_prop in Hshape as [Hdigit _].
    destruct (to_int_total (year_field_text data f)) as [z ->].
    + unfold Str.isdigit in Hdigit. by apply andb_prop in Hdigit as [? _].
    + apply H; [by left | exact Hdigit].
    + cbn [rbind]. destruct (in_year_range z); [by eexists | exact Hrest].
Qed.

Lemma lit_exact (p s m r : string) : Re.lit false p s = Some (m, r) -> m = p.
Proof.
  revert s m r. induction p as [|a p IH]; intros s m r; cbn [Re.lit].
  - by intros [= <- _].
  - destruct s as [|b s]; [discriminate|].
    destruct (Ascii.eqb_spec a b) as [->|]; [|discriminate].
    destruct (Re.lit false p s) as [[m' r']|] eqn:E; [|discriminate].
    intros [= <- _]. f_equal. eapply IH; eassumption.
Qed.

Lemma all_append (p : ascii -> bool) (s t : string) :
  Str.all p (s +:+ t) = Str.all p s && Str.all p t.
Proof.
  induction s as [|c s IH]; [reflexivity|].
  change (String c s +:+ t) with (String c (s +:+ t)). cbn [Str.all].
  by rewrite IH, andb_assoc.
Qed.

Lemma year_tail_decimal (prev : option ascii) (s : string) (g : Re.found) :
  Re.match_here false [Re.Class Chr.isdecimal; Re.Class Chr.isdecimal; Re.Boundary] prev s
  = Some g ->
  Str.all Chr.isdecimal (Re.matched g) = true.
Proof.
  cbn [Re.match_here]. destruct s as [|c1 s]; [discriminate|].
  destruct (Chr.isdecimal c1) eqn:H1; [|discriminate].
  destruct s as [|c2 s]; [discriminate|].
  destruct (Chr.isdecimal c2) eqn:H2; [|discriminate].
  destruct (xorb _ _); cbn [Re.prepend]; [|discriminate].
  intros [= <-]. cbn [Re.matched]. rewrite !all_append. cbn [Str.all].
  by rewrite H1, H2.
Qed.

Lemma year_choice_decimal (prev : option ascii) (s p : string) (f : Re.found) :
  Str.all Chr.isdecimal p = true ->
  match Re.lit false p s with
  | Some (m, r) =>
      Re.prepend m
        (Re.match_here false [Re.Class Chr.isdecimal; Re.Class Chr.isdecimal; Re.Boundary]
           (Re.last_char prev m) r)
  | None => None
  end = Some f ->
  Str.all Chr.isdecimal (Re.matched f) = true.
Proof.
  intros Hp. destruct (Re.lit false p s) as [[m r]|] eqn:E; [|discriminate].
  apply lit_exact in E as ->.
  destruct (Re.match_here false _ (Re.last_char prev p) r) as [g|] eqn:Hg; [|discriminate].
  cbn [Re.prepend]. intros [= <-]. cbn [Re.matched].
  rewrite all_append, Hp. cbn [andb]. eapply year_tail_decimal. exact Hg.
Qed.

Lemma year_match_decimal (prev : option ascii) (s : string) (f : Re.found) :
  Re.match_here false Re.year_pattern prev s = Some f ->
  Str.all Chr.isdecimal (Re.matched f) = true.
Proof.
  rewrite year_pattern_unfold.
  destruct (xorb _ _); [|discriminate].
  cbv beta iota delta [List.map Re.first_some].
  match goal with
  | |- match ?a with _ => _ end = _ -> _ => destruct a as [fa|] eqn:Ea
  end.
  - intros [= <-]. eapply year_choice_decimal; [|exact Ea]. reflexivity.
  - match goal with
    | |- match ?b with _ => _ end = _ -> _ => destruct b as [fb|] eqn:Eb
    end; [|discriminate].
    intros [= <-]. eapply year_choice_decimal; [|exact Eb]. reflexivity.
Qed.

Lemma year_search_decimal (s : string) :
  forall prev f, Re.search_from false Re.year_pattern prev s = Some f ->
  Str.all Chr.isdecimal (Re.matched f) = true.
Proof.
  induction s as [|c s IH]; intros prev f; rewrite search_from_unfold;
    destruct (Re.match_here false Re.year_pattern prev _) eqn:E;
    try (intros [= <-]; eapply year_match_decimal; eassumption);
    try discriminate.
  apply IH.
Qed.

Lemma year_by_scan_total (items : dict) : exists r, year_by_scan items = Ok r.
Proof.
  induction items as [|[k v] items IH]; cbn [year_by_scan]; [by eexists|].
  destruct v; try exact IH.
  destruct (Re.search false Re.year_pattern s) as [m|] eqn:Hm; [|exact IH].
  destruct (to_int_total (Re.matched m)) as [z ->].
  - pose proof (year_search_length _ _ _ Hm) as Hlen.
    destruct (Re.matched m); [discriminate|reflexivity].
  - eapply year_search_decimal. exact Hm.
  - cbn [rbind]. destruct (in_year_range z); [by eexists | exact IH].
Qed.

(** X1: on a record none of whose year-named fields holds four digit
    characters that [int] cannot read, [_extract_year_from_data] returns,
    and what it returns is [None] or four decimal digits with a value in
    [1900, 2100]; on anything that is not a dictionary it returns [None]. *)
Theorem extract_year_returns_valid (data : dict) :
  year_fields_readable data ->
  (exists r, _extract_year_from_data (PDict data) = Ok r
             /\ forall y, r = Some y -> four_digit_year y)
  /\ (forall v, Py.is_dict v = false -> _extract_year_from_data v = Ok None).
Proof.
  intros Hread. split.
  - destruct (_extract_year_from_data (PDict data)) as [r|e] eqn:E.
    + exists r. split; [reflexivity|]. intros y ->. eapply extract_year_sound. exact E.
    + exfalso. unfold _extract_year_from_data in E.
      destruct (year_by_fields_total data year_fields Hread) as [r Hr].
      rewrite Hr in E. cbn [rbind] in E.
      destruct r; [discriminate|].
      destruct (year_by_scan_total data) as [r' Hr']. rewrite Hr' in E. discriminate.
  - intros v Hv. destruct v; try reflexivity. discriminate.
Qed.

Lemma extract_year_returns_valid_witness :
  exists r, _extract_year_from_data
              (record [("bill", PStr "2025 Tax Year"); ("year", PStr "18")]) = Ok r
            /\ forall y, r = Some y -> four_digit_year y.
Proof.
  apply (extract_year_returns_valid (fields [("bill", PStr "2025 Tax Year"); ("year", PStr "18")])).
  intros field Hin Hdigit.
  cbv [year_fields In] in Hin.
  repeat (destruct Hin as [<- | Hin];
          [vm_compute in Hdigit; try discriminate; vm_compute; reflexivity|]).
  destruct Hin.
Defined.

(** ** Delinquent rows: amounts and sources *)

Lemma explicit_rows_positive (now : string) (parcel_id : pyval)
    (property_info : option Property) (tax_data : dict) (unpaid_list : list pyval) :
  forall rows, explicit_rows now parcel_id property_info tax_data unpaid_list = Ok rows ->
  Forall (fun r => Flt.gt0 (delinquent_amount r) = true /\ delq_status r = "delinquent") rows.
Proof.
  induction unpaid_list as [|x l IH]; intros rows H.
  - injection H as <-. constructor.
  - cbn [explicit_rows] in H.
    destruct x; try (by apply IH).
    unfold rbind in H.
    destruct (_extract_amount (PDict d) unpaid_amount_keys) as [amount|]; [|discriminate].
    destruct (positive_amount amount) as [f|] eqn:Hpos; [|by apply IH].
    destruct (_extract_year_from_data (PDict d)) as [found|]; [|discriminate].
    destruct (match found with
              | Some y => Ok (Some y)
              | None => _extract_year_from_tax_data_context (PDict d) tax_data
              end) as [tax_year|]; [|discriminate].
    destruct (explicit_rows now parcel_id property_info tax_data l) as [rows'|] eqn:Hrest;
      [|discriminate].
    injection H as <-. constructor; [|by apply IH].
    split; [|reflexivity]. cbn [delinquent_amount].
    unfold positive_amount in Hpos. destruct amount as [a|]; [|discriminate].
    destruct (Flt.truthy a && Flt.gt0 a) eqn:Hgt; [|discriminate].
    injection Hpos as <-. by apply andb_prop in Hgt as [_ ?].
Qed.

Lemma derived_rows_positive (now : string) (parcel_id : pyval)
    (property_info : option Property) (groups : list (string * year_group)) :
  forall delinquent : list DelinquentTax,
  Forall (fun r => Flt.gt0 (delinquent_amount r) = true /\ delq_status r = "delinquent")
    delinquent ->
  Forall (fun r => Flt.gt0 (delinquent_amount r) = true /\ delq_status r = "delinquent")
    (derived_rows now parcel_id property_info delinquent groups).
Proof.
  induction groups as [|[year g] groups IH]; intros delinquent H; cbn [derived_rows].
  - exact H.
  - destruct (Flt.gt0 (total_delinquent g) && negb (existing delinquent year)) eqn:Hadd.
    + apply IH. apply Forall_app. split; [exact H|].
      constructor; [|constructor].
      apply andb_prop in Hadd as [Hgt _]. split; [exact Hgt | reflexivity].
    + by apply IH.
Qed.

(** X2: every row [_extract_delinquent_taxes] returns has a
    delinquent amount above zero and the status ["delinquent"]. *)
Theorem delinquent_rows_are_positive (now : string) (parcel_id : pyval)
    (property_info : option Property) (tax_data tax_data' : pyval)
    (rows : list DelinquentTax) :
  _extract_delinquent_taxes now parcel_id property_info tax_data = (tax_data', Ok rows) ->
  Forall (fun r => Flt.gt0 (delinquent_amount r) = true /\ delq_status r = "delinquent") rows.
Proof.
  unfold _extract_delinquent_taxes.
  destruct tax_data; try (intros [= _ <-]; constructor).
  unfold _extract_delinquent_taxes_dict.
  destruct (merged_sources d "unpaid_taxes") as [td1 [unpaid_list|e]]; [|discriminate].
  destruct (Py.iter unpaid_list) as [unpaid_items|e]; cbn [rbind]; [|discriminate].
  destruct (explicit_rows now parcel_id property_info td1 unpaid_items)
    as [explicit|e] eqn:Hexplicit; [|discriminate].
  destruct (merged_sources td1 "installments") as [td2 [installments_list|e]]; [|discriminate].
  destruct (Py.iter installments_list) as [items|e]; cbn [rbind]; [|discriminate].
  destruct (group_by_year [] items) as [groups|e]; cbn [rbind]; [|discriminate].
  intros [= _ <-].
  apply derived_rows_positive. eapply explicit_rows_positive. exact Hexplicit.
Qed.

Lemma delinquent_rows_are_positive_witness :
  Forall (fun r => Flt.gt0 (delinquent_amount r) = true /\ delq_status r = "delinquent")
    (match snd (_extract_delinquent_taxes a_clock (PStr "17-10250-020") None
                  (PDict tax_data_explicit_and_installments)) with
     | Ok rows => rows
     | Raise _ => []
     end).
Proof.
  destruct (_extract_delinquent_taxes a_clock (PStr "17-10250-020") None
              (PDict tax_data_explicit_and_installments)) as [td' [rows|e]] eqn:E;
    [|vm_compute in E; discriminate].
  exact (delinquent_rows_are_positive _ _ _ _ _ _ E).
Defined.

Lemma merged_sources_plain (d : dict) (key : string) :
  Py.has d "page_extracted" = false -> Py.has d "api_extracted" = false ->
  merged_sources d key = (d, Ok (Py.get_default d key (PList []))).
Proof.
  intros Hpage Hapi. unfold merged_sources, extend_from. by rewrite Hpage, Hapi.
Qed.

(** X8: a [tax_data] without the top-level keys [unpaid_taxes],
    [installments], [page_extracted] and [api_extracted] gives no
    delinquent row and is left as it is, whatever its year entries hold:
    the installments listed under a year key are never examined. *)
Theorem year_keyed_data_gives_no_delinquent_row (now : string) (parcel_id : pyval)
    (property_info : option Property) (td : dict) :
  Py.has td "unpaid_taxes" = false -> Py.has td "installments" = false ->
  Py.has td "page_extracted" = false -> Py.has td "api_extracted" = false ->
  _extract_delinquent_taxes now parcel_id property_info (PDict td) = (PDict td, Ok []).
Proof.
  intros Hunpaid Hinst Hpage Hapi.
  unfold _extract_delinquent_taxes, _extract_delinquent_taxes_dict.
  rewrite !(merged_sources_plain td _ Hpage Hapi).
  unfold Py.get_default. unfold Py.has in Hunpaid, Hinst.
  destruct (Py.lookup td (KStr "unpaid_taxes")); [discriminate|].
  destruct (Py.lookup td (KStr "installments")); [discriminate|].
  reflexivity.
Qed.

Lemma year_keyed_data_gives_no_delinquent_row_witness :
  _extract_delinquent_taxes a_clock (PStr "17-10250-020") None
    (record [("2023", record [("installments",
                               PList [delinquent_installment 100; delinquent_installment 50])])])
  = (record [("2023", record [("installments",
                               PList [delinquent_installment 100; delinquent_installment 50])])],
     Ok []).
Proof.
  apply (year_keyed_data_gives_no_delinquent_row a_clock (PStr "17-10250-020") None
           (fields [("2023", record [("installments",
                               PList [delinquent_installment 100; delinquent_installment 50])])]));
    reflexivity.
Defined.

(** ** Status texts *)

Lemma startswith_app (a b s : string) :
  Str.startswith (a +:+ b) s = true ->
  Str.startswith b (Str.drop (String.length a) s) = true.
Proof.
  revert s. induction a as [|c a IH]; intros s H.
  - exact H.
  - change (String c a +:+ b) with (String c (a +:+ b)) in H.
    destruct s as [|c' s]; [discriminate|].
    cbn [Str.startswith] in H. apply andb_prop in H as [_ H].
    cbn [String.length Str.drop]. by apply IH.
Qed.

Lemma contains_drop (sub : string) (n : nat) :
  forall s, Str.contains sub (Str.drop n s) = true -> Str.contains sub s = true.
Proof.
  induction n as [|n IH]; intros s H.
  - exact H.
  - destruct s as [|c s]; [exact H|].
    cbn [Str.drop] in H. cbn [Str.contains]. rewrite (IH s H). apply orb_true_r.
Qed.

Lemma contains_here (sub s : string) :
  Str.startswith sub s = true -> Str.contains sub s = true.
Proof. intros H. destruct s; cbn [Str.contains]; by rewrite H. Qed.

Lemma contains_suffix (a b s : string) :
  Str.contains (a +:+ b) s = true -> Str.contains b s = true.
Proof.
  induction s as [|c s IH]; intros H.
  - cbn [Str.contains] in H. rewrite orb_false_r in H.
    apply startswith_app in H. eapply contains_drop. apply contains_here. exact H.
  - cbn [Str.contains] in H. apply orb_prop in H as [H | H].
    + apply startswith_app in H. eapply contains_drop. apply contains_here. exact H.
    + cbn [Str.contains]. rewrite (IH H). apply orb_true_r.
Qed.

(** X3: a status text containing "unpaid" makes an installment [paid]
    (the test for "paid" comes first and "unpaid" contains it), while the
    same text makes a tax period [delinquent]; so an installment marked
    only "unpaid" is never counted as delinquent. *)
Theorem unpaid_status_reads_as_paid (data : dict) :
  Str.contains "unpaid" (status_text data) = true ->
  _determine_installment_status data = "paid"
  /\ _determine_status (PDict data) = Ok "delinquent".
Proof.
  intros H. split.
  - unfold _determine_installment_status. fold (status_text data).
    by rewrite (contains_suffix "un" "paid" _ H).
  - unfold _determine_status. cbn [Py.dot_get rbind]. fold (status_text data).
    rewrite H. by rewrite orb_true_r.
Qed.

Lemma unpaid_status_reads_as_paid_witness :
  _determine_installment_status (fields [("status", PStr "Unpaid - past due")]) = "paid"
  /\ _determine_status (record [("status", PStr "Unpaid - past due")]) = Ok "delinquent".
Proof.
  apply (unpaid_status_reads_as_paid (fields [("status", PStr "Unpaid - past due")])).
  vm_compute. reflexivity.
Defined.

(** ** Numbering *)

Lemma flat_installment_number (now : string) (parcel_id : pyval)
    (property_info : option Property) (inst : dict) (n : Z) (r : Installment) :
  flat_installment now parcel_id property_info inst n = Ok r -> installment_number r = n.
Proof.
  unfold flat_installment, rbind.
  destruct (_extract_amount (PDict inst) installment_amount_keys); [|discriminate].
  destruct (_extract_year_from_data (PDict inst)); [|discriminate].
  by intros [= <-].
Qed.

Lemma numbers_from_cons (n : Z) (len : nat) :
  numbers_from n (S len) = n :: numbers_from (n + 1) len.
Proof.
  unfold numbers_from. cbn [seq List.map]. f_equal; [lia|].
  rewrite <- seq_shift, List.map_map. apply List.map_ext. intros i. lia.
Qed.

Lemma number_rows_numbers (row : dict -> Z -> res Installment) :
  (forall inst k r, row inst k = Ok r -> installment_number r = k) ->
  forall l n rows,
    number_rows row n l = Ok rows ->
    List.map installment_number rows = numbers_from n (length rows)
    /\ length rows = length (dict_items l).
Proof.
  intros Hrow. induction l as [|x l IH]; intros n rows H.
  - injection H as <-. split; reflexivity.
  - cbn [number_rows] in H.
    destruct x; try (cbn [dict_items List.filter Py.is_dict]; by apply IH).
    unfold rbind in H.
    destruct (row d n) as [r|] eqn:Hr; [|discriminate].
    destruct (number_rows row (n + 1) l) as [rs|] eqn:Hrs; [|discriminate].
    injection H as <-.
    destruct (IH (n + 1) rs Hrs) as [Hnum Hlen].
    cbn [List.map length dict_items List.filter Py.is_dict].
    rewrite numbers_from_cons, Hnum, (Hrow _ _ _ Hr).
    split; [reflexivity|]. f_equal. exact Hlen.
Qed.

(** X4: within one grouping the rows are numbered consecutively from
    the starting number, in the order of the list, one row per
    dictionary item; items that are not dictionaries give no row and
    take no number.  This holds for the rows of a year entry and for
    the rows of the top-level list. *)
Theorem installments_numbered_in_order (now : string) (parcel_id : pyval)
    (property_info : option Property) (tax_year : option string)
    (l : list pyval) (n : Z) (rows : list Installment) :
  number_rows (year_installment now parcel_id property_info tax_year) n l = Ok rows
  \/ number_rows (flat_installment now parcel_id property_info) n l = Ok rows ->
  List.map installment_number rows = numbers_from n (length rows)
  /\ length rows = length (dict_items l).
Proof.
  intros [H | H].
  - eapply number_rows_numbers; [|exact H].
    intros inst k r. apply year_installment_number.
  - eapply number_rows_numbers; [|exact H].
    intros inst k r. apply flat_installment_number.
Qed.

Lemma installments_numbered_in_order_witness :
  exists rows,
    number_rows (flat_installment a_clock (PStr "17-10250-020") None) 1
      [record [("amount", PStr "$600.00")]; PStr "n/a"; record [("amount", PStr "$650.00")]]
    = Ok rows
    /\ List.map installment_number rows = [1; 2].
Proof.
  destruct (number_rows (flat_installment a_clock (PStr "17-10250-020") None) 1
              [record [("amount", PStr "$600.00")]; PStr "n/a";
               record [("amount", PStr "$650.00")]]) as [rows|e] eqn:E;
    [|vm_compute in E; discriminate].
  exists rows. split; [reflexivity|].
  destruct (installments_numbered_in_order a_clock (PStr "17-10250-020") None None _ 1 rows
              (or_intror E)) as [Hnum Hlen].
  rewrite Hnum, Hlen. reflexivity.
Defined.

(** ** Lists extended in place *)

Lemma lookup_store_same (d : dict) (k : pykey) (v : pyval) :
  Py.lookup (Py.store d k v) k = Some v.
Proof.
  induction d as [|[k' v'] d IH]; cbn [Py.store Py.lookup].
  - assert (Py.key_eqb k k = true) as ->; [|reflexivity].
    destruct k; cbn [Py.key_eqb]; [apply String.eqb_refl | apply Z.eqb_refl].
  - destruct (Py.key_eqb k' k) eqn:E; cbn [Py.lookup]; rewrite E; [reflexivity | exact IH].
Qed.

Lemma key_eqb_trans (a b c : pykey) :
  Py.key_eqb a b = true -> Py.key_eqb a c = Py.key_eqb b c.
Proof.
  destruct a, b; cbn [Py.key_eqb]; try discriminate.
  - intros H%String.eqb_eq. by subst.
  - intros H%Z.eqb_eq. by subst.
Qed.

Lemma lookup_store_other (d : dict) (k k' : pykey) (v : pyval) :
  Py.key_eqb k k' = false -> Py.lookup (Py.store d k v) k' = Py.lookup d k'.
Proof.
  intros Hne. induction d as [|[k0 v0] d IH]; cbn [Py.store Py.lookup].
  - by rewrite Hne.
  - destruct (Py.key_eqb k0 k) eqn:E; cbn [Py.lookup].
    + rewrite (key_eqb_trans k0 k k' E), Hne. reflexivity.
    + by rewrite IH.
Qed.

Lemma store_store (d : dict) (k : pykey) (v w : pyval) :
  Py.store (Py.store d k v) k w = Py.store d k w.
Proof.
  induction d as [|[k0 v0] d IH]; cbn [Py.store].
  - assert (Py.key_eqb k k = true) as ->; [|reflexivity].
    destruct k; cbn [Py.key_eqb]; [apply String.eqb_refl | apply Z.eqb_refl].
  - destruct (Py.key_eqb k0 k) eqn:E; cbn [Py.store]; rewrite E; [reflexivity | by rewrite IH].
Qed.

Lemma extend_from_absent (d : dict) (key sub : string) (lst : pyval) :
  Py.has d key = false -> fst (extend_from d key sub lst) = d.
Proof.
  intros Hkey. unfold extend_from. rewrite Hkey.
  repeat case_match; reflexivity.
Qed.

Lemma extend_from_listed (d page : dict) (key sub : string) (l p : list pyval) :
  Py.lookup d (KStr key) = Some (PList l) ->
  Py.lookup d (KStr sub) = Some (PDict page) ->
  Py.lookup page (KStr key) = Some (PList p) ->
  extend_from d key sub (PList l)
  = (Py.store d (KStr key) (PList (l ++ p)), Ok (PList (l ++ p))).
Proof.
  intros Hkey Hsub Hpage. unfold extend_from, Py.has, Py.get, Py.dot_get, Py.get_default.
  rewrite Hsub, Hpage, Hkey. reflexivity.
Qed.

(** X5: the merge of the nested sources changes the caller's
    dictionary exactly when that dictionary holds the list itself.  If
    [key] is absent the dictionary is left as it is, whatever the
    outcome; if [key] holds a list and [page_extracted] holds a list
    under the same key (and there is no [api_extracted]), the page's
    items are appended to the held list, and merging a second time
    appends them once more. *)
Theorem merge_extends_the_held_list (d : dict) (key : string) :
  (Py.has d key = false -> fst (merged_sources d key) = d)
  /\ (forall (page : dict) (l p : list pyval),
        Py.lookup d (KStr key) = Some (PList l) ->
        Py.lookup d (KStr "page_extracted") = Some (PDict page) ->
        Py.lookup page (KStr key) = Some (PList p) ->
        Py.has d "api_extracted" = false ->
        String.eqb key "page_extracted" = false ->
        String.eqb key "api_extracted" = false ->
        merged_sources d key
        = (Py.store d (KStr key) (PList (l ++ p)), Ok (PList (l ++ p)))
        /\ merged_sources (fst (merged_sources d key)) key
           = (Py.store d (KStr key) (PList ((l ++ p) ++ p)), Ok (PList ((l ++ p) ++ p)))).
Proof.
  split.
  - intros Hkey. unfold merged_sources.
    destruct (extend_from d key "page_extracted" _) as [d1 r1] eqn:E1.
    assert (d1 = d) as ->.
    { change d1 with (fst (d1, r1)). rewrite <- E1. by apply extend_from_absent. }
    destruct r1; [|reflexivity]. by apply extend_from_absent.
  - intros page l p Hkey Hpage Hlist Hapi Hne1 Hne2.
    assert (Hfirst : merged_sources d key
                     = (Py.store d (KStr key) (PList (l ++ p)), Ok (PList (l ++ p)))).
    { unfold merged_sources, Py.get_default. rewrite Hkey.
      rewrite (extend_from_listed d page key "page_extracted" l p Hkey Hpage Hlist).
      unfold extend_from, Py.has.
      rewrite lookup_store_other by (cbn [Py.key_eqb]; exact Hne2).
      unfold Py.has in Hapi. destruct (Py.lookup d (KStr "api_extracted")); [discriminate|].
      reflexivity. }
    split; [exact Hfirst|].
    rewrite Hfirst. cbn [fst].
    unfold merged_sources, Py.get_default. rewrite lookup_store_same.
    rewrite (extend_from_listed _ page key "page_extracted" (l ++ p) p).
    + rewrite store_store. unfold extend_from, Py.has.
      rewrite lookup_store_other by (cbn [Py.key_eqb]; exact Hne2).
      unfold Py.has in Hapi. destruct (Py.lookup d (KStr "api_extracted")); [discriminate|].
      reflexivity.
    + apply lookup_store_same.
    + rewrite lookup_store_other by (cbn [Py.key_eqb]; exact Hne1). exact Hpage.
    + exact Hlist.
Qed.

Lemma merge_extends_the_held_list_witness :
  fst (merged_sources (fields [("page_extracted",
                                record [("installments", PList [delinquent_installment 100])])])
         "installments")
  = fields [("page_extracted",
             record [("installments", PList [delinquent_installment 100])])].
Proof.
  apply (merge_extends_the_held_list
           (fields [("page_extracted",
                     record [("installments", PList [delinquent_installment 100])])])
           "installments").
  reflexivity.
Defined.

(** ** Amount texts *)

Lemma filter_append (p : ascii -> bool) (s t : string) :
  Str.filter p (s +:+ t) = Str.filter p s +:+ Str.filter p t.
Proof.
  induction s as [|c s IH]; [reflexivity|].
  change (String c s +:+ t) with (String c (s +:+ t)). cbn [Str.filter].
  destruct (p c); [|exact IH].
  change (String c (Str.filter p s) +:+ Str.filter p t)
    with (String c (Str.filter p s +:+ Str.filter p t)).
  by rewrite IH.
Qed.

Lemma filter_nonempty (p : ascii -> bool) (s : string) :
  Str.nonempty (Str.filter p s) = true -> Str.nonempty s = true.
Proof. destruct s; [discriminate | reflexivity]. Qed.

(** X6: [_parse_amount_from_string] reads only the digits, points and
    minus signs of a text: a character of any other kind (a currency
    sign, a comma, a space) can be put anywhere in the text without
    changing the result. *)
Theorem amount_ignores_other_characters (a b : string) (c : ascii) :
  Re.keep_amount_chars (String c EmptyString) = EmptyString ->
  _parse_amount_from_string (PStr (a +:+ String c b))
  = _parse_amount_from_string (PStr (a +:+ b)).
Proof.
  intros Hc.
  assert (Hkeep : Re.keep_amount_chars (a +:+ String c b) = Re.keep_amount_chars (a +:+ b)).
  { unfold Re.keep_amount_chars in *. rewrite !filter_append. f_equal.
    change (String c b) with (String c EmptyString +:+ b).
    rewrite filter_append, Hc. reflexivity. }
  unfold _parse_amount_from_string. cbn [Py.str Py.truthy]. rewrite Hkeep.
  assert (Str.nonempty (a +:+ String c b) = true) as ->.
  { destruct a; reflexivity. }
  cbn [negb].
  destruct (Str.nonempty (a +:+ b)) eqn:Hne; cbn [negb]; [reflexivity|].
  destruct (Str.nonempty (Re.keep_amount_chars (a +:+ b))) eqn:Hk; [|reflexivity].
  apply filter_nonempty in Hk. congruence.
Qed.

Lemma amount_ignores_other_characters_witness :
  _parse_amount_from_string (PStr "$1,234.56") = _parse_amount_from_string (PStr "$1234.56")
  /\ _parse_amount_from_string (PStr "$1,234.56") = Some 1234.56%float.
Proof.
  split.
  - apply (amount_ignores_other_characters "$1" "234.56" ","). reflexivity.
  - vm_compute. reflexivity.
Defined.

(** ** Owner names *)

Lemma truthy_get_has (data : dict) (field : string) :
  Py.truthy (Py.get data field) = true -> Py.has data field = true.
Proof.
  unfold Py.get, Py.has. destruct (Py.lookup data (KStr field)); [reflexivity | discriminate].
Qed.

(** X7: when none of [ConcatenatedName], [concatenatedName],
    [OwnerName] and [ownerName] has a value and [FirstName] has one,
    the owner name is the first name alone: the last name is never
    joined to it, [FirstName] being itself one of the fields tried
    before the two names are combined. *)
Theorem owner_name_drops_last_name (data : dict) :
  (forall field, In field full_name_fields -> Py.truthy (Py.get data field) = false) ->
  Py.truthy (Py.get data "FirstName") = true ->
  _extract_owner_name data = Str.strip (Py.str (Py.get data "FirstName")).
Proof.
  intros Hfull Hfirst.
  unfold _extract_owner_name, name_fields. cbn [first_truthy].
  rewrite !Hfull by (cbv [full_name_fields In]; tauto).
  rewrite !andb_false_r.
  by rewrite (truthy_get_has _ _ Hfirst), Hfirst.
Qed.

Lemma owner_name_drops_last_name_witness :
  _extract_owner_name (fields [("FirstName", PStr "Ann"); ("LastName", PStr "Lee")]) = "Ann".
Proof.
  apply (owner_name_drops_last_name (fields [("FirstName", PStr "Ann"); ("LastName", PStr "Lee")])).
  - intros field Hin. cbv [full_name_fields In] in Hin.
    repeat (destruct Hin as [<- | Hin]; [reflexivity|]). destruct Hin.
  - reflexivity.
Defined.

(** ** The pass: failures and property rows *)

Lemma normalize_loop_app (now : string) (xs : list pyval) :
  forall (self s1 : TaxDataNormalizer) (xs' ys : list pyval),
    normalize_loop now self xs = (s1, xs', Ok tt) ->
    normalize_loop now self (xs ++ ys)
    = (let '(s2, ys', r) := normalize_loop now s1 ys in (s2, xs' ++ ys', r)).
Proof.
  induction xs as [|x xs IH]; intros self s1 xs' ys H.
  - cbn [normalize_loop] in H. injection H as <- <-.
    cbn [app]. by destruct (normalize_loop now self ys) as [[? ?] ?].
  - cbn [normalize_loop app] in *.
    destruct (normalize_result now self x) as [[sx x'] [[]|e]]; [|discriminate].
    destruct (normalize_loop now sx xs) as [[s1' xs1] r1] eqn:E.
    injection H as <- <- ->.
    rewrite (IH sx s1' xs1 ys E).
    by destruct (normalize_loop now s1' ys) as [[? ?] ?].
Qed.

(** X9: an exception ends the pass without undoing it.  When the
    bundles before a failing one complete, the call raises the failing
    bundle's exception, the instance keeps the rows of the earlier
    bundles (and whatever the failing bundle added before it raised),
    and the bundles after it are not touched. *)
Theorem failed_bundle_keeps_earlier_rows (now : string) (self s1 s2 : TaxDataNormalizer)
    (xs xs' ys : list pyval) (bad bad' : pyval) (e : exn) :
  normalize_loop now self xs = (s1, xs', Ok tt) ->
  normalize_result now s1 bad = (s2, bad', Raise e) ->
  normalize_scraped_data now self (xs ++ bad :: ys) = (s2, xs' ++ bad' :: ys, Raise e)
  /\ exists added, s2 = extend_with s1 added.
Proof.
  intros Hxs Hbad. split.
  - unfold normalize_scraped_data.
    rewrite (normalize_loop_app now xs self s1 xs' (bad :: ys) Hxs).
    cbn [normalize_loop]. rewrite Hbad. reflexivity.
  - rewrite normalize_result_from in Hbad. injection Hbad as <- _ _. by eexists.
Qed.

Lemma failed_bundle_keeps_earlier_rows_witness :
  match normalize_scraped_data a_clock new_normalizer
          [bundle_two_unpaid; bundle_null_page; bundle_unmatched] with
  | (self', results', r) =>
      r = Raise AttributeError
      /\ List.length (delinquent_taxes self') = 2%nat
      /\ List.nth 2 results' PNone = bundle_unmatched
  end.
Proof.
  destruct (normalize_loop a_clock new_normalizer [bundle_two_unpaid])
    as [[s1 xs'] r1] eqn:E1.
  destruct (normalize_result a_clock s1 bundle_null_page) as [[s2 bad'] r2] eqn:E2.
  vm_compute in E1. injection E1 as <- <- <-.
  vm_compute in E2. injection E2 as <- <- <-.
  destruct (failed_bundle_keeps_earlier_rows a_clock new_normalizer _ _
              [bundle_two_unpaid] _ [bundle_unmatched] bundle_null_page _ AttributeError
              ltac:(vm_compute; reflexivity) ltac:(vm_compute; reflexivity)) as [H _].
  cbn [app] in H. rewrite H. repeat split.
Defined.

Lemma extract_property_info_identified (now : string) (parcel_id search_data tax_data : pyval)
    (p : Property) :
  _extract_property_info now parcel_id search_data tax_data = Ok (Some p) -> identified p.
Proof.
  unfold _extract_property_info, identified.
  match goal with
  | |- rbind ?m _ = _ -> _ => destruct m as [p0|e]
  end; cbn [rbind]; [|discriminate].
  cbv zeta.
  match goal with
  | |- (if ?c then _ else _) = _ -> _ => destruct c eqn:Hc
  end; [|discriminate].
  intros [= <-]. exact Hc.
Qed.

Lemma normalize_result_properties (now : string) (self : TaxDataNormalizer) (result : pyval) :
  exists ps, properties (fst (fst (normalize_result now self result))) = properties self ++ ps
             /\ (length ps <= 1)%nat /\ Forall identified ps.
Proof.
  unfold normalize_result.
  destruct result; try (exists []; norm_fields; rewrite app_nil_r; repeat split;
                        [cbn [length]; lia | constructor]).
  cbv zeta.
  match goal with
  | |- context [_extract_property_info now ?a ?b ?c] =>
      destruct (_extract_property_info now a b c) as [[p|]|e] eqn:E
  end.
  - exists [p]. split; [|split; [cbn [length]; lia |]].
    + repeat case_match; simplify_eq; norm_fields; reflexivity.
    + constructor; [|constructor]. eapply extract_property_info_identified. exact E.
  - exists []. split; [|split; [cbn [length]; lia | constructor]].
    repeat case_match; simplify_eq; norm_fields; by rewrite app_nil_r.
  - exists []. norm_fields. rewrite app_nil_r. repeat split; [cbn [length]; lia | constructor].
Qed.

Lemma normalize_loop_properties (now : string) (scraped_results : list pyval) :
  forall self : TaxDataNormalizer,
  exists ps,
    properties (fst (fst (normalize_loop now self scraped_results))) = properties self ++ ps
    /\ (length ps <= length scraped_results)%nat /\ Forall identified ps.
Proof.
  induction scraped_results as [|x xs IH]; intros self.
  - exists []. cbn [normalize_loop fst]. rewrite app_nil_r.
    repeat split; [cbn [length]; lia | constructor].
  - cbn [normalize_loop].
    destruct (normalize_result_properties now self x) as (ps1 & H1 & Hlen1 & Hid1).
    destruct (normalize_result now self x) as [[sx x'] [[]|e]]; cbn [fst] in H1.
    + destruct (IH sx) as (ps2 & H2 & Hlen2 & Hid2).
      destruct (normalize_loop now sx xs) as [[s2 xs2] r2]. cbn [fst] in *.
      exists (ps1 ++ ps2). rewrite H2, H1, app_assoc. split; [reflexivity|].
      split; [rewrite length_app; cbn [length]; lia | by apply Forall_app].
    + exists ps1. cbn [fst]. split; [exact H1|]. split; [cbn [length]; lia | exact Hid1].
Qed.

(** X10: a pass adds at most one Property row per bundle, and every
    row it adds carries a non-empty [property_id] or a non-empty
    [owner_name]; this holds whether the pass returns or raises. *)
Theorem property_rows_are_identified (now : string) (self : TaxDataNormalizer)
    (scraped_results : list pyval) :
  exists ps,
    properties (fst (fst (normalize_scraped_data now self scraped_results)))
    = properties self ++ ps
    /\ (length ps <= length scraped_results)%nat
    /\ Forall identified ps.
Proof.
  unfold normalize_scraped_data.
  destruct (normalize_loop_properties now scraped_results self) as (ps & H & Hlen & Hid).
  destruct (normalize_loop now self scraped_results) as [[s xs] r]. cbn [fst] in *.
  by exists ps.
Qed.

(** ** Penalties and interest *)

(** X12: [_extract_penalties_interest] returns at most one row; the
    row exists only when the penalty or the interest found is not zero,
    and its total is the sum of its two amounts. *)
Theorem penalty_row_totals (now : string) (parcel_id : pyval)
    (property_info : option Property) (tax_data : pyval) (rows : list PenaltyInterest) :
  _extract_penalties_interest now parcel_id property_info tax_data = Ok rows ->
  (length rows <= 1)%nat
  /\ Forall (fun r =>
               total_penalties_interest r
               = PrimFloat.add (penalty_amount r) (interest_amount r)
               /\ Flt.truthy (penalty_amount r) || Flt.truthy (interest_amount r) = true)
       rows.
Proof.
  unfold _extract_penalties_interest.
  destruct tax_data; try (intros [= <-]; split; [cbn [length]; lia | constructor]).
  unfold rbind.
  destruct (_extract_amount (PDict d) _) as [penalty|]; [|discriminate].
  destruct (_extract_amount (PDict d) _) as [interest|]; [|discriminate].
  destruct (amount_truthy penalty || amount_truthy interest) eqn:Hany;
    [|intros [= <-]; split; [cbn [length]; lia | constructor]].
  destruct (_extract_year_from_data (PDict d)) as [tax_year|]; [|discriminate].
  intros [= <-]. split; [cbn [length]; lia|].
  constructor; [|constructor].
  cbn [total_penalties_interest penalty_amount interest_amount].
  split; [reflexivity|].
  unfold amount_truthy, float_or_zero in *.
  destruct penalty as [p|], interest as [i|]; cbn [orb] in *;
    repeat match goal with
           | |- context [if Flt.truthy ?x then _ else _] => destruct (Flt.truthy x) eqn:?
           end; cbn [orb] in *; try reflexivity; try discriminate; try assumption;
    repeat match goal with
           | H : Flt.truthy _ = _ |- _ => rewrite H
           end; cbn [orb]; try reflexivity; try discriminate; try assumption.
Qed.

Lemma penalty_row_totals_witness :
  exists rows,
    _extract_penalties_interest a_clock (PStr "17-10250-020") None
      (record [("penalty", PStr "$12.50"); ("interest", PInt 3)]) = Ok rows
    /\ List.map total_penalties_interest rows = [15.5%float].
Proof.
  destruct (_extract_penalties_interest a_clock (PStr "17-10250-020") None
              (record [("penalty", PStr "$12.50"); ("interest", PInt 3)])) as [rows|e] eqn:E;
    [|vm_compute in E; discriminate].
  pose proof (penalty_row_totals _ _ _ _ _ E) as [_ Hrows].
  exists rows. split; [reflexivity|].
  vm_compute in E. injection E as <-. vm_compute. reflexivity.
Defined.

(** ** The property identifier taken from [tax_data] *)

Lemma nonempty_append_l (a b : string) :
  Str.nonempty a = true -> Str.nonempty (a +:+ b) = true.
Proof. destruct a; [discriminate | reflexivity]. Qed.

Lemma nonempty_append_r (a b : string) :
  Str.nonempty b = true -> Str.nonempty (a +:+ b) = true.
Proof. intros H. destruct a; [exact H | reflexivity]. Qed.

Lemma of_Z_nonempty (z : Z) : Str.nonempty (Str.of_Z z) = true.
Proof.
  unfold Str.of_Z. destruct (Z.to_int z) as [d|d]; [|reflexivity].
  destruct d; reflexivity.
Qed.

Lemma exponent_text_nonempty (e : Z) : Str.nonempty (Flt.exponent_text e) = true.
Proof.
  unfold Flt.exponent_text. apply nonempty_append_l. by destruct (e <? 0).
Qed.

Lemma format_digits_nonempty (ds : string) (dp : Z) :
  Str.nonempty (Flt.format_digits ds dp) = true.
Proof.
  unfold Flt.format_digits.
  destruct ((-4 <? dp) && (dp <=? 16)).
  - destruct (dp <=? 0); [reflexivity|].
    destruct (Str.len ds <=? dp).
    + apply nonempty_append_r, nonempty_append_r. reflexivity.
    + apply nonempty_append_r, nonempty_append_l. reflexivity.
  - apply nonempty_append_r, nonempty_append_r, exponent_text_nonempty.
Qed.

Lemma float_repr_nonempty (f : float) : Str.nonempty (Flt.repr f) = true.
Proof.
  unfold Flt.repr. destruct (Prim2SF f) as [s|s| |s m e].
  - by destruct s.
  - by destruct s.
  - reflexivity.
  - destruct (if 0 <=? e then _ else _) as [n d].
    destruct (Flt.shortest 17 f s n d (Flt.decpt n d) 1) as [D p].
    apply nonempty_append_r, format_digits_nonempty.
Qed.

Lemma str_of_truthy_nonempty (v : pyval) :
  Py.truthy v = true -> Str.nonempty (Py.str v) = true.
Proof.
  destruct v; cbn [Py.truthy Py.str Py.repr]; intros H.
  - discriminate.
  - by destruct b.
  - apply of_Z_nonempty.
  - apply float_repr_nonempty.
  - exact H.
  - reflexivity.
  - reflexivity.
Qed.

(** X13: when the search results hold no entry for the parcel (and
    iterating them raises nothing) and [tax_data] has a non-empty
    [property_id], the property row is built from [tax_data] alone: its
    identifier is the text of that [property_id] and it has no owner,
    municipality or address. *)
Theorem property_id_falls_back_to_tax_data (now : string) (parcel_id search_data : pyval)
    (td : dict) :
  no_matching_result parcel_id search_data ->
  (forall sd, search_data = PDict sd -> is_ok (results_of sd) = true) ->
  Py.truthy (Py.get td "property_id") = true ->
  _extract_property_info now parcel_id search_data (PDict td)
  = Ok (Some (mkProperty parcel_id (PStr (Py.str (Py.get td "property_id")))
                PNone PNone PNone now "lacrosse_county")).
Proof.
  intros Hsearch Hiter Hid.
  assert (Hfinal :
    (let property_info :=
       if negb (Py.truthy PNone)
       then mkProperty parcel_id
              (PStr (Py.str (Py.or (Py.get td "property_id") (PStr ""))))
              PNone PNone PNone now "lacrosse_county"
       else mkProperty parcel_id PNone PNone PNone PNone now "lacrosse_county" in
     if Py.truthy (prop_property_id property_info)
        || Py.truthy (prop_owner_name property_info)
     then Ok (Some property_info) else Ok None)
    = Ok (Some (mkProperty parcel_id (PStr (Py.str (Py.get td "property_id")))
                  PNone PNone PNone now "lacrosse_county"))).
  { cbv zeta. cbn [Py.truthy negb prop_property_id prop_owner_name].
    unfold Py.or. rewrite Hid.
    by rewrite (str_of_truthy_nonempty _ Hid). }
  unfold _extract_property_info.
  destruct search_data; cbn [rbind]; try exact Hfinal.
  destruct (Py.has d "data"); cbn [rbind]; [|exact Hfinal].
  specialize (Hiter d eq_refl).
  destruct (results_of d) as [results|e] eqn:Hres; [|discriminate].
  cbn [rbind]. rewrite (Hsearch d results eq_refl Hres). cbn [rbind].
  exact Hfinal.
Qed.

Lemma property_id_falls_back_to_tax_data_witness :
  _extract_property_info a_clock (PStr "17-10250-020") PNone
    (record [("property_id", PInt 4411)])
  = Ok (Some (mkProperty (PStr "17-10250-020") (PStr "4411")
                PNone PNone PNone a_clock "lacrosse_county")).
Proof.
  apply (property_id_falls_back_to_tax_data a_clock (PStr "17-10250-020") PNone
           (fields [("property_id", PInt 4411)])).
  - intros sd results H. discriminate.
  - intros sd H. discriminate.
  - reflexivity.
Defined.

(** ** Tax periods *)

(** X11: when every key of [tax_data] is a string of digits and the
    call returns, there is exactly one TaxPeriod row per key, in the
    order of the keys, and its [tax_year] is the key as written: the
    key is not checked to be a four-digit year. *)
Theorem one_period_per_digit_key (now : string) (parcel_id : pyval)
    (property_info : option Property) (items : dict) (rows : list TaxPeriod) :
  Forall (fun kv => exists key, fst kv = KStr key /\ Str.isdigit key = true) items ->
  _extract_tax_periods now parcel_id property_info (PDict items) = Ok rows ->
  List.map (fun r => KStr (period_tax_year r)) rows = List.map fst items.
Proof.
  unfold _extract_tax_periods.
  revert rows. induction items as [|[k v] items IH]; intros rows Hkeys H.
  - injection H as <-. reflexivity.
  - apply Forall_cons in Hkeys as [(key & Hk & Hdigit) Hrest].
    cbn [fst] in Hk. subst k.
    cbn [_extract_tax_periods_loop] in H. rewrite Hdigit in H. cbn [orb rbind] in H.
    assert (Str.nonempty key = true) as Hne.
    { unfold Str.isdigit in Hdigit. by apply andb_prop in Hdigit as [? _]. }
    rewrite Hne in H. unfold rbind in H.
    destruct (_extract_amount v period_amount_keys) as [total|]; [|discriminate].
    destruct (_determine_status v) as [status|]; [|discriminate].
    destruct (_extract_tax_periods_loop now parcel_id property_info items) as [periods|]
      eqn:Hloop; [|discriminate].
    injection H as <-. cbn [List.map fst period_tax_year]. f_equal.
    by apply IH.
Qed.

Lemma one_period_per_digit_key_witness :
  exists rows,
    _extract_tax_periods a_clock (PStr "17-10250-020") None
      (record [("7", record [("total", PStr "10.00")]); ("2023", record [])]) = Ok rows
    /\ List.map period_tax_year rows = ["7"; "2023"].
Proof.
  destruct (_extract_tax_periods a_clock (PStr "17-10250-020") None
              (record [("7", record [("total", PStr "10.00")]); ("2023", record [])]))
    as [rows|e] eqn:E; [|vm_compute in E; discriminate].
  exists rows. split; [reflexivity|].
  assert (Hkeys : List.map (fun r => KStr (period_tax_year r)) rows
                  = [KStr "7"; KStr "2023"]).
  { apply (one_period_per_digit_key a_clock (PStr "17-10250-020") None
             (fields [("7", record [("total", PStr "10.00")]); ("2023", record [])]) rows);
      [|exact E].
    repeat constructor; eexists; (split; [reflexivity | reflexivity]). }
  destruct rows as [|r1 [|r2 [|r3 rows]]]; try discriminate.
  cbn [List.map] in *. injection Hkeys as H1 H2. by rewrite H1, H2.
Defined.

(** ** The year of the enclosing entry *)

(** X15: the year [_extract_year_from_tax_data_context] returns is a
    key of [tax_data] made of digits whose entry is a dictionary that
    lists an item equal to the one looked for, under [unpaid_taxes],
    [installments] or [tax_tables]. *)
Theorem context_year_lists_the_item (data : pyval) (tax_data : dict) (key : string) :
  _extract_year_from_tax_data_context data tax_data = Ok (Some key) ->
  Str.isdigit key = true
  /\ exists year_data, In (KStr key, PDict year_data) tax_data
                       /\ listed_in_year data year_data = true.
Proof.
  induction tax_data as [|[k v] rest IH]; cbn [_extract_year_from_tax_data_context].
  - discriminate.
  - destruct k as [k|z]; [|discriminate].
    assert (Hrest : _extract_year_from_tax_data_context data rest = Ok (Some key) ->
                    Str.isdigit key = true
                    /\ exists year_data, In (KStr key, PDict year_data) ((KStr k, v) :: rest)
                                         /\ listed_in_year data year_data = true).
    { intros H. destruct (IH H) as (Hd & yd & Hin & Hl).
      split; [exact Hd|]. exists yd. split; [by right | exact Hl]. }
    destruct (Str.isdigit k) eqn:Hdigit; [|exact Hrest].
    destruct v; try exact Hrest.
    destruct (listed_in_year data d) eqn:Hlisted; [|exact Hrest].
    intros [= <-]. split; [exact Hdigit|]. exists d. split; [by left | exact Hlisted].
Qed.

Lemma context_year_lists_the_item_witness :
  Str.isdigit "2023" = true
  /\ exists year_data,
       In (KStr "2023", PDict year_data)
          (fields [("2023", record [("unpaid_taxes", PList [unpaid_entry 75])])])
       /\ listed_in_year (record [("year", PStr "2023"); ("amount", PFloat 75%float)])
            year_data = true.
Proof.
  apply (context_year_lists_the_item
           (record [("year", PStr "2023"); ("amount", PFloat 75%float)])
           (fields [("2023", record [("unpaid_taxes", PList [unpaid_entry 75])])]) "2023").
  vm_compute. reflexivity.
Defined.

(** ** Tables of the page: the first column *)

Lemma usable_first (n : Z) : usable (Some 0) n = None.
Proof. reflexivity. Qed.

Lemma table_row_first_column (now : string) (parcel_id : pyval)
    (property_info : option Property) (tax_data : dict) (r : roles) (row_idx : Z)
    (row : pyval) (i : Installment) :
  table_row now parcel_id property_info tax_data r row_idx row = Ok (Some i) ->
  (amount_idx r = Some 0 -> inst_amount i = None)
  /\ (date_idx r = Some 0 -> inst_due_date i = None)
  /\ (status_idx r = Some 0 -> inst_status i = "pending")
  /\ (type_idx r = Some 0 ->
        installment_type i = PStr ("installment_" +:+ Str.of_Z (installment_number i))).
Proof.
  unfold table_row.
  destruct (Py.len row) as [n|]; cbn [rbind]; [|discriminate].
  destruct (0 <? n); [|discriminate].
  repeat match goal with
         | |- rbind ?m _ = _ -> _ =>
             let E := fresh "E" in destruct m eqn:E; cbn [rbind]; [|discriminate]
         end.
  intros [= <-].
  cbn [inst_amount inst_due_date inst_status installment_type installment_number].
  unfold cell_or_empty in *.
  repeat split; intros Hrole; rewrite Hrole in *;
    cbn [usable Z.eqb negb andb] in *; simplify_eq; reflexivity.
Qed.

Lemma table_rows_first_column (now : string) (parcel_id : pyval)
    (property_info : option Property) (tax_data : dict) (r : roles) (rows : list pyval) :
  forall row_idx out,
    table_rows now parcel_id property_info tax_data r row_idx rows = Ok out ->
    Forall (fun i =>
              (amount_idx r = Some 0 -> inst_amount i = None)
              /\ (date_idx r = Some 0 -> inst_due_date i = None)
              /\ (status_idx r = Some 0 -> inst_status i = "pending")
              /\ (type_idx r = Some 0 ->
                    installment_type i
                    = PStr ("installment_" +:+ Str.of_Z (installment_number i)))) out.
Proof.
  induction rows as [|row rows IH]; intros row_idx out H.
  - injection H as <-. constructor.
  - cbn [table_rows] in H. unfold rbind in H.
    destruct (table_row now parcel_id property_info tax_data r row_idx row) as [x|] eqn:Hx;
      [|discriminate].
    destruct (table_rows now parcel_id property_info tax_data r (row_idx + 1) rows)
      as [xs|] eqn:Hxs; [|discriminate].
    injection H as <-.
    destruct x as [i|]; [|by eapply IH].
    constructor; [|by eapply IH].
    eapply table_row_first_column. exact Hx.
Qed.

(** X14: a role whose column index, as the loop over the headers
    leaves it, is 0 is not used: [idx and idx < len(row)] takes index 0
    for no index.  The condition is on the index the loop ends with: a
    later header that matches the same role overwrites it.  When the
    amount index is 0 every row has no amount, when the date index is 0
    no due date, when the status index is 0 the status [pending], and
    when the type index is 0 the label [installment_N] of its row
    number. *)
Theorem first_column_is_not_read (now : string) (parcel_id : pyval)
    (property_info : option Property) (tax_data : dict)
    (hs rows : list pyval) (headers : list string) (out : list Installment) :
  lower_all hs = Ok headers ->
  _parse_table_for_installments now (PList (PList hs :: rows)) parcel_id property_info tax_data
  = Ok out ->
  let r := header_roles 0 headers (mkRoles None None None None None) in
  Forall (fun i =>
            (amount_idx r = Some 0 -> inst_amount i = None)
            /\ (date_idx r = Some 0 -> inst_due_date i = None)
            /\ (status_idx r = Some 0 -> inst_status i = "pending")
            /\ (type_idx r = Some 0 ->
                  installment_type i
                  = PStr ("installment_" +:+ Str.of_Z (installment_number i)))) out.
Proof.
  intros Hheaders H r.
  unfold _parse_table_for_installments in H.
  cbn [Py.truthy negb Py.len rbind] in H.
  destruct (Z.of_nat (length (PList hs :: rows)) <? 2).
  - injection H as <-. constructor.
  - cbn [index] in H. change (Z.to_nat 0) with 0%nat in H.
    cbn [nth_error rbind Py.iter List.tl] in H.
    rewrite Hheaders in H. cbn [rbind] in H.
    eapply table_rows_first_column. exact H.
Qed.

Lemma first_column_is_not_read_witness :
  exists out,
    _parse_table_for_installments a_clock
      (PList [PList [PStr "Amount"; PStr "Due Date"];
              PList [PStr "$600.00"; PStr "01/31/2023"]])
      (PStr "17-10250-020") None [] = Ok out
    /\ List.map inst_amount out = [None]
    /\ List.map inst_due_date out = [Some "2023-01-31T00:00:00"].
Proof.
  destruct (_parse_table_for_installments a_clock
              (PList [PList [PStr "Amount"; PStr "Due Date"];
                      PList [PStr "$600.00"; PStr "01/31/2023"]])
              (PStr "17-10250-020") None []) as [out|e] eqn:E;
    [|vm_compute in E; discriminate].
  exists out.
  pose proof (first_column_is_not_read a_clock (PStr "17-10250-020") None []
                [PStr "Amount"; PStr "Due Date"] [PList [PStr "$600.00"; PStr "01/31/2023"]]
                ["amount"; "due date"] out ltac:(reflexivity) E) as Hcol.
  split; [reflexivity|].
  vm_compute in E. injection E as <-.
  apply Forall_cons in Hcol as [(Hamount & _) _].
  split; [|vm_compute; reflexivity].
  cbn [List.map]. rewrite Hamount; reflexivity.
Defined.

(** ** The pages of the Brown County site *)

Lemma append_assoc_s (a b c : string) : (a +:+ b) +:+ c = a +:+ (b +:+ c).
Proof.
  induction a as [|x a IH]; [reflexivity|].
  change (String x a +:+ b) with (String x (a +:+ b)).
  change (String x (a +:+ b) +:+ c) with (String x ((a +:+ b) +:+ c)).
  change (String x a +:+ (b +:+ c)) with (String x (a +:+ (b +:+ c))).
  by rewrite IH.
Qed.

Lemma append_empty_r (a : string) : a +:+ EmptyString = a.
Proof.
  induction a as [|x a IH]; [reflexivity|].
  change (String x a +:+ EmptyString) with (String x (a +:+ EmptyString)).
  by rewrite IH.
Qed.

Lemma startswith_self (sep b : string) : Str.startswith sep (sep +:+ b) = true.
Proof.
  induction sep as [|x sep IH]; [reflexivity|].
  change (String x sep +:+ b) with (String x (sep +:+ b)).
  cbn [Str.startswith]. rewrite IH. by rewrite Ascii.eqb_refl.
Qed.

Lemma drop_self (sep b : string) : Str.drop (String.length sep) (sep +:+ b) = b.
Proof.
  induction sep as [|x sep IH]; [reflexivity|].
  change (String x sep +:+ b) with (String x (sep +:+ b)).
  cbn [String.length Str.drop]. exact IH.
Qed.

Lemma startswith_split (sep s : string) :
  Str.startswith sep s = true -> s = sep +:+ Str.drop (String.length sep) s.
Proof.
  revert s. induction sep as [|x sep IH]; intros s H; [reflexivity|].
  destruct s as [|y s]; [discriminate|].
  cbn [Str.startswith] in H. apply andb_prop in H as [Hx Hs].
  apply Ascii.eqb_eq in Hx as ->.
  change (String y sep +:+ ?t) with (String y (sep +:+ t)).
  cbn [String.length Str.drop]. f_equal. by apply IH.
Qed.

Lemma startswith_shorter (p x y : string) :
  (String.length p <= String.length x)%nat ->
  Str.startswith p (x +:+ y) = Str.startswith p x.
Proof.
  revert x. induction p as [|c p IH]; intros x H; [reflexivity|].
  destruct x as [|d x]; [cbn [String.length] in H; lia|].
  change (String d x +:+ y) with (String d (x +:+ y)).
  cbn [Str.startswith]. rewrite IH; [reflexivity|].
  cbn [String.length] in H. lia.
Qed.

Lemma take_length (n : nat) (s : string) :
  String.length (Str.take n s) = Nat.min n (String.length s).
Proof.
  revert s. induction n as [|n IH]; intros s; [reflexivity|].
  destruct s as [|c s]; [reflexivity|].
  cbn [Str.take String.length]. rewrite IH. reflexivity.
Qed.

Lemma take_drop (n : nat) (s : string) : Str.take n s +:+ Str.drop n s = s.
Proof.
  revert s. induction n as [|n IH]; intros s; [reflexivity|].
  destruct s as [|c s]; [reflexivity|].
  cbn [Str.take Str.drop].
  change (String c ?a +:+ ?b) with (String c (a +:+ b)). by rewrite IH.
Qed.

Lemma contains_after (sep a b : string) : Str.contains sep (a +:+ sep +:+ b) = true.
Proof.
  induction a as [|x a IH].
  - change (EmptyString +:+ ?t) with t. apply contains_here. apply startswith_self.
  - change (String x a +:+ ?t) with (String x (a +:+ t)).
    cbn [Str.contains]. rewrite IH. apply orb_true_r.
Qed.

(** [split] cuts at the first occurrence: text that holds no occurrence
    of the separator, even when the separator's own first characters
    follow it, comes back whole. *)
Lemma split_once_first (sep a b : string) :
  Str.contains sep (a +:+ Str.take (String.length sep - 1) sep) = false ->
  Brown.split_once sep (a +:+ sep +:+ b) = Some (a, b).
Proof.
  induction a as [|x a IH]; intros H.
  - change (EmptyString +:+ ?t) with t.
    generalize (startswith_self sep b), (drop_self sep b).
    generalize (sep +:+ b). intros s Hs Hd.
    destruct s; cbn [Brown.split_once]; rewrite Hs, Hd; reflexivity.
  - change (String x a +:+ ?t) with (String x (a +:+ t)) in *.
    cbn [Str.contains] in H. apply orb_false_elim in H as [Hhere Hrest].
    cbn [Brown.split_once]. rewrite (IH Hrest).
    replace (Str.startswith sep (String x (a +:+ sep +:+ b))) with false; [reflexivity|].
    rewrite <- Hhere.
    assert (Hcut : a +:+ sep +:+ b
                   = (a +:+ Str.take (String.length sep - 1) sep)
                     +:+ (Str.drop (String.length sep - 1) sep +:+ b)).
    { rewrite append_assoc_s, <- (append_assoc_s (Str.take _ sep)), take_drop.
      reflexivity. }
    rewrite Hcut.
    change (String x ((a +:+ Str.take (String.length sep - 1) sep)
                      +:+ (Str.drop (String.length sep - 1) sep +:+ b)))
      with (String x (a +:+ Str.take (String.length sep - 1) sep)
            +:+ (Str.drop (String.length sep - 1) sep +:+ b)).
    symmetry. apply startswith_shorter.
    cbn [String.length]. rewrite append_length, take_length. lia.
Qed.

Lemma split_once_spec (sep : string) :
  forall s a b, Brown.split_once sep s = Some (a, b) -> s = a +:+ sep +:+ b.
Proof.
  induction s as [|c s IH]; intros a b H.
  - cbn [Brown.split_once] in H.
    destruct (Str.startswith sep EmptyString) eqn:Hs; [|discriminate].
    injection H as <- <-. change (EmptyString +:+ ?t) with t.
    by apply startswith_split.
  - cbn [Brown.split_once] in H.
    destruct (Str.startswith sep (String c s)) eqn:Hs.
    + injection H as <- <-. change (EmptyString +:+ ?t) with t.
      by apply startswith_split.
    + destruct (Brown.split_once sep s) as [[a' b']|] eqn:Hsp; [|discriminate].
      injection H as <- <-.
      change (String c a' +:+ ?t) with (String c (a' +:+ t)).
      f_equal. by apply IH.
Qed.

(** X16: from a response framed as metadata, the panel marker, the panel
    name, a bar and the page, [_parse_aspnet_ajax_response] gives back
    the page, bars inside the page included; this holds when the marker
    does not begin inside the metadata and the panel name holds no bar. *)
Theorem ajax_response_gives_the_page (meta panel html : string) :
  Str.contains Brown.panel_marker (meta +:+ "|updatePanel") = false ->
  Str.contains "|" panel = false ->
  Brown._parse_aspnet_ajax_response
    (meta +:+ Brown.panel_marker +:+ panel +:+ "|" +:+ html) = html.
Proof.
  intros Hmeta Hpanel. unfold Brown._parse_aspnet_ajax_response.
  rewrite contains_after.
  rewrite (split_once_first Brown.panel_marker meta (panel +:+ "|" +:+ html) Hmeta).
  rewrite contains_after.
  rewrite (split_once_first "|" panel html); [reflexivity|].
  change (Str.take (String.length "|" - 1) "|") with EmptyString.
  by rewrite append_empty_r.
Qed.

Lemma ajax_response_gives_the_page_witness :
  Brown._parse_aspnet_ajax_response
    ("1|#||4|81358" +:+ Brown.panel_marker +:+ "ctl00_cphMainApp_upSearch" +:+ "|"
       +:+ "<td>a|b</td>") = "<td>a|b</td>".
Proof.
  apply (ajax_response_gives_the_page "1|#||4|81358" "ctl00_cphMainApp_upSearch"
           "<td>a|b</td>"); vm_compute; reflexivity.
Defined.

(** X17: what [_parse_aspnet_ajax_response] returns is always the end of
    the response it was given: some prefix is cut off, nothing is added
    or changed. *)
Theorem ajax_response_is_a_suffix (response_text : string) :
  exists prefix : string,
    response_text = prefix +:+ Brown._parse_aspnet_ajax_response response_text.
Proof.
  unfold Brown._parse_aspnet_ajax_response.
  destruct (Str.contains Brown.panel_marker response_text); [|by exists EmptyString].
  destruct (Brown.split_once Brown.panel_marker response_text) as [[before rest]|] eqn:H1;
    [|by exists EmptyString].
  apply split_once_spec in H1.
  destruct (Str.contains "|" rest).
  - destruct (Brown.split_once "|" rest) as [[panel html]|] eqn:H2.
    + apply split_once_spec in H2. subst rest.
      exists (before +:+ Brown.panel_marker +:+ panel +:+ "|").
      rewrite H1. by rewrite !append_assoc_s.
    + exists (before +:+ Brown.panel_marker). rewrite H1. by rewrite !append_assoc_s.
  - exists (before +:+ Brown.panel_marker). rewrite H1. by rewrite !append_assoc_s.
Qed.

(** X18: every installment [_extract_installments_and_history] returns
    has a non-empty due date and a non-empty amount, and every tax
    history entry has a year of exactly four digit characters, whatever
    the tables hold. *)
Theorem brown_entries_are_filled (tables_data : list Brown.table_info) :
  List.Forall
    (fun e => Str.nonempty (Brown.due_date e) = true /\ Str.nonempty (Brown.amount e) = true)
    (fst (Brown._extract_installments_and_history tables_data))
  /\ List.Forall
       (fun h => Str.isdigit (Brown.year h) = true /\ String.length (Brown.year h) = 4%nat)
       (snd (Brown._extract_installments_and_history tables_data)).
Proof.
  unfold Brown._extract_installments_and_history. cbn [fst snd].
  split; apply List.Forall_forall; intros e Hin;
    apply List.in_flat_map in Hin as (t & _ & Hin).
  - unfold Brown.installments_of in Hin.
    repeat case_match; try (by destruct Hin).
    apply List.in_flat_map in Hin as (row & _ & Hin).
    repeat case_match; try (by destruct Hin).
    destruct Hin as [<- | []]. cbn [Brown.due_date Brown.amount] in *.
    by apply andb_prop.
  - unfold Brown.history_of in Hin.
    repeat case_match; try (by destruct Hin).
    apply List.in_flat_map in Hin as (row & _ & Hin).
    repeat case_match; try (by destruct Hin).
    destruct Hin as [<- | []]. cbn [Brown.year].
    match goal with Hyear : _ && _ && (Str.len _ =? 4) = true |- _ =>
      apply andb_prop in Hyear as [Hdigits Hlen];
      apply andb_prop in Hdigits as [_ Hdigits] end.
    split; [exact Hdigits|]. apply Z.eqb_eq in Hlen. unfold Str.len in Hlen. lia.
Qed.

(** X19: when 'Amount' is the first header of a tax history table, every
    entry read from that table has an empty amount: index 0 is taken as
    no index. *)
Theorem first_column_amount_is_dropped (hs : list string) (rows : list (list string))
    (h : Brown.history_entry) :
  In h (Brown.history_of (Brown.mkTableInfo ("Amount" :: hs) rows)) ->
  Brown.history_amount h = EmptyString.
Proof.
  intros Hin. unfold Brown.history_of in Hin.
  cbn [Brown.headers Brown.rows] in Hin.
  change (Brown.index_of "Amount" ("Amount" :: hs)) with (Some O) in Hin.
  repeat case_match; try (by destruct Hin).
  apply List.in_flat_map in Hin as (row & _ & Hin).
  repeat case_match; try (by destruct Hin).
  destruct Hin as [<- | []]. reflexivity.
Qed.

Lemma first_column_amount_is_dropped_witness :
  exists h,
    Brown.history_of
      (Brown.mkTableInfo
         ["Amount"; "Year"; "Interest Paid"; "Penalties Paid"; "Paid"; "Last Paid"; "Status"]
         [["1,500.00"; "2023"; "0.00"; "0.00"; "1,500.00"; "01/31/2024"; "Paid"]]) = [h]
    /\ Brown.history_amount h = EmptyString
    /\ Brown.paid h = "1,500.00".
Proof.
  eexists. split; [vm_compute; reflexivity|]. split.
  - apply (first_column_amount_is_dropped
             ["Year"; "Interest Paid"; "Penalties Paid"; "Paid"; "Last Paid"; "Status"]
             [["1,500.00"; "2023"; "0.00"; "0.00"; "1,500.00"; "01/31/2024"; "Paid"]]).
    vm_compute. left. reflexivity.
  - reflexivity.
Defined.

(** ** The tokens of a page *)

Lemma extract_into_lookup (html : string) (m : gmap string string) (x k : string) :
  Tokens.extract_into html m x !! k
  = if decide (x = k)
    then match Tokens.extract_hidden_field html k with
         | Some v => Some v
         | None => m !! k
         end
    else m !! k.
Proof.
  unfold Tokens.extract_into. destruct (decide (x = k)) as [->|Hne].
  - destruct (Tokens.extract_hidden_field html k); [|reflexivity].
    apply lookup_insert_eq.
  - destruct (Tokens.extract_hidden_field html x); [|reflexivity].
    by apply lookup_insert_ne.
Qed.

Lemma fold_extract_lookup (html : string) (l : list string) :
  forall (m : gmap string string) (k : string),
    fold_left (Tokens.extract_into html) l m !! k
    = if decide (k ∈ l)
      then match Tokens.extract_hidden_field html k with
           | Some v => Some v
           | None => m !! k
           end
      else m !! k.
Proof.
  induction l as [|x l IH]; intros m k.
  - cbn [fold_left]. destruct (decide (k ∈ [])) as [Hin|]; [|reflexivity].
    by apply elem_of_nil in Hin.
  - cbn [fold_left]. rewrite IH, extract_into_lookup.
    destruct (decide (x = k)) as [Heq|Hne].
    + subst x. destruct (decide (k ∈ k :: l)) as [_|Hout]; [|exfalso; apply Hout; set_solver].
      destruct (decide (k ∈ l)); [|reflexivity].
      by destruct (Tokens.extract_hidden_field html k).
    + destruct (decide (k ∈ l)) as [Hl|Hl], (decide (k ∈ x :: l)) as [Hxl|Hxl];
        try reflexivity.
      * exfalso. apply Hxl. set_solver.
      * exfalso. apply elem_of_cons in Hxl as [Hk|Hk]; [by apply Hne | by apply Hl].
Qed.

Lemma aspnet_tokens_lookup (html k : string) :
  Tokens.extract_aspnet_tokens html !! k
  = if decide (k ∈ Tokens.tokens_to_extract ++ [Tokens.toolkit_field])
    then Tokens.extract_hidden_field html k
    else None.
Proof.
  unfold Tokens.extract_aspnet_tokens.
  change (Tokens.extract_into html
            (fold_left (Tokens.extract_into html) Tokens.tokens_to_extract ∅)
            Tokens.toolkit_field)
    with (fold_left (Tokens.extract_into html) [Tokens.toolkit_field]
            (fold_left (Tokens.extract_into html) Tokens.tokens_to_extract ∅)).
  rewrite <- fold_left_app, fold_extract_lookup, lookup_empty.
  destruct (decide _); [|reflexivity].
  by destruct (Tokens.extract_hidden_field html k).
Qed.

(** X20: [extract_aspnet_tokens] holds a token under a name exactly when
    the name is one of the ten listed names or the toolkit field and
    [extract_hidden_field] finds that value for it in the page; nothing
    else is ever in the result. *)
Theorem tokens_are_the_hidden_fields (html name value : string) :
  Tokens.extract_aspnet_tokens html !! name = Some value
  <-> name ∈ Tokens.tokens_to_extract ++ [Tokens.toolkit_field]
      /\ Tokens.extract_hidden_field html name = Some value.
Proof.
  rewrite aspnet_tokens_lookup.
  destruct (decide (name ∈ Tokens.tokens_to_extract ++ [Tokens.toolkit_field])) as [Hin|Hout].
  - split; [intros H; by split | by intros [_ H]].
  - split; [discriminate | by intros [Hin _]].
Qed.

(** X21: a token whose field the page does not hold keeps its earlier
    value when the page's tokens are merged into the scraper's: a stale
    token is never removed. *)
Theorem absent_field_keeps_old_token (tokens : gmap string string) (html name : string) :
  Tokens.extract_hidden_field html name = None ->
  Tokens.capture tokens html !! name = tokens !! name.
Proof.
  intros Habsent. unfold Tokens.capture, Tokens.update.
  apply lookup_union_r. rewrite aspnet_tokens_lookup.
  by destruct (decide _).
Qed.

Lemma absent_field_keeps_old_token_witness :
  Tokens.capture {[ "__VIEWSTATE" := "abc" ]} "<html></html>" !! "__VIEWSTATE" = Some "abc".
Proof.
  rewrite (absent_field_keeps_old_token {[ "__VIEWSTATE" := "abc" ]} "<html></html>"
             "__VIEWSTATE"); [|vm_compute; reflexivity].
  vm_compute. reflexivity.
Defined.

(** X22: merging the tokens of the same page a second time changes
    nothing. *)
Theorem capture_twice_is_capture (tokens : gmap string string) (html : string) :
  Tokens.capture (Tokens.capture tokens html) html = Tokens.capture tokens html.
Proof.
  unfold Tokens.capture, Tokens.update. apply map_eq. intros k.
  rewrite !lookup_union.
  destruct (Tokens.extract_aspnet_tokens html !! k), (tokens !! k); reflexivity.
Qed.

(** ** A hidden field read back *)

Lemma star_stops (p : ascii -> bool)
    (k : string -> option ascii -> string -> option Re.found) (atoms : list Re.atom) :
  (forall t pv v, blocked atoms v -> k t pv v = None) ->
  forall s taken prev,
    match s with EmptyString => True | String _ s' => never_from atoms s' end ->
    Re.star p k taken prev s = k taken prev s.
Proof.
  intros Hk. induction s as [|c s IH]; intros taken prev Hn; cbn [Re.star]; [reflexivity|].
  destruct (p c); [|reflexivity].
  destruct s as [|d s].
  - cbn [Re.star]. rewrite (Hk _ _ EmptyString); [reflexivity|]. apply Hn.
  - destruct Hn as [Hb Hn]. rewrite IH by exact Hn. by rewrite (Hk _ _ _ Hb).
Qed.

Lemma star_finds (p : ascii -> bool)
    (k : string -> option ascii -> string -> option Re.found) (atoms : list Re.atom) :
  (forall t pv v, blocked atoms v -> k t pv v = None) ->
  forall u s taken prev r,
    Str.all p u = true ->
    match s with EmptyString => True | String _ s' => never_from atoms s' end ->
    k (taken +:+ u) (last_of prev u) s = Some r ->
    Re.star p k taken prev (u +:+ s) = Some r.
Proof.
  intros Hk. induction u as [|c u IH]; intros s taken prev r Hall Hn Hr.
  - change (EmptyString +:+ s) with s. rewrite (star_stops p k atoms Hk s taken prev Hn).
    rewrite append_empty_r in Hr. exact Hr.
  - change (String c u +:+ s) with (String c (u +:+ s)). cbn [Re.star].
    cbn [Str.all] in Hall. apply andb_prop in Hall as [Hc Hall]. rewrite Hc.
    rewrite (IH s (taken +:+ String c EmptyString) (Some c) r); [reflexivity|exact Hall|exact Hn|].
    rewrite append_assoc_s. exact Hr.
Qed.

Lemma never_from_region (P : ascii -> bool) (atoms : list Re.atom) (x y : string) :
  Str.all P x = true ->
  (forall c x', P c = true -> Str.all P x' = true -> blocked atoms (String c (x' +:+ y))) ->
  never_from atoms y ->
  never_from atoms (x +:+ y).
Proof.
  intros Hall Hb Hy. induction x as [|c x IH]; [exact Hy|].
  cbn [Str.all] in Hall. apply andb_prop in Hall as [Hc Hall].
  change (String c x +:+ y) with (String c (x +:+ y)). cbn [never_from].
  split; [by apply Hb | by apply IH].
Qed.

Lemma lit_rest_tail (icase : bool) (p : string) :
  forall y m r, Re.lit icase p y = Some (m, r) -> In r (tails y).
Proof.
  induction p as [|a p IH]; intros y m r H; cbn [Re.lit] in H.
  - injection H as _ <-. destruct y; left; reflexivity.
  - destruct y as [|b y]; [discriminate|].
    destruct (if icase then _ else _); [|discriminate].
    destruct (Re.lit icase p y) as [[m' r']|] eqn:E; [|discriminate].
    injection H as _ <-. cbn [tails]. right. eapply IH. exact E.
Qed.

Lemma lit_tail (P : ascii -> bool) (icase : bool) (p : string) :
  forall x y m r,
    Str.all P x = true ->
    Re.lit icase p (x +:+ y) = Some (m, r) ->
    (exists c x', r = String c (x' +:+ y) /\ P c = true) \/ In r (tails y).
Proof.
  induction p as [|a p IH]; intros x y m r Hall H.
  - cbn [Re.lit] in H. injection H as _ <-.
    destruct x as [|c x].
    + right. change (EmptyString +:+ y) with y. destruct y; left; reflexivity.
    + left. exists c, x. cbn [Str.all] in Hall. apply andb_prop in Hall as [Hc _].
      split; [reflexivity | exact Hc].
  - destruct x as [|c x].
    + right. eapply lit_rest_tail. exact H.
    + change (String c x +:+ y) with (String c (x +:+ y)) in H. cbn [Re.lit] in H.
      destruct (if icase then _ else _); [|discriminate].
      destruct (Re.lit icase p (x +:+ y)) as [[m' r']|] eqn:E; [|discriminate].
      injection H as _ <-.
      cbn [Str.all] in Hall. apply andb_prop in Hall as [_ Hall].
      eapply IH; eassumption.
Qed.

Lemma lit_self (icase : bool) (p r : string) : Re.lit icase p (p +:+ r) = Some (p, r).
Proof.
  induction p as [|a p IH]; [reflexivity|].
  change (String a p +:+ r) with (String a (p +:+ r)). cbn [Re.lit].
  rewrite IH. destruct icase; by rewrite Ascii.eqb_refl.
Qed.

Lemma match_lit (icase : bool) (p : string) (rest : list Re.atom)
    (prev : option ascii) (s m r : string) :
  Re.lit icase p s = Some (m, r) ->
  Re.match_here icase (Re.Lit p :: rest) prev s
  = Re.prepend m (Re.match_here icase rest (Re.last_char prev m) r).
Proof. intros H. cbn [Re.match_here]. by rewrite H. Qed.

Lemma match_class (icase : bool) (p : ascii -> bool) (rest : list Re.atom)
    (prev : option ascii) (c : ascii) (s : string) :
  p c = true ->
  Re.match_here icase (Re.Class p :: rest) prev (String c s)
  = Re.prepend (String c EmptyString) (Re.match_here icase rest (Some c) s).
Proof. intros H. cbn [Re.match_here]. by rewrite H. Qed.

Lemma match_group (icase : bool) (p : ascii -> bool) (rest : list Re.atom)
    (prev : option ascii) (s : string) :
  Re.match_here icase (Re.Group p :: rest) prev s
  = Re.star p (fun taken prev' s' =>
                 match Re.match_here icase rest prev' s' with
                 | Some f => Some (Re.mkFound (taken +:+ Re.matched f) (Some taken)
                                     (Re.remaining f))
                 | None => None
                 end)
      EmptyString prev s.
Proof. reflexivity. Qed.

Lemma match_star (icase : bool) (p : ascii -> bool) (rest : list Re.atom)
    (prev : option ascii) (s : string) :
  Re.match_here icase (Re.Star p :: rest) prev s
  = Re.star p (fun taken prev' s' => Re.prepend taken (Re.match_here icase rest prev' s'))
      EmptyString prev s.
Proof. reflexivity. Qed.

Lemma captures_prepend (m : string) (r : option Re.found) (v : string) :
  captures r v -> captures (Re.prepend m r) v.
Proof. intros (f & -> & Hf). eexists. split; [reflexivity | exact Hf]. Qed.

(** A text without quotes, and what follows the pattern's literal in
    it, cannot start a match of a pattern that wants a quote after the
    literal, unless the match runs into the text that follows. *)
Lemma blocked_open (p : string) (rest : list Re.atom) (x y : string) :
  Str.all Tokens.not_quote x = true ->
  (forall r, In r (tails y) -> blocked (Re.Class Tokens.quote :: rest) r) ->
  blocked (Re.Lit p :: Re.Class Tokens.quote :: rest) (x +:+ y).
Proof.
  intros Hall Hy prev.
  destruct (Re.lit true p (x +:+ y)) as [[m r]|] eqn:E;
    [|cbn [Re.match_here]; by rewrite E].
  rewrite (match_lit _ _ _ _ _ _ _ E).
  destruct (lit_tail Tokens.not_quote true p x y m r Hall E) as [(c & x' & -> & Hc) | Hin].
  - unfold Tokens.not_quote in Hc. apply negb_true_iff in Hc.
    cbn [Re.match_here]. rewrite Hc. reflexivity.
  - rewrite (Hy r Hin (Re.last_char prev m)). reflexivity.
Qed.

Lemma word_is_plain (c : ascii) :
  Chr.isword c = true ->
  Tokens.not_gt c = true
  /\ Ascii.eqb (Chr.lower "=") (Chr.lower c) = false
  /\ Ascii.eqb (Chr.lower c) (Chr.lower " ") = false.
Proof.
  destruct c as [[] [] [] [] [] [] [] []]; vm_compute; intros H;
    first [discriminate H | repeat split].
Qed.

Lemma all_weaken (P Q : ascii -> bool) (s : string) :
  (forall c, P c = true -> Q c = true) -> Str.all P s = true -> Str.all Q s = true.
Proof.
  intros HPQ. induction s as [|c s IH]; [reflexivity|].
  cbn [Str.all]. intros H. apply andb_prop in H as [Hc Hs].
  by rewrite (HPQ c Hc), (IH Hs).
Qed.

(** The group takes the whole value and the closing quote follows. *)
Lemma group_takes_value (value : string) (prev : option ascii) :
  Str.all Tokens.not_quote value = true ->
  captures (Re.match_here true [Re.Group Tokens.not_quote; Re.Class Tokens.quote] prev
              (value +:+ String Py.dquote " />")) value.
Proof.
  intros Hall. rewrite match_group.
  eexists. split.
  - apply (star_finds Tokens.not_quote _ after_group).
    + intros t pv v Hb. unfold after_group in Hb. cbv beta. by rewrite (Hb pv).
    + exact Hall.
    + cbn [never_from]. repeat split; intros pv; reflexivity.
    + reflexivity.
  - reflexivity.
Qed.

Lemma value_part_matches (value : string) (prev : option ascii) :
  Str.all Tokens.not_quote value = true ->
  captures (Re.match_here true value_part prev
              ("value=" +:+ quoted value " />")) value.
Proof.
  intros Hall. unfold value_part, quoted.
  rewrite (match_lit true "value=" _ prev _ "value=" (String Py.dquote (value +:+ String Py.dquote " />")));
    [|reflexivity].
  apply captures_prepend.
  rewrite match_class; [|reflexivity].
  apply captures_prepend. by apply group_takes_value.
Qed.

Lemma value_part_never_later (value : string) :
  Str.all Tokens.not_quote value = true ->
  never_from value_part ("alue=" +:+ quoted value " />").
Proof.
  intros Hall. unfold quoted.
  change ("alue=" +:+ String Py.dquote (value +:+ String Py.dquote " />"))
    with (String "a" (String "l" (String "u" (String "e" (String "="
            (String Py.dquote (value +:+ String Py.dquote " />"))))))).
  cbn [never_from].
  repeat (split; [intros pv; reflexivity|]).
  apply (never_from_region Tokens.not_quote); [exact Hall| |].
  - intros c x' Hc Hx'.
    change (String c (x' +:+ String Py.dquote " />"))
      with (String c x' +:+ String Py.dquote " />").
    apply blocked_open.
    + cbn [Str.all]. by rewrite Hc, Hx'.
    + intros r Hin pv. cbn [tails In] in Hin.
      repeat (destruct Hin as [<- | Hin]; [reflexivity|]). destruct Hin.
  - cbn [never_from]. repeat split; intros pv; reflexivity.
Qed.

Lemma star_captures (p : ascii -> bool) (atoms : list Re.atom) (u s : string)
    (prev : option ascii) (v : string) :
  Str.all p u = true ->
  match s with EmptyString => True | String _ s' => never_from atoms s' end ->
  (forall pv, captures (Re.match_here true atoms pv s) v) ->
  captures (Re.star p (fun taken prev' s' =>
                         Re.prepend taken (Re.match_here true atoms prev' s'))
              EmptyString prev (u +:+ s)) v.
Proof.
  intros Hall Hn Hm. destruct (Hm (last_of prev u)) as (f & Hf & Hc).
  eexists. split.
  - apply (star_finds p _ atoms); [|exact Hall|exact Hn|].
    + intros t pv w Hb. cbv beta. by rewrite (Hb pv).
    + cbv beta. rewrite Hf. reflexivity.
  - exact Hc.
Qed.

Lemma lit_cons_inv (a b : ascii) (p s m r : string) :
  Re.lit true (String a p) (String b s) = Some (m, r) ->
  Ascii.eqb (Chr.lower a) (Chr.lower b) = true
  /\ exists m', Re.lit true p s = Some (m', r).
Proof.
  cbn [Re.lit]. destruct (Ascii.eqb (Chr.lower a) (Chr.lower b)); [|discriminate].
  destruct (Re.lit true p s) as [[m' r']|]; [|discriminate].
  intros [= _ <-]. split; [reflexivity|]. by exists m'.
Qed.

(** A run of word characters followed by a quote cannot start
    [name=]: the quote comes too early or a word character stands where
    the equals sign should be. *)
Lemma lit_name_word (x t : string) :
  Str.nonempty x = true -> Str.all Chr.isword x = true ->
  Re.lit true "name=" (x +:+ String Py.dquote t) = None.
Proof.
  intros Hne Hall.
  destruct (Re.lit true "name=" (x +:+ String Py.dquote t)) as [[m r]|] eqn:E;
    [exfalso|reflexivity].
  destruct x as [|c0 x]; [discriminate|].
  change (String c0 x +:+ ?y) with (String c0 (x +:+ y)) in E.
  apply lit_cons_inv in E as (_ & m0 & E).
  destruct x as [|c1 x];
    [change (EmptyString +:+ ?y) with y in E; apply lit_cons_inv in E as (Hc & _);
     vm_compute in Hc; discriminate|].
  change (String c1 x +:+ ?y) with (String c1 (x +:+ y)) in E.
  apply lit_cons_inv in E as (_ & m1 & E).
  destruct x as [|c2 x];
    [change (EmptyString +:+ ?y) with y in E; apply lit_cons_inv in E as (Hc & _);
     vm_compute in Hc; discriminate|].
  change (String c2 x +:+ ?y) with (String c2 (x +:+ y)) in E.
  apply lit_cons_inv in E as (_ & m2 & E).
  destruct x as [|c3 x];
    [change (EmptyString +:+ ?y) with y in E; apply lit_cons_inv in E as (Hc & _);
     vm_compute in Hc; discriminate|].
  change (String c3 x +:+ ?y) with (String c3 (x +:+ y)) in E.
  apply lit_cons_inv in E as (_ & m3 & E).
  destruct x as [|c4 x];
    [change (EmptyString +:+ ?y) with y in E; apply lit_cons_inv in E as (Hc & _);
     vm_compute in Hc; discriminate|].
  change (String c4 x +:+ ?y) with (String c4 (x +:+ y)) in E.
  apply lit_cons_inv in E as (Hc & _).
  cbn [Str.all] in Hall.
  repeat (apply andb_prop in Hall as [? Hall]).
  destruct (word_is_plain c4) as (_ & Heq & _); [assumption|]. congruence.
Qed.

Lemma word_region_blocked (field_name : string) (c : ascii) (x t : string) :
  Chr.isword c = true -> Str.all Chr.isword x = true ->
  blocked (name_part field_name) (String c (x +:+ String Py.dquote t)).
Proof.
  intros Hc Hx prev. unfold name_part. cbn [Re.match_here].
  change (String c (x +:+ String Py.dquote t)) with (String c x +:+ String Py.dquote t).
  rewrite lit_name_word; [reflexivity|reflexivity|].
  cbn [Str.all]. by rewrite Hc, Hx.
Qed.

Lemma lit_word_space (field_name t : string) :
  Str.nonempty field_name = true -> Str.all Chr.isword field_name = true ->
  Re.lit true field_name (String " " t) = None.
Proof.
  intros Hne Hall. destruct field_name as [|a field_name]; [discriminate|].
  cbn [Str.all] in Hall. apply andb_prop in Hall as [Ha _].
  destruct (word_is_plain a Ha) as (_ & _ & Hsp).
  cbn [Re.lit]. by rewrite Hsp.
Qed.

Lemma id_part_shape (field_name s : string) :
  " id=" +:+ quoted field_name (String " " s)
  = (" id=" +:+ String Py.dquote (field_name +:+ String Py.dquote " ")) +:+ s.
Proof.
  unfold quoted.
  change (" id=" +:+ String Py.dquote (field_name +:+ String Py.dquote (String " " s)))
    with (String " " (String "i" (String "d" (String "="
            (String Py.dquote (field_name +:+ String Py.dquote (String " " s))))))).
  change ((" id=" +:+ String Py.dquote (field_name +:+ String Py.dquote " ")) +:+ s)
    with (String " " (String "i" (String "d" (String "="
            (String Py.dquote ((field_name +:+ String Py.dquote " ") +:+ s)))))).
  do 5 f_equal. rewrite append_assoc_s. reflexivity.
Qed.

(** After the name, the second [[^>]*] runs to the end of the tag and
    comes back to the last place where [value=] and a quote follow. *)
Lemma second_star_matches (field_name value : string) (prev : option ascii) :
  Str.all Chr.isword field_name = true ->
  Str.all Tokens.not_quote value = true ->
  captures (Re.match_here true (Re.Star Tokens.not_gt :: value_part) prev
              (" id=" +:+ quoted field_name (" value=" +:+ quoted value " />"))) value.
Proof.
  intros Hname Hvalue. rewrite match_star.
  change (" value=" +:+ quoted value " />") with (String " " ("value=" +:+ quoted value " />")).
  rewrite id_part_shape.
  apply star_captures.
  - change (" id=" +:+ String Py.dquote (field_name +:+ String Py.dquote " "))
      with (String " " (String "i" (String "d" (String "="
              (String Py.dquote (field_name +:+ String Py.dquote " ")))))).
    cbn [Str.all]. rewrite all_append.
    rewrite (all_weaken Chr.isword Tokens.not_gt field_name); [reflexivity| |exact Hname].
    intros c Hc. by destruct (word_is_plain c Hc).
  - by apply value_part_never_later.
  - intros pv. by apply value_part_matches.
Qed.

Lemma name_part_matches (field_name value : string) (prev : option ascii) :
  Str.all Chr.isword field_name = true ->
  Str.all Tokens.not_quote value = true ->
  captures (Re.match_here true (name_part field_name) prev
              ("name=" +:+ quoted field_name
                 (" id=" +:+ quoted field_name (" value=" +:+ quoted value " />")))) value.
Proof.
  intros Hname Hvalue. unfold name_part.
  rewrite (match_lit true "name=" _ prev _ "name="
             (quoted field_name
                (" id=" +:+ quoted field_name (" value=" +:+ quoted value " />"))));
    [|reflexivity].
  apply captures_prepend. unfold quoted at 1.
  rewrite match_class; [|reflexivity]. apply captures_prepend.
  rewrite (match_lit true field_name _ _ _ _ _ (lit_self true field_name _)).
  apply captures_prepend.
  rewrite match_class; [|reflexivity]. apply captures_prepend.
  by apply second_star_matches.
Qed.

Lemma name_part_never_later (field_name value : string) :
  Str.nonempty field_name = true ->
  Str.all Chr.isword field_name = true ->
  Str.all Tokens.not_quote value = true ->
  never_from (name_part field_name)
    ("ame=" +:+ quoted field_name
       (" id=" +:+ quoted field_name (" value=" +:+ quoted value " />"))).
Proof.
  intros Hne Hname Hvalue. unfold quoted.
  change ("ame=" +:+ String Py.dquote ?t)
    with (String "a" (String "m" (String "e" (String "=" (String Py.dquote t))))).
  cbn [never_from]. repeat (split; [intros pv; reflexivity|]).
  apply (never_from_region Chr.isword); [exact Hname|intros c x'; apply word_region_blocked|].
  change (" id=" +:+ String Py.dquote ?t)
    with (String " " (String "i" (String "d" (String "=" (String Py.dquote t))))).
  cbn [never_from]. repeat (split; [intros pv; reflexivity|]).
  apply (never_from_region Chr.isword); [exact Hname|intros c x'; apply word_region_blocked|].
  change (" value=" +:+ String Py.dquote ?t)
    with (String " " (String "v" (String "a" (String "l" (String "u" (String "e"
            (String "=" (String Py.dquote t)))))))).
  cbn [never_from]. repeat (split; [intros pv; reflexivity|]).
  apply (never_from_region Tokens.not_quote); [exact Hvalue| |].
  - intros c x' Hc Hx'.
    change (String c (x' +:+ String Py.dquote " />"))
      with (String c x' +:+ String Py.dquote " />").
    unfold name_part. apply blocked_open.
    + cbn [Str.all]. by rewrite Hc, Hx'.
    + intros r Hin pv. cbn [tails In] in Hin.
      destruct Hin as [<- | Hin].
      * rewrite match_class; [|reflexivity].
        cbn [Re.match_here]. by rewrite lit_word_space.
      * repeat (destruct Hin as [<- | Hin]; [reflexivity|]). destruct Hin.
  - cbn [never_from]. repeat split; intros pv; reflexivity.
Qed.

Lemma first_pattern_matches (field_name value : string) :
  Str.nonempty field_name = true ->
  Str.all Chr.isword field_name = true ->
  Str.all Tokens.not_quote value = true ->
  captures (Re.search true
              (Re.Lit "<input" :: Re.Star Tokens.not_gt :: name_part field_name)
              (hidden_input field_name value)) value.
Proof.
  intros Hne Hname Hvalue.
  assert (Hhere : forall prev,
             captures (Re.match_here true
                         (Re.Lit "<input" :: Re.Star Tokens.not_gt :: name_part field_name)
                         prev (hidden_input field_name value)) value).
  { intros prev. unfold hidden_input.
    rewrite (match_lit true "<input" _ prev _ "<input"
               ((" type=" +:+ String Py.dquote ("hidden" +:+ String Py.dquote " "))
                +:+ ("name=" +:+ quoted field_name
                       (" id=" +:+ quoted field_name (" value=" +:+ quoted value " />")))));
      [|reflexivity].
    apply captures_prepend. rewrite match_star.
    apply star_captures.
    - reflexivity.
    - by apply name_part_never_later.
    - intros pv. by apply name_part_matches. }
  unfold Re.search. rewrite search_from_unfold.
  destruct (Hhere None) as (f & Hf & Hc). rewrite Hf. by exists f.
Qed.

(** X23: a hidden field written as ASP.NET writes it is read back.  For
    a name of word characters and a non-empty value without quotes,
    [extract_hidden_field] finds the value in the tag, equals signs and
    angle brackets in the value included; and for the names
    [extract_aspnet_tokens] looks for, the token it holds is that
    value. *)
Theorem hidden_field_is_read_back (field_name value : string) :
  Str.nonempty field_name = true ->
  Str.all Chr.isword field_name = true ->
  Str.nonempty value = true ->
  Str.all Tokens.not_quote value = true ->
  Tokens.extract_hidden_field (hidden_input field_name value) field_name = Some value
  /\ (field_name ∈ Tokens.tokens_to_extract ++ [Tokens.toolkit_field] ->
      Tokens.extract_aspnet_tokens (hidden_input field_name value) !! field_name
      = Some value).
Proof.
  intros Hne Hname Hv Hvalue.
  assert (Hfield : Tokens.extract_hidden_field (hidden_input field_name value) field_name
                   = Some value).
  { destruct (first_pattern_matches field_name value Hne Hname Hvalue) as (f & Hf & Hc).
    unfold name_part, value_part in Hf.
    unfold Tokens.extract_hidden_field, Tokens.patterns. cbn [List.map].
    unfold Tokens.group1 at 1. rewrite Hf, Hc, Hv. reflexivity. }
  split; [exact Hfield|].
  intros Hin. rewrite aspnet_tokens_lookup.
  destruct (decide _); [exact Hfield | contradiction].
Qed.

Lemma hidden_field_is_read_back_witness :
  Tokens.extract_hidden_field (hidden_input "__VIEWSTATE" "/wEPDwUK=") "__VIEWSTATE"
  = Some "/wEPDwUK="
  /\ Tokens.extract_aspnet_tokens (hidden_input "__VIEWSTATE" "/wEPDwUK=") !! "__VIEWSTATE"
     = Some "/wEPDwUK=".
Proof.
  destruct (hidden_field_is_read_back "__VIEWSTATE" "/wEPDwUK=") as [Hfield Htoken];
    try (vm_compute; reflexivity).
  split; [exact Hfield|]. apply Htoken.
  unfold Tokens.tokens_to_extract. cbn [app]. apply elem_of_cons. left. reflexivity.
Defined.

(** ** The property details of a page *)

Lemma detail_key_listed (h key : string) :
  Brown.detail_key h = Some key -> In key Brown.table_keys.
Proof.
  unfold Brown.detail_key, Brown.table_keys.
  repeat case_match; intros [= <-]; cbn [In]; tauto.
Qed.

Lemma file_cell_keeps (P : string -> string -> Prop) (d : gmap string string)
    (hc : string * string) :
  (forall key value, In key Brown.table_keys -> Str.nonempty value = true -> P key value) ->
  (forall k v, d !! k = Some v -> P k v) ->
  forall k v, Brown.file_cell d hc !! k = Some v -> P k v.
Proof.
  intros HP Hd k v. unfold Brown.file_cell.
  destruct (Str.nonempty (Str.strip (snd hc))) eqn:Hne; [|apply Hd].
  destruct (Brown.detail_key (Str.lower (fst hc))) as [key|] eqn:Hkey; [|apply Hd].
  destruct (decide (key = k)) as [->|Hother].
  - rewrite lookup_insert_eq. intros [= <-]. apply HP; [|exact Hne].
    eapply detail_key_listed. exact Hkey.
  - rewrite lookup_insert_ne by exact Hother. apply Hd.
Qed.

Lemma fold_keeps {A : Type} (f : gmap string string -> A -> gmap string string)
    (P : string -> string -> Prop) :
  (forall d a, (forall k v, d !! k = Some v -> P k v) ->
               forall k v, f d a !! k = Some v -> P k v) ->
  forall l d, (forall k v, d !! k = Some v -> P k v) ->
              forall k v, fold_left f l d !! k = Some v -> P k v.
Proof.
  intros Hf. induction l as [|a l IH]; intros d Hd; [exact Hd|].
  cbn [fold_left]. apply IH. by apply Hf.
Qed.

(** X24: every entry of the details [_extract_property_details] returns
    is either one of the seven keys filled from a table, with a
    non-empty value, or [bill_number] or [net_mill_rate] with the text
    of its element; no other key is ever set, and no table cell that is
    blank after stripping is recorded. *)
Theorem property_details_entries (bill_number net_mill_rate : option string)
    (tables_data : list Brown.table_info) (key value : string) :
  Brown._extract_property_details bill_number net_mill_rate tables_data !! key = Some value ->
  (In key Brown.table_keys /\ Str.nonempty value = true)
  \/ (key = "bill_number" /\ bill_number = Some value)
  \/ (key = "net_mill_rate" /\ net_mill_rate = Some value).
Proof.
  unfold Brown._extract_property_details, Brown.file_element. intros H.
  assert (Htables : forall k v,
             fold_left Brown.file_table tables_data ∅ !! k = Some v ->
             In k Brown.table_keys /\ Str.nonempty v = true).
  { apply (fold_keeps Brown.file_table
             (fun k v => In k Brown.table_keys /\ Str.nonempty v = true)).
    - intros d t Hd k v. unfold Brown.file_table.
      destruct (_ && _); [|apply Hd].
      destruct (Brown.rows t) as [|row rest]; [apply Hd|].
      apply (fold_keeps Brown.file_cell
               (fun k v => In k Brown.table_keys /\ Str.nonempty v = true)); [|exact Hd].
      intros d' hc Hd'. apply file_cell_keeps; [|exact Hd']. by split.
    - intros k v Hk. by rewrite lookup_empty in Hk. }
  destruct net_mill_rate as [rate|].
  - destruct (decide ("net_mill_rate" = key)) as [<-|Hk].
    + rewrite lookup_insert_eq in H. right. right. by split.
    + rewrite lookup_insert_ne in H by exact Hk.
      destruct bill_number as [bill|].
      * destruct (decide ("bill_number" = key)) as [<-|Hk'].
        -- rewrite lookup_insert_eq in H. right. left. by split.
        -- rewrite lookup_insert_ne in H by exact Hk'. left. by apply Htables.
      * left. by apply Htables.
  - destruct bill_number as [bill|].
    + destruct (decide ("bill_number" = key)) as [<-|Hk'].
      * rewrite lookup_insert_eq in H. right. left. by split.
      * rewrite lookup_insert_ne in H by exact Hk'. left. by apply Htables.
    + left. by apply Htables.
Qed.

Lemma property_details_entries_witness :
  (In "owner" Brown.table_keys /\ Str.nonempty "DOE, JANE" = true)
  \/ ("owner" = "bill_number" /\ Some "12345" = Some "DOE, JANE")
  \/ ("owner" = "net_mill_rate" /\ @None string = Some "DOE, JANE").
Proof.
  apply (property_details_entries (Some "12345") None
           [Brown.mkTableInfo ["Tax Year"; "Parcel Number"; "Property Owner"]
                              [["2023"; "  "; " DOE, JANE "]]]).
  vm_compute. reflexivity.
Defined.
